(** * Gas Town fleet lifecycle: start, shutdown, polecat reclamation

    A shallow embedding of [internal/cmd/start.go] (commands [gt start] and
    [gt shutdown]) and of the result record exercised by
    [internal/cmd/sling_json_test.go].

    Conventions of the embedding:
    - a Go [string] is a [string] of bytes; the functions of package
      [strings] that the commands call are written out in [Module strings];
    - a Go [int] is a [Z]; the only arithmetic is counting and the countdown
      of the graceful wait, neither of which can leave the 64-bit range;
    - the collaborators the commands talk to (tmux, git, the rig and polecat
      managers, the workspace lookup, standard input) live outside
      [start.go]; their answers are the fields of a [World] record (an
      answer depends on the call, not on the calls made before it), and
      every call made to them, every sleep and every printed line is
      recorded, in program order, in a trace of [Event]s;
    - the process-wide flag variables are the fields of a [Flags] record;
    - the two session-name constants [MayorSessionName] and
      [DeaconSessionName] are declared in another file of package [cmd];
      they are section variables here. *)

From Stdlib Require Import String Ascii List ZArith Lia Bool.
From Equations Require Import Equations.
Import ListNotations.
Local Open Scope string_scope.
Local Open Scope list_scope.
Local Open Scope Z_scope.

(** ** Package [strings] *)

Module strings.

(** [strings.HasPrefix(s, prefix)]. *)
Definition HasPrefix (s prefix : string) : bool := String.prefix prefix s.

(** [strings.Contains(s, substr)]: [substr] starts at some offset of [s]. *)
Fixpoint Contains (s substr : string) : bool :=
  String.prefix substr s ||
  match s with
  | EmptyString => false
  | String _ s' => Contains s' substr
  end.

(** [strings.Split(s, sep)] for a separator of one byte, which is how
    [categorizeSessions] calls it.  The result is never empty: a string
    without the separator is returned whole. *)
Fixpoint Split (s : string) (sep : ascii) : list string :=
  match s with
  | EmptyString => [EmptyString]
  | String c s' =>
      if Ascii.eqb c sep then EmptyString :: Split s' sep
      else match Split s' sep with
           | seg :: rest => String c seg :: rest
           | [] => [String c EmptyString]
           end
  end.

(** [strings.ToLower] on the ASCII letters.  Bytes outside [A-Z] are kept:
    no rune outside ASCII lowers to one of the letters of "yes", which is
    all the caller compares the result with. *)
Definition lowerByte (c : ascii) : ascii :=
  let n := nat_of_ascii c in
  if (Nat.leb 65 n && Nat.leb n 90)%bool then ascii_of_nat (n + 32) else c.

Fixpoint ToLower (s : string) : string :=
  match s with
  | EmptyString => EmptyString
  | String c s' => String (lowerByte c) (ToLower s')
  end.

Definition bytes (l : list nat) : string :=
  string_of_list_ascii (map ascii_of_nat l).

(** The UTF-8 encodings of the runes for which [unicode.IsSpace] holds. *)
Definition spaceEncodings : list string :=
  map bytes
    [ [9]; [10]; [11]; [12]; [13]; [32]; [194; 133]; [194; 160];
      [225; 154; 128];
      [226; 128; 128]; [226; 128; 129]; [226; 128; 130]; [226; 128; 131];
      [226; 128; 132]; [226; 128; 133]; [226; 128; 134]; [226; 128; 135];
      [226; 128; 136]; [226; 128; 137]; [226; 128; 138];
      [226; 128; 168]; [226; 128; 169]; [226; 128; 175];
      [226; 129; 159]; [227; 128; 128] ]%nat.

Fixpoint drop (n : nat) (s : string) : string :=
  match n, s with
  | S n', String _ s' => drop n' s'
  | _, _ => s
  end.

Fixpoint stripOne (pats : list string) (s : string) : option string :=
  match pats with
  | [] => None
  | p :: pats' =>
      if String.prefix p s then Some (drop (String.length p) s)
      else stripOne pats' s
  end.

Fixpoint trimLeftFuel (fuel : nat) (pats : list string) (s : string) : string :=
  match fuel with
  | O => s
  | S fuel' =>
      match stripOne pats s with
      | Some s' => trimLeftFuel fuel' pats s'
      | None => s
      end
  end.

Definition reverse (s : string) : string :=
  string_of_list_ascii (rev (list_ascii_of_string s)).

Definition TrimLeftSpace (s : string) : string :=
  trimLeftFuel (String.length s) spaceEncodings s.

Definition TrimRightSpace (s : string) : string :=
  reverse (trimLeftFuel (String.length s) (map reverse spaceEncodings) (reverse s)).

(** [strings.TrimSpace]. *)
Definition TrimSpace (s : string) : string :=
  TrimRightSpace (TrimLeftSpace s).

End strings.

(** [ReadString(delim)] of a [bufio.Reader]: the input up to and including the
    first [delim], or all of it when [delim] does not occur (the error is
    dropped by the caller). *)
Fixpoint ReadString (input : string) (delim : ascii) : string :=
  match input with
  | EmptyString => EmptyString
  | String c rest =>
      if Ascii.eqb c delim then String c EmptyString
      else String c (ReadString rest delim)
  end.

Definition newline : ascii := ascii_of_nat 10.


(** ** Data of the collaborating packages *)

(** [Result A] is Go's pair [(A, error)]: a value, or an error message. *)
Inductive Result (A : Type) : Type :=
| Ok (a : A)
| Err (e : string).
Arguments Ok {A} a.
Arguments Err {A} e.

(** Go's [error]: [None] is [nil]. *)
Definition error : Type := option string.

Module rig.
(** The two fields of [rig.Rig] that [cleanupPolecats] reads. *)
Record Rig : Type := { Name : string; Path : string }.
End rig.

Module polecat.
(** The two fields of [polecat.Polecat] that [cleanupPolecats] reads. *)
Record Polecat : Type := { Name : string; ClonePath : string }.
End polecat.

Module git.
(** What [cleanupPolecats] observes of the status returned by
    [CheckUncommittedWork]: the results of its methods [Clean()] and
    [String()]. *)
Record UncommittedWorkStatus : Type := { Clean : bool; String : string }.
End git.

Module time.
(** [time.Duration] counts nanoseconds. *)
Definition Duration : Type := Z.
Definition Millisecond : Duration := 1000000.
Definition Second : Duration := 1000000000.
End time.

(** The flag variables of [start.go]. *)
Record Flags : Type := {
  shutdownGraceful : bool;
  shutdownWait : Z;
  shutdownAll : bool;
  shutdownYes : bool;
  shutdownPolecatsOnly : bool;
  shutdownNuclear : bool
}.

(** The answers of the collaborators.  [RigsConfig] is the type of the loaded
    rigs configuration, which [cleanupPolecats] only hands on to the rig
    manager.  [Join] is [filepath.Join]. *)
Record World : Type := {
  FindFromCwdOrError : Result string;
  FindFromCwd : string;
  HasSession : string -> bool;
  startMayorSession : error;
  startDeaconSession : error;
  ListSessions : Result (list string);
  KillSession : string -> error;
  Stdin : string;
  RigsConfig : Type;
  LoadRigsConfig : string -> Result RigsConfig;
  DiscoverRigs : string -> RigsConfig -> Result (list rig.Rig);
  List : rig.Rig -> Result (list polecat.Polecat);
  CheckUncommittedWork : string -> Result git.UncommittedWorkStatus;
  RemoveWithOptions : rig.Rig -> string -> bool -> bool -> error;
  DeleteBranch : string -> string -> bool -> error;
  Join : list string -> string
}.

(** One constructor per [Printf]/[Println] statement of [start.go]; the
    arguments are the values the statement formats. *)
Inductive Message : Type :=
| MsgStarting (townRoot : string)
| MsgMayorAlreadyRunning
| MsgStartingMayor
| MsgMayorStarted
| MsgDeaconAlreadyRunning
| MsgStartingDeacon
| MsgDeaconStarted
| MsgGasTownIsRunning
| MsgAttachToMayor
| MsgAttachToDeacon
| MsgCheckStatus
| MsgWasNotRunning
| MsgSessionsToStop
| MsgSessionToStop (sess : string)
| MsgSessionsPreserved
| MsgSessionPreserved (sess : string)
| MsgBlankLine
| MsgProceedPrompt
| MsgShutdownCancelled
| MsgGracefulShutdown (wait : Z)
| MsgPhase1 (n : nat)
| MsgInterrupting (sess : string)
| MsgPhase2
| MsgPhase3 (wait : Z)
| MsgPressCtrlC
| MsgRemaining (remaining : Z)
| MsgPhase4
| MsgPhase5
| MsgGracefulComplete (stopped : Z)
| MsgShuttingDown
| MsgCleaningUp
| MsgShutdownComplete (stopped : Z)
| MsgStopped (sess : string)
| MsgCouldNotLoadRigs (e : string)
| MsgCouldNotDiscoverRigs (e : string)
| MsgCouldNotCheck (rigName polecatName : string)
| MsgNuclear (rigName polecatName status : string)
| MsgCleanupFailed (rigName polecatName e : string)
| MsgCleanedUp (rigName polecatName : string)
| MsgUncommittedHeader
| MsgUncommittedItem (pc : string)
| MsgCleanedSkipped (cleaned skipped : Z)
| MsgNoPolecats.

(** What the commands do to the outside, in program order. *)
Inductive Event : Type :=
| EPrint (m : Message)
| EFindFromCwdOrError
| EFindFromCwd
| EHasSession (name : string)
| EStartMayorSession
| EStartDeaconSession
| EListSessions
| ESendKeysRaw (sess keys : string)
| ESendKeys (sess msg : string)
| ESleep (d : time.Duration)
| EKillSession (sess : string)
| EReadStdin
| ELoadRigsConfig (path : string)
| EDiscoverRigs (townRoot : string)
| EList (r : rig.Rig)
| ECheckUncommittedWork (clonePath : string)
| ERemoveWithOptions (r : rig.Rig) (name : string) (force nuclear : bool)
| EDeleteBranch (repoPath branch : string) (force : bool).

(** ** A writer monad for the trace *)

Definition M (A : Type) : Type := (A * list Event)%type.

Definition ret {A : Type} (a : A) : M A := (a, []).

Definition bind {A B : Type} (m : M A) (k : A -> M B) : M B :=
  (fst (k (fst m)), snd m ++ snd (k (fst m))).

Definition call {A : Type} (e : Event) (answer : A) : M A := (answer, [e]).

Definition print (m : Message) : M unit := call (EPrint m) tt.

Declare Scope trace_scope.
Delimit Scope trace_scope with trace.
Notation "x <- c ;; k" := (bind c (fun x => k))
  (at level 61, c at next level, right associativity) : trace_scope.
Notation "c ;; k" := (bind c (fun _ => k))
  (at level 61, right associativity) : trace_scope.
Local Open Scope trace_scope.

(** [for _, x := range l { body }] with the loop-carried variables in [s]. *)
Fixpoint forEach {A S : Type} (l : list A) (body : A -> S -> M S) (s : S) : M S :=
  match l with
  | [] => ret s
  | x :: l' => s' <- body x s ;; forEach l' body s'
  end.

Definition result {A : Type} (m : M A) : A := fst m.
Definition trace {A : Type} (m : M A) : list Event := snd m.

(** ** The calls to the collaborators *)

Module workspace.
Definition FindFromCwdOrError (w : World) : M (Result string) :=
  call EFindFromCwdOrError (FindFromCwdOrError w).
Definition FindFromCwd (w : World) : M string :=
  call EFindFromCwd (FindFromCwd w).
End workspace.

Module tmux.
Definition HasSession (w : World) (name : string) : M bool :=
  call (EHasSession name) (HasSession w name).
Definition ListSessions (w : World) : M (Result (list string)) :=
  call EListSessions (ListSessions w).
Definition SendKeysRaw (w : World) (sess keys : string) : M unit :=
  call (ESendKeysRaw sess keys) tt.
Definition SendKeys (w : World) (sess msg : string) : M unit :=
  call (ESendKeys sess msg) tt.
Definition KillSession (w : World) (sess : string) : M error :=
  call (EKillSession sess) (KillSession w sess).
End tmux.

Definition Sleep (d : time.Duration) : M unit := call (ESleep d) tt.

Definition shutdownMsg : string :=
  "[SHUTDOWN] Gas Town is shutting down. Please save your state and update your handoff bead, then type /exit or wait to be terminated.".

(** The loop-carried variables of [cleanupPolecats]. *)
Record Totals : Type := {
  totalCleaned : Z;
  totalSkipped : Z;
  uncommittedPolecats : list string
}.

Definition skipped (st : Totals) : Totals :=
  {| totalCleaned := totalCleaned st;
     totalSkipped := totalSkipped st + 1;
     uncommittedPolecats := uncommittedPolecats st |}.

Definition cleaned (st : Totals) : Totals :=
  {| totalCleaned := totalCleaned st + 1;
     totalSkipped := totalSkipped st;
     uncommittedPolecats := uncommittedPolecats st |}.

Definition uncommitted (entry : string) (st : Totals) : Totals :=
  {| totalCleaned := totalCleaned st;
     totalSkipped := totalSkipped st + 1;
     uncommittedPolecats := uncommittedPolecats st ++ [entry] |}.

(** [fmt.Sprintf("%s/%s (%s)", rigName, polecatName, status)]. *)
Definition uncommittedEntry (rigName polecatName status : string) : string :=
  (rigName ++ "/" ++ polecatName ++ " (" ++ status ++ ")")%string.

(** [fmt.Sprintf("polecat/%s", name)]. *)
Definition branchName (name : string) : string := ("polecat/" ++ name)%string.

(** The body of the inner loop of [cleanupPolecats], for polecat [p] of rig
    [r].  [inl] is the [continue] of the two guarded branches. *)
Definition cleanupPolecat (f : Flags) (w : World) (r : rig.Rig)
    (p : polecat.Polecat) (st : Totals) : M Totals :=
  status <- call (ECheckUncommittedWork (polecat.ClonePath p))
                 (CheckUncommittedWork w (polecat.ClonePath p)) ;;
  gate <- match status with
          | Err _ =>
              if negb (shutdownNuclear f) then
                print (MsgCouldNotCheck (rig.Name r) (polecat.Name p)) ;;
                ret (inl (skipped st))
              else ret (inr st)
          | Ok status =>
              if negb (git.Clean status) then
                if negb (shutdownNuclear f) then
                  ret (inl (uncommitted
                              (uncommittedEntry (rig.Name r) (polecat.Name p) (git.String status))
                              st))
                else
                  print (MsgNuclear (rig.Name r) (polecat.Name p) (git.String status)) ;;
                  ret (inr st)
              else ret (inr st)
          end ;;
  match gate with
  | inl st' => ret st'
  | inr st =>
      err <- call (ERemoveWithOptions r (polecat.Name p) true (shutdownNuclear f))
                  (RemoveWithOptions w r (polecat.Name p) true (shutdownNuclear f)) ;;
      match err with
      | Some e =>
          print (MsgCleanupFailed (rig.Name r) (polecat.Name p) e) ;;
          ret (skipped st)
      | None =>
          let mayorPath := Join w [rig.Path r; "mayor"; "rig"] in
          _ <- call (EDeleteBranch mayorPath (branchName (polecat.Name p)) true)
                    (DeleteBranch w mayorPath (branchName (polecat.Name p)) true) ;;
          print (MsgCleanedUp (rig.Name r) (polecat.Name p)) ;;
          ret (cleaned st)
      end
  end.

(** The body of the outer loop of [cleanupPolecats], for rig [r]. *)
Definition cleanupRig (f : Flags) (w : World) (r : rig.Rig) (st : Totals) : M Totals :=
  polecats <- call (EList r) (List w r) ;;
  match polecats with
  | Err _ => ret st
  | Ok polecats => forEach polecats (cleanupPolecat f w r) st
  end.

Definition cleanupPolecats (f : Flags) (w : World) (townRoot : string) : M unit :=
  let rigsConfigPath := Join w [townRoot; "mayor"; "rigs.json"] in
  rigsConfig <- call (ELoadRigsConfig rigsConfigPath) (LoadRigsConfig w rigsConfigPath) ;;
  match rigsConfig with
  | Err e => print (MsgCouldNotLoadRigs e)
  | Ok rigsConfig =>
      rigs <- call (EDiscoverRigs townRoot) (DiscoverRigs w townRoot rigsConfig) ;;
      match rigs with
      | Err e => print (MsgCouldNotDiscoverRigs e)
      | Ok rigs =>
          st <- forEach rigs (cleanupRig f w)
                  {| totalCleaned := 0; totalSkipped := 0; uncommittedPolecats := [] |} ;;
          (if (0 <? Z.of_nat (length (uncommittedPolecats st))) then
             print MsgBlankLine ;;
             print MsgUncommittedHeader ;;
             forEach (uncommittedPolecats st) (fun pc _ => print (MsgUncommittedItem pc)) tt
           else ret tt) ;;
          if (0 <? totalCleaned st) || (0 <? totalSkipped st) then
            print (MsgCleanedSkipped (totalCleaned st) (totalSkipped st))
          else print MsgNoPolecats
      end
  end.

(** The countdown of phase 3 of [runGracefulShutdown]:
    [for remaining := shutdownWait; remaining > 0; remaining -= 5].
    [remaining] stays above [-5] and [sleepTime] is at most 5, so neither the
    subtraction nor the product with [time.Second] overflows. *)
Equations? countdown (shutdownWait remaining : Z) : M unit
  by wf (Z.to_nat remaining) lt :=
  countdown shutdownWait remaining with Z_gt_dec remaining 0 => {
    | left _ =>
        (if remaining <? shutdownWait then print (MsgRemaining remaining) else ret tt) ;;
        let sleepTime := if remaining <? 5 then remaining else 5 in
        Sleep (sleepTime * time.Second) ;;
        countdown shutdownWait (remaining - 5)
    | right _ => ret tt }.
Proof. lia. Qed.

(** ** [start.go] *)

Section Commands.

(** The constants [MayorSessionName] and [DeaconSessionName] of package
    [cmd]. *)
Variables MayorSessionName DeaconSessionName : string.

Definition runStart (w : World) : M error :=
  townRoot <- workspace.FindFromCwdOrError w ;;
  match townRoot with
  | Err e => ret (Some ("not in a Gas Town workspace: " ++ e)%string)
  | Ok townRoot =>
      print (MsgStarting townRoot) ;;
      (* Start Mayor first (so Deacon sees it as up) *)
      mayorRunning <- tmux.HasSession w MayorSessionName ;;
      err <- (if mayorRunning : bool then
                print MsgMayorAlreadyRunning ;; ret None
              else
                print MsgStartingMayor ;;
                err <- call EStartMayorSession (startMayorSession w) ;;
                match err with
                | Some e => ret (Some ("starting Mayor: " ++ e)%string)
                | None => print MsgMayorStarted ;; ret None
                end) ;;
      match err with
      | Some e => ret (Some e)
      | None =>
          (* Start Deacon (health monitor) *)
          deaconRunning <- tmux.HasSession w DeaconSessionName ;;
          err <- (if deaconRunning : bool then
                    print MsgDeaconAlreadyRunning ;; ret None
                  else
                    print MsgStartingDeacon ;;
                    err <- call EStartDeaconSession (startDeaconSession w) ;;
                    match err with
                    | Some e => ret (Some ("starting Deacon: " ++ e)%string)
                    | None => print MsgDeaconStarted ;; ret None
                    end) ;;
          match err with
          | Some e => ret (Some e)
          | None =>
              print MsgBlankLine ;;
              print MsgGasTownIsRunning ;;
              print MsgBlankLine ;;
              print MsgAttachToMayor ;;
              print MsgAttachToDeacon ;;
              print MsgCheckStatus ;;
              ret None
          end
      end
  end.

Definition isCrew (sess : string) : bool := strings.Contains sess "-crew-".

Definition isPolecat (sess : string) : bool :=
  if negb (isCrew sess) && negb (sess =? MayorSessionName)%string
     && negb (sess =? DeaconSessionName)%string
  then
    let parts := strings.Split sess "-" in
    if (3 <=? length parts)%nat then
      let role := nth 2 parts EmptyString in
      negb (role =? "witness")%string && negb (role =? "refinery")%string
      && negb (role =? "crew")%string
    else false
  else false.

(** The body of the loop of [categorizeSessions]; the accumulator holds the
    two results, which Go grows with [append]. *)
Definition categorize (f : Flags) (acc : list string * list string) (sess : string)
  : list string * list string :=
  let (toStop, preserved) := acc in
  if negb (strings.HasPrefix sess "gt-") then acc
  else if shutdownPolecatsOnly f then
    if isPolecat sess then (toStop ++ [sess], preserved)
    else (toStop, preserved ++ [sess])
  else if shutdownAll f then (toStop ++ [sess], preserved)
  else if isCrew sess then (toStop, preserved ++ [sess])
  else (toStop ++ [sess], preserved).

Definition categorizeSessions (f : Flags) (sessions : list string)
  : list string * list string :=
  fold_left (categorize f) sessions ([], []).

(** The closure [inList] of [killSessionsInOrder]. *)
Fixpoint inList (sessions : list string) (sess : string) : bool :=
  match sessions with
  | [] => false
  | s :: rest => if (s =? sess)%string then true else inList rest sess
  end.

Definition killSessionsInOrder (w : World) (sessions : list string) : M Z :=
  let stopped := 0 in
  (* 1. Stop Deacon first *)
  stopped <- (if inList sessions DeaconSessionName then
                err <- tmux.KillSession w DeaconSessionName ;;
                match err with
                | None => print (MsgStopped DeaconSessionName) ;; ret (stopped + 1)
                | Some _ => ret stopped
                end
              else ret stopped) ;;
  (* 2. Stop others (except Mayor) *)
  stopped <- forEach sessions
               (fun sess stopped =>
                  if (sess =? DeaconSessionName)%string || (sess =? MayorSessionName)%string
                  then ret stopped
                  else
                    err <- tmux.KillSession w sess ;;
                    match err with
                    | None => print (MsgStopped sess) ;; ret (stopped + 1)
                    | Some _ => ret stopped
                    end)
               stopped ;;
  (* 3. Stop Mayor last *)
  if inList sessions MayorSessionName then
    err <- tmux.KillSession w MayorSessionName ;;
    match err with
    | None => print (MsgStopped MayorSessionName) ;; ret (stopped + 1)
    | Some _ => ret stopped
    end
  else ret stopped.

Definition phase1 (w : World) (gtSessions : list string) : M unit :=
  print (MsgPhase1 (length gtSessions)) ;;
  forEach gtSessions
    (fun sess _ => print (MsgInterrupting sess) ;; tmux.SendKeysRaw w sess "Escape") tt.

Definition phase2 (w : World) (gtSessions : list string) : M unit :=
  print MsgPhase2 ;;
  forEach gtSessions
    (fun sess _ => Sleep (500 * time.Millisecond) ;; tmux.SendKeys w sess shutdownMsg) tt.

Definition phase3 (f : Flags) : M unit :=
  print (MsgPhase3 (shutdownWait f)) ;;
  print MsgPressCtrlC ;;
  countdown (shutdownWait f) (shutdownWait f).

Definition phase4 (w : World) (gtSessions : list string) : M Z :=
  print MsgPhase4 ;;
  killSessionsInOrder w gtSessions.

Definition phase5 (f : Flags) (w : World) (townRoot : string) : M unit :=
  print MsgPhase5 ;;
  if negb (townRoot =? EmptyString)%string then cleanupPolecats f w townRoot else ret tt.

(** [runGracefulShutdown], cut at its five [Phase] comments. *)
Definition runGracefulShutdown (f : Flags) (w : World) (gtSessions : list string)
    (townRoot : string) : M error :=
  print (MsgGracefulShutdown (shutdownWait f)) ;;
  phase1 w gtSessions ;;
  phase2 w gtSessions ;;
  phase3 f ;;
  stopped <- phase4 w gtSessions ;;
  phase5 f w townRoot ;;
  print MsgBlankLine ;;
  print (MsgGracefulComplete stopped) ;;
  ret None.

Definition runImmediateShutdown (f : Flags) (w : World) (gtSessions : list string)
    (townRoot : string) : M error :=
  print MsgShuttingDown ;;
  stopped <- killSessionsInOrder w gtSessions ;;
  (if negb (townRoot =? EmptyString)%string then
     print MsgBlankLine ;;
     print MsgCleaningUp ;;
     cleanupPolecats f w townRoot
   else ret tt) ;;
  print MsgBlankLine ;;
  print (MsgShutdownComplete stopped) ;;
  ret None.

(** The confirmation prompt of [runShutdown]: [true] when the shutdown goes
    on. *)
Definition confirm (f : Flags) (w : World) : M bool :=
  if negb (shutdownYes f) then
    print MsgProceedPrompt ;;
    response <- call EReadStdin (ReadString (Stdin w) newline) ;;
    let response := strings.TrimSpace (strings.ToLower response) in
    if negb (response =? "y")%string && negb (response =? "yes")%string then
      print MsgShutdownCancelled ;;
      ret false
    else ret true
  else ret true.

Definition runShutdown (f : Flags) (w : World) : M error :=
  townRoot <- workspace.FindFromCwd w ;;
  sessions <- tmux.ListSessions w ;;
  match sessions with
  | Err e => ret (Some ("listing sessions: " ++ e)%string)
  | Ok sessions =>
      let (toStop, preserved) := categorizeSessions f sessions in
      if (length toStop =? 0)%nat then
        print MsgWasNotRunning ;;
        ret None
      else
        print MsgSessionsToStop ;;
        forEach toStop (fun sess _ => print (MsgSessionToStop sess)) tt ;;
        (if (0 <? length preserved)%nat && negb (shutdownAll f) then
           print MsgBlankLine ;;
           print MsgSessionsPreserved ;;
           forEach preserved (fun sess _ => print (MsgSessionPreserved sess)) tt
         else ret tt) ;;
        print MsgBlankLine ;;
        proceed <- confirm f w ;;
        if proceed : bool then
          if shutdownGraceful f then runGracefulShutdown f w toStop townRoot
          else runImmediateShutdown f w toStop townRoot
        else ret None
  end.

End Commands.

(** ** Observations on traces and worlds *)

(** The sessions on which [KillSession] was called, in call order. *)
Fixpoint kills (t : list Event) : list string :=
  match t with
  | [] => []
  | EKillSession sess :: t' => sess :: kills t'
  | _ :: t' => kills t'
  end.

Definition isPrint (e : Event) : bool :=
  match e with EPrint _ => true | _ => false end.

(** The trace without the printed lines: calls and sleeps only. *)
Definition actions (t : list Event) : list Event :=
  filter (fun e => negb (isPrint e)) t.

(** The sleeps of a trace, in order. *)
Fixpoint sleeps (t : list Event) : list time.Duration :=
  match t with
  | [] => []
  | ESleep d :: t' => d :: sleeps t'
  | _ :: t' => sleeps t'
  end.

Definition total (ds : list Z) : Z := fold_right Z.add 0 ds.

(** [cleanupPolecats] is the only caller of [LoadRigsConfig] and calls it
    first: the reclamation pass ran exactly when the trace has that call. *)
Definition isLoadRigsConfig (e : Event) : bool :=
  match e with ELoadRigsConfig _ => true | _ => false end.

Definition ranCleanup (t : list Event) : bool := existsb isLoadRigsConfig t.

Definition isStart (e : Event) : bool :=
  match e with EStartMayorSession | EStartDeaconSession => true | _ => false end.

(** The session starts of a trace, in order. *)
Definition starts (t : list Event) : list Event := filter isStart t.

(** The polecats the reclamation pass visits, with their rigs, in visiting
    order: those of the rigs whose listing succeeds. *)
Definition polecatsOf (w : World) (r : rig.Rig) : list (rig.Rig * polecat.Polecat) :=
  match List w r with
  | Ok ps => map (pair r) ps
  | Err _ => []
  end.

Definition visited (w : World) (rigs : list rig.Rig) : list (rig.Rig * polecat.Polecat) :=
  flat_map (polecatsOf w) rigs.

(** The rigs the pass runs over, when it gets that far. *)
Definition discovered (w : World) (townRoot : string) : list rig.Rig :=
  match LoadRigsConfig w (Join w [townRoot; "mayor"; "rigs.json"]) with
  | Ok cfg => match DiscoverRigs w townRoot cfg with
              | Ok rigs => rigs
              | Err _ => []
              end
  | Err _ => []
  end.

(** The outcome of the uncommitted-work check of a polecat. *)
Definition checkFails (w : World) (p : polecat.Polecat) : bool :=
  match CheckUncommittedWork w (polecat.ClonePath p) with
  | Err _ => true
  | Ok _ => false
  end.

Definition isClean (w : World) (p : polecat.Polecat) : bool :=
  match CheckUncommittedWork w (polecat.ClonePath p) with
  | Err _ => false
  | Ok status => git.Clean status
  end.

Definition isUncommitted (w : World) (p : polecat.Polecat) : bool :=
  match CheckUncommittedWork w (polecat.ClonePath p) with
  | Err _ => false
  | Ok status => negb (git.Clean status)
  end.

Definition removalSucceeds (f : Flags) (w : World) (rp : rig.Rig * polecat.Polecat) : bool :=
  match RemoveWithOptions w (fst rp) (polecat.Name (snd rp)) true (shutdownNuclear f) with
  | None => true
  | Some _ => false
  end.

(** The totals after the two loops of [cleanupPolecats] over [rigs]. *)
Definition passTotals (f : Flags) (w : World) (rigs : list rig.Rig) : Totals :=
  result (forEach rigs (cleanupRig f w)
            {| totalCleaned := 0; totalSkipped := 0; uncommittedPolecats := [] |}).

Definition count {A : Type} (P : A -> bool) (l : list A) : Z :=
  Z.of_nat (length (filter P l)).

(** The order in which [killSessionsInOrder] goes through [sessions]. *)
Definition killOrder (MayorSessionName DeaconSessionName : string)
    (sessions : list string) : list string :=
  (if inList sessions DeaconSessionName then [DeaconSessionName] else [])
  ++ filter (fun sess => negb ((sess =? DeaconSessionName)%string
                               || (sess =? MayorSessionName)%string)) sessions
  ++ (if inList sessions MayorSessionName then [MayorSessionName] else []).

Definition killed (w : World) (sess : string) : bool :=
  match KillSession w sess with None => true | Some _ => false end.

(** [w] with another outcome for every branch deletion. *)
Definition withDeleteBranch (w : World) (deleteBranch : string -> string -> bool -> error)
  : World :=
  {| FindFromCwdOrError := FindFromCwdOrError w;
     FindFromCwd := FindFromCwd w;
     HasSession := HasSession w;
     startMayorSession := startMayorSession w;
     startDeaconSession := startDeaconSession w;
     ListSessions := ListSessions w;
     KillSession := KillSession w;
     Stdin := Stdin w;
     RigsConfig := RigsConfig w;
     LoadRigsConfig := LoadRigsConfig w;
     DiscoverRigs := DiscoverRigs w;
     List := List w;
     CheckUncommittedWork := CheckUncommittedWork w;
     RemoveWithOptions := RemoveWithOptions w;
     DeleteBranch := deleteBranch;
     Join := Join w |}.

(** ** The dispatch result record *)

Module sling.

(** Modelled from the spec: the action constants [slingActionSlung],
    [slingActionSpawned] and [slingActionDryRun] are declared in [sling.go],
    which is not among the sources.  The specification lists the action
    taken as one of three ([slung | spawned | dry_run]);
    [TestSlingActionConstants] fixes their spellings. *)
Inductive slingAction : Type :=
| slingActionSlung
| slingActionSpawned
| slingActionDryRun.

Definition actionString (a : slingAction) : string :=
  match a with
  | slingActionSlung => "slung"
  | slingActionSpawned => "spawned"
  | slingActionDryRun => "dry_run"
  end.

(** Modelled from the spec: the record [slingResult] of [sling.go], with
    the fields that the literals of [TestSlingResult_JSON] set. *)
Record slingResult : Type := {
  Action : slingAction;
  BeadID : string;
  OriginalBeadID : string;
  Target : string;
  Formula : string;
  WispID : string;
  ConvoyID : string;
  SpawnedPolecat : bool;
  PolecatName : string;
  NudgeSent : bool
}.

(** The JSON values a result holds. *)
Inductive Value : Type :=
| VString (s : string)
| VBool (b : bool).

(** A JSON object: its members in encoding order. *)
Definition Object : Type := list (string * Value).

(** A string member tagged [omitempty]. *)
Definition omitemptyString (key s : string) : Object :=
  if (s =? EmptyString)%string then [] else [(key, VString s)].

(** A boolean member tagged [omitempty]. *)
Definition omitemptyBool (key : string) (b : bool) : Object :=
  if b then [(key, VBool b)] else [].

(** Modelled from the spec: [json.Marshal] of a [slingResult], that is the
    struct tags of [sling.go].  The keys are those [TestSlingResult_JSON]
    looks up; the five keys [TestSlingResult_OmitEmpty] names are
    [omitempty]; [action], [bead_id], [target] and [nudge_sent] are expected
    by the tests even when empty or false.  Neither test decides whether
    [spawned_polecat] is [omitempty]; it is taken to be. *)
Definition Marshal (r : slingResult) : Object :=
  [("action", VString (actionString (Action r)));
   ("bead_id", VString (BeadID r))]
  ++ omitemptyString "original_bead_id" (OriginalBeadID r)
  ++ [("target", VString (Target r))]
  ++ omitemptyString "formula" (Formula r)
  ++ omitemptyString "wisp_id" (WispID r)
  ++ omitemptyString "convoy_id" (ConvoyID r)
  ++ omitemptyBool "spawned_polecat" (SpawnedPolecat r)
  ++ omitemptyString "polecat_name" (PolecatName r)
  ++ [("nudge_sent", VBool (NudgeSent r))].

(** The member of an object under a key, as [got[key]] after
    [json.Unmarshal] into a map. *)
Fixpoint get (key : string) (o : Object) : option Value :=
  match o with
  | [] => None
  | (k, v) :: o' => if (k =? key)%string then Some v else get key o'
  end.

End sling.

(** ** The specification's wording, where it differs from the code *)

Section Wording.

Variables MayorSessionName DeaconSessionName : string.

Definition isSingleton (sess : string) : bool :=
  (sess =? MayorSessionName)%string || (sess =? DeaconSessionName)%string.

(** A monitor-role session: the role segment of
    [<prefix>-<project>-<role>[-<name>]] is one of the two monitor roles. *)
Definition isMonitor (sess : string) : bool :=
  match strings.Split sess "-" with
  | _ :: _ :: role :: _ => (role =? "witness")%string || (role =? "refinery")%string
  | _ => false
  end.

(** The specification's ephemeral worker: "neither a singleton, nor a
    persistent named worker, nor a monitor-role session (the complement
    set)". *)
Definition ephemeralAsWorded (sess : string) : bool :=
  negb (isSingleton sess) && negb (isCrew sess) && negb (isMonitor sess).

(** C2 as worded, for the polecats-only policy. *)
Definition polecatsOnlyAsWorded (f : Flags) (sessions : list string) : Prop :=
  categorizeSessions MayorSessionName DeaconSessionName f sessions
  = (filter (fun s => strings.HasPrefix s "gt-" && ephemeralAsWorded s) sessions,
     filter (fun s => strings.HasPrefix s "gt-" && negb (ephemeralAsWorded s)) sessions).

(** C6 as worded, in its last part: with both sessions live, startup
    starts nothing and succeeds. *)
Definition startupAsWorded (w : World) : Prop :=
  HasSession w MayorSessionName = true ->
  HasSession w DeaconSessionName = true ->
  starts (trace (runStart MayorSessionName DeaconSessionName w)) = []
  /\ result (runStart MayorSessionName DeaconSessionName w) = None.

(** The five phases of the graceful shutdown as sequences of calls and
    sleeps, with [reclamation] for the fifth: an interrupt per session; a
    stagger and the notice per session; the waits of the countdown, of at
    most five seconds each, which add up to the configured bound; the
    kills in termination order; the reclamation. *)
Definition fivePhases (f : Flags) (w : World) (gtSessions : list string)
    (townRoot : string) (reclamation : list Event) : Prop :=
  exists waits : list time.Duration,
    actions (trace (runGracefulShutdown MayorSessionName DeaconSessionName
                      f w gtSessions townRoot))
    = map (fun sess => ESendKeysRaw sess "Escape") gtSessions
      ++ flat_map (fun sess => [ESleep (500 * time.Millisecond);
                                ESendKeys sess shutdownMsg]) gtSessions
      ++ map ESleep waits
      ++ map EKillSession (killOrder MayorSessionName DeaconSessionName gtSessions)
      ++ reclamation
    /\ total waits = shutdownWait f * time.Second
    /\ Forall (fun d => 0 < d <= 5 * time.Second) waits.

(** C5 as worded: the fifth phase is the reclamation pass. *)
Definition gracefulAsWorded (f : Flags) (w : World) (gtSessions : list string)
    (townRoot : string) : Prop :=
  fivePhases f w gtSessions townRoot (actions (trace (cleanupPolecats f w townRoot))).

End Wording.

(** C4 as worded: every clean polecat the pass visits is removed, has its
    branch deleted and is counted as cleaned. *)
Definition cleanAsWorded (f : Flags) (w : World) (townRoot : string) : Prop :=
  let t := trace (cleanupPolecats f w townRoot) in
  let rigs := discovered w townRoot in
  (forall r p, In (r, p) (visited w rigs) -> isClean w p = true ->
     In (ERemoveWithOptions r (polecat.Name p) true (shutdownNuclear f)) t
     /\ In (EDeleteBranch (Join w [rig.Path r; "mayor"; "rig"])
              (branchName (polecat.Name p)) true) t)
  /\ count (fun rp => isClean w (snd rp)) (visited w rigs)
     <= totalCleaned (passTotals f w rigs).

(** ** Inputs used in the examples *)

(** The flags as [init] registers them: nothing set, a wait of 30 seconds. *)
Definition defaultFlags : Flags :=
  {| shutdownGraceful := false; shutdownWait := 30; shutdownAll := false;
     shutdownYes := false; shutdownPolecatsOnly := false; shutdownNuclear := false |}.

Definition allFlags : Flags :=
  {| shutdownGraceful := false; shutdownWait := 30; shutdownAll := true;
     shutdownYes := false; shutdownPolecatsOnly := false; shutdownNuclear := false |}.

Definition polecatsOnlyFlags : Flags :=
  {| shutdownGraceful := false; shutdownWait := 30; shutdownAll := false;
     shutdownYes := false; shutdownPolecatsOnly := true; shutdownNuclear := false |}.

(** A town with every kind of session, next to two sessions of the user. *)
Definition townSessions : list string :=
  ["vim"; "gt-gastown-Toast"; "gt-mayor"; "gt-gastown-crew-joe";
   "gt-gastown-witness"; "gt-deacon"; "gt-gastown-refinery"; "gtx-notes"].

(** Whether [categorizeSessions] puts a fleet session in [toStop]. *)
Definition stops (MayorSessionName DeaconSessionName : string) (f : Flags)
    (sess : string) : bool :=
  if shutdownPolecatsOnly f then isPolecat MayorSessionName DeaconSessionName sess
  else if shutdownAll f then true
  else negb (isCrew sess).

(** A session of the town that is neither a worker of a rig nor one of the
    two singletons. *)
Definition bootSession : string := "gt-boot".

(** Whether the pass goes on to remove a polecat after the check. *)
Definition proceeds (f : Flags) (w : World) (p : polecat.Polecat) : bool :=
  shutdownNuclear f || isClean w p.

(** Whether the pass counts a visited polecat as cleaned. *)
Definition reclaimed (f : Flags) (w : World) (rp : rig.Rig * polecat.Polecat) : bool :=
  proceeds f w (snd rp) && removalSucceeds f w rp.

(** Whether the pass lists a visited polecat among the uncommitted ones. *)
Definition reported (f : Flags) (w : World) (rp : rig.Rig * polecat.Polecat) : bool :=
  negb (shutdownNuclear f) && isUncommitted w (snd rp).

(** The line of the final report for a polecat with uncommitted work. *)
Definition entryOf (w : World) (rp : rig.Rig * polecat.Polecat) : string :=
  match CheckUncommittedWork w (polecat.ClonePath (snd rp)) with
  | Ok status =>
      uncommittedEntry (rig.Name (fst rp)) (polecat.Name (snd rp)) (git.String status)
  | Err _ => EmptyString
  end.

(** The loop body of [cleanupPolecats] past the check, with the lines
    printed between check and removal in [warning]: the removal, and after a
    removal that succeeded the branch deletion. *)
Definition removal (f : Flags) (w : World) (warning : list Event) (r : rig.Rig)
    (p : polecat.Polecat) (st : Totals) : M Totals :=
  match RemoveWithOptions w r (polecat.Name p) true (shutdownNuclear f) with
  | Some e =>
      (skipped st,
       ECheckUncommittedWork (polecat.ClonePath p) :: warning
       ++ [ERemoveWithOptions r (polecat.Name p) true (shutdownNuclear f);
           EPrint (MsgCleanupFailed (rig.Name r) (polecat.Name p) e)])
  | None =>
      (cleaned st,
       ECheckUncommittedWork (polecat.ClonePath p) :: warning
       ++ [ERemoveWithOptions r (polecat.Name p) true (shutdownNuclear f);
           EDeleteBranch (Join w [rig.Path r; "mayor"; "rig"])
             (branchName (polecat.Name p)) true;
           EPrint (MsgCleanedUp (rig.Name r) (polecat.Name p))])
  end.

(** The totals before the first rig. *)
Definition noTotals : Totals :=
  {| totalCleaned := 0; totalSkipped := 0; uncommittedPolecats := [] |}.

(** The lines of the summary of [cleanupPolecats] for given totals. *)
Definition report (st : Totals) : list Event :=
  (if (0 <? Z.of_nat (length (uncommittedPolecats st)))
   then EPrint MsgBlankLine :: EPrint MsgUncommittedHeader
        :: map (fun pc => EPrint (MsgUncommittedItem pc)) (uncommittedPolecats st)
   else [])
  ++ [EPrint (if (0 <? totalCleaned st) || (0 <? totalSkipped st)
              then MsgCleanedSkipped (totalCleaned st) (totalSkipped st)
              else MsgNoPolecats)].

(** A town at "/town" with one rig and four polecats: Toast is clean; nux
    has uncommitted work; the check of rust fails; slit is clean but its
    worktree cannot be removed.  Two fleet sessions and one crew session are
    live. *)
Definition gastown : rig.Rig := {| rig.Name := "gastown"; rig.Path := "/town/gastown" |}.

Definition Toast : polecat.Polecat :=
  {| polecat.Name := "Toast"; polecat.ClonePath := "/town/gastown/polecats/Toast" |}.
Definition nux : polecat.Polecat :=
  {| polecat.Name := "nux"; polecat.ClonePath := "/town/gastown/polecats/nux" |}.
Definition rust : polecat.Polecat :=
  {| polecat.Name := "rust"; polecat.ClonePath := "/town/gastown/polecats/rust" |}.
Definition slit : polecat.Polecat :=
  {| polecat.Name := "slit"; polecat.ClonePath := "/town/gastown/polecats/slit" |}.

Definition joinSlash (elems : list string) : string := String.concat "/" elems.

Definition town : World :=
  {| FindFromCwdOrError := Ok "/town";
     FindFromCwd := "/town";
     HasSession := fun name => (name =? "gt-mayor")%string || (name =? "gt-deacon")%string;
     startMayorSession := None;
     startDeaconSession := None;
     ListSessions := Ok ["gt-gastown-Toast"; "gt-mayor"; "gt-gastown-crew-joe"; "gt-deacon"];
     KillSession := fun _ => None;
     Stdin := EmptyString;
     RigsConfig := unit;
     LoadRigsConfig := fun _ => Ok tt;
     DiscoverRigs := fun _ _ => Ok [gastown];
     List := fun _ => Ok [Toast; nux; rust; slit];
     CheckUncommittedWork := fun clonePath =>
       if (clonePath =? "/town/gastown/polecats/nux")%string
       then Ok {| git.Clean := false; git.String := "2 uncommitted files" |}
       else if (clonePath =? "/town/gastown/polecats/rust")%string
            then Err "not a git repository"
            else Ok {| git.Clean := true; git.String := "clean" |};
     RemoveWithOptions := fun _ name _ _ =>
       if (name =? "slit")%string then Some "worktree is locked" else None;
     DeleteBranch := fun _ _ _ => None;
     Join := joinSlash |}.

Definition nuclearFlags : Flags :=
  {| shutdownGraceful := false; shutdownWait := 30; shutdownAll := false;
     shutdownYes := false; shutdownPolecatsOnly := false; shutdownNuclear := true |}.

(** The sessions default flags select in [town]. *)
Definition townToStop : list string := ["gt-gastown-Toast"; "gt-mayor"; "gt-deacon"].

(** [w] with other live sessions, and with other input on the terminal. *)
Definition withSessions (w : World) (sessions : list string) : World :=
  {| FindFromCwdOrError := FindFromCwdOrError w;
     FindFromCwd := FindFromCwd w;
     HasSession := fun name => inList sessions name;
     startMayorSession := startMayorSession w;
     startDeaconSession := startDeaconSession w;
     ListSessions := Ok sessions;
     KillSession := KillSession w;
     Stdin := Stdin w;
     RigsConfig := RigsConfig w;
     LoadRigsConfig := LoadRigsConfig w;
     DiscoverRigs := DiscoverRigs w;
     List := List w;
     CheckUncommittedWork := CheckUncommittedWork w;
     RemoveWithOptions := RemoveWithOptions w;
     DeleteBranch := DeleteBranch w;
     Join := Join w |}.

Definition withStdin (w : World) (input : string) : World :=
  {| FindFromCwdOrError := FindFromCwdOrError w;
     FindFromCwd := FindFromCwd w;
     HasSession := HasSession w;
     startMayorSession := startMayorSession w;
     startDeaconSession := startDeaconSession w;
     ListSessions := ListSessions w;
     KillSession := KillSession w;
     Stdin := input;
     RigsConfig := RigsConfig w;
     LoadRigsConfig := LoadRigsConfig w;
     DiscoverRigs := DiscoverRigs w;
     List := List w;
     CheckUncommittedWork := CheckUncommittedWork w;
     RemoveWithOptions := RemoveWithOptions w;
     DeleteBranch := DeleteBranch w;
     Join := Join w |}.

(** The four sessions of the specification's example, in an order of
    discovery that has the Mayor before the Deacon and a worker first. *)
Definition fourSessions : list string :=
  ["gt-gastown-a"; "gt-mayor"; "gt-deacon"; "gt-gastown-b"].

(** The flags of [gt shutdown --yes]. *)
Definition yesFlags : Flags :=
  {| shutdownGraceful := false; shutdownWait := 30; shutdownAll := false;
     shutdownYes := true; shutdownPolecatsOnly := false; shutdownNuclear := false |}.

(** A town where only a crew session and a session of the user are live. *)
Definition crewOnly : list string := ["gt-gastown-crew-joe"; "vim"].

(** [town] with an answer typed at the prompt, and [town] seen from a
    directory outside any workspace. *)
Definition townAnswering (answer : string) : World :=
  withStdin town (answer ++ String newline EmptyString)%string.

Definition outsideTown : World :=
  {| FindFromCwdOrError := Err "no workspace found";
     FindFromCwd := EmptyString;
     HasSession := HasSession town;
     startMayorSession := startMayorSession town;
     startDeaconSession := startDeaconSession town;
     ListSessions := ListSessions town;
     KillSession := KillSession town;
     Stdin := Stdin town;
     RigsConfig := RigsConfig town;
     LoadRigsConfig := LoadRigsConfig town;
     DiscoverRigs := DiscoverRigs town;
     List := List town;
     CheckUncommittedWork := CheckUncommittedWork town;
     RemoveWithOptions := RemoveWithOptions town;
     DeleteBranch := DeleteBranch town;
     Join := Join town |}.

(** The results of [TestSlingResult_JSON] and [TestSlingResult_OmitEmpty]. *)
Definition emptyResult (action : sling.slingAction) (beadID target : string)
  : sling.slingResult :=
  {| sling.Action := action; sling.BeadID := beadID; sling.OriginalBeadID := EmptyString;
     sling.Target := target; sling.Formula := EmptyString; sling.WispID := EmptyString;
     sling.ConvoyID := EmptyString; sling.SpawnedPolecat := false; sling.PolecatName := EmptyString;
     sling.NudgeSent := false |}.

Definition basicSlung : sling.slingResult :=
  {| sling.Action := sling.slingActionSlung; sling.BeadID := "gt-abc123";
     sling.OriginalBeadID := EmptyString; sling.Target := "gastown/crew/joe";
     sling.Formula := EmptyString; sling.WispID := EmptyString; sling.ConvoyID := EmptyString;
     sling.SpawnedPolecat := false; sling.PolecatName := EmptyString; sling.NudgeSent := true |}.

Definition spawnedPolecat : sling.slingResult :=
  {| sling.Action := sling.slingActionSpawned; sling.BeadID := "gt-abc123";
     sling.OriginalBeadID := EmptyString; sling.Target := "gastown/polecats/Toast";
     sling.Formula := EmptyString; sling.WispID := EmptyString; sling.ConvoyID := EmptyString;
     sling.SpawnedPolecat := true; sling.PolecatName := "Toast";
     sling.NudgeSent := true |}.

Definition formulaOnBead : sling.slingResult :=
  {| sling.Action := sling.slingActionSlung; sling.BeadID := "gt-wisp-xyz";
     sling.OriginalBeadID := "gt-abc123"; sling.Target := "mayor/";
     sling.Formula := "mol-review"; sling.WispID := "gt-wisp-xyz"; sling.ConvoyID := EmptyString;
     sling.SpawnedPolecat := false; sling.PolecatName := EmptyString; sling.NudgeSent := true |}.

Definition withConvoy : sling.slingResult :=
  {| sling.Action := sling.slingActionSlung; sling.BeadID := "gt-abc123";
     sling.OriginalBeadID := EmptyString; sling.Target := "gastown/polecats/nux";
     sling.Formula := EmptyString; sling.WispID := EmptyString; sling.ConvoyID := "gt-convoy-456";
     sling.SpawnedPolecat := false; sling.PolecatName := EmptyString; sling.NudgeSent := true |}.

(** ** Further inputs and observations *)

(** The flags of [gt shutdown --all --polecats-only --graceful --yes]. *)
Definition allAndPolecatsOnlyFlags : Flags :=
  {| shutdownGraceful := true; shutdownWait := 12; shutdownAll := true;
     shutdownYes := true; shutdownPolecatsOnly := true; shutdownNuclear := false |}.

(** The calls [cleanupPolecats] makes. *)
Definition isCleanupCall (e : Event) : bool :=
  match e with
  | ELoadRigsConfig _ | EDiscoverRigs _ | EList _ | ECheckUncommittedWork _
  | ERemoveWithOptions _ _ _ _ | EDeleteBranch _ _ _ => true
  | _ => false
  end.

(** Whether the shutdown goes on past the prompt: [--yes], or the answer
    "y" or "yes". *)
Definition confirmed (f : Flags) (w : World) : bool :=
  shutdownYes f
  || (strings.TrimSpace (strings.ToLower (ReadString (Stdin w) newline)) =? "y")%string
  || (strings.TrimSpace (strings.ToLower (ReadString (Stdin w) newline)) =? "yes")%string.

(** What [runShutdown] does once the prompt is behind it. *)
Definition afterPrompt (MayorSessionName DeaconSessionName : string) (f : Flags)
    (w : World) (toStop : list string) : M error :=
  if result (confirm f w) then
    if shutdownGraceful f
    then runGracefulShutdown MayorSessionName DeaconSessionName f w toStop (FindFromCwd w)
    else runImmediateShutdown MayorSessionName DeaconSessionName f w toStop (FindFromCwd w)
  else ret None.

(** The four kinds of call of the loops of [cleanupPolecats]. *)
Definition isListing (e : Event) : bool :=
  match e with EList _ => true | _ => false end.

Definition isCheck (e : Event) : bool :=
  match e with ECheckUncommittedWork _ => true | _ => false end.

Definition isRemoval (e : Event) : bool :=
  match e with ERemoveWithOptions _ _ _ _ => true | _ => false end.

Definition isDeletion (e : Event) : bool :=
  match e with EDeleteBranch _ _ _ => true | _ => false end.

(** The calls the pass makes for a polecat of a rig. *)
Definition checkOf (rp : rig.Rig * polecat.Polecat) : Event :=
  ECheckUncommittedWork (polecat.ClonePath (snd rp)).

Definition removalOf (f : Flags) (rp : rig.Rig * polecat.Polecat) : Event :=
  ERemoveWithOptions (fst rp) (polecat.Name (snd rp)) true (shutdownNuclear f).

Definition deletionOf (w : World) (rp : rig.Rig * polecat.Polecat) : Event :=
  EDeleteBranch (Join w [rig.Path (fst rp); "mayor"; "rig"])
    (branchName (polecat.Name (snd rp))) true.

(** [town] when tmux cannot start a session and no session is live. *)
Definition stuckTown : World :=
  {| FindFromCwdOrError := FindFromCwdOrError town;
     FindFromCwd := FindFromCwd town;
     HasSession := fun _ => false;
     startMayorSession := Some "tmux: command not found";
     startDeaconSession := Some "tmux: command not found";
     ListSessions := Ok [];
     KillSession := KillSession town;
     Stdin := Stdin town;
     RigsConfig := RigsConfig town;
     LoadRigsConfig := LoadRigsConfig town;
     DiscoverRigs := DiscoverRigs town;
     List := List town;
     CheckUncommittedWork := CheckUncommittedWork town;
     RemoveWithOptions := RemoveWithOptions town;
     DeleteBranch := DeleteBranch town;
     Join := Join town |}.

(** A second rig, whose polecats cannot be listed, discovered before
    [gastown]. *)
Definition beads : rig.Rig := {| rig.Name := "beads"; rig.Path := "/town/beads" |}.

Definition twoRigs : World :=
  {| FindFromCwdOrError := FindFromCwdOrError town;
     FindFromCwd := FindFromCwd town;
     HasSession := HasSession town;
     startMayorSession := startMayorSession town;
     startDeaconSession := startDeaconSession town;
     ListSessions := ListSessions town;
     KillSession := KillSession town;
     Stdin := Stdin town;
     RigsConfig := RigsConfig town;
     LoadRigsConfig := LoadRigsConfig town;
     DiscoverRigs := fun _ _ => Ok [beads; gastown];
     List := fun r => if (rig.Name r =? "beads")%string
                      then Err "no polecats directory"
                      else List town r;
     CheckUncommittedWork := CheckUncommittedWork town;
     RemoveWithOptions := RemoveWithOptions town;
     DeleteBranch := DeleteBranch town;
     Join := Join town |}.

(** [town] without its rigs configuration. *)
Definition unconfiguredTown : World :=
  {| FindFromCwdOrError := FindFromCwdOrError town;
     FindFromCwd := FindFromCwd town;
     HasSession := HasSession town;
     startMayorSession := startMayorSession town;
     startDeaconSession := startDeaconSession town;
     ListSessions := ListSessions town;
     KillSession := KillSession town;
     Stdin := Stdin town;
     RigsConfig := unit;
     LoadRigsConfig := fun _ => Err "no such file";
     DiscoverRigs := fun _ _ => Ok [gastown];
     List := List town;
     CheckUncommittedWork := CheckUncommittedWork town;
     RemoveWithOptions := RemoveWithOptions town;
     DeleteBranch := DeleteBranch town;
     Join := Join town |}.

(** * Proofs *)

(** ** The trace monad *)

Lemma trace_bind {A B : Type} (m : M A) (k : A -> M B) :
  trace (bind m k) = trace m ++ trace (k (result m)).
Proof. reflexivity. Qed.

Lemma result_bind {A B : Type} (m : M A) (k : A -> M B) :
  result (bind m k) = result (k (result m)).
Proof. reflexivity. Qed.

(** Runs the monadic operations as far as the answers of the world are
    known. *)
Ltac run := unfold bind, call, print, ret; cbn [fst snd app].

Lemma kills_app (t1 t2 : list Event) : kills (t1 ++ t2) = kills t1 ++ kills t2.
Proof.
  induction t1 as [|e t1 IH]; simpl; [reflexivity|].
  destruct e; simpl; rewrite ?IH; reflexivity.
Qed.

Lemma sleeps_app (t1 t2 : list Event) : sleeps (t1 ++ t2) = sleeps t1 ++ sleeps t2.
Proof.
  induction t1 as [|e t1 IH]; simpl; [reflexivity|].
  destruct e; simpl; rewrite ?IH; reflexivity.
Qed.

Lemma actions_app (t1 t2 : list Event) : actions (t1 ++ t2) = actions t1 ++ actions t2.
Proof. apply filter_app. Qed.

Lemma starts_app (t1 t2 : list Event) : starts (t1 ++ t2) = starts t1 ++ starts t2.
Proof. apply filter_app. Qed.

Lemma ranCleanup_app (t1 t2 : list Event) :
  ranCleanup (t1 ++ t2) = ranCleanup t1 || ranCleanup t2.
Proof. apply existsb_app. Qed.

Lemma total_app (l1 l2 : list Z) : total (l1 ++ l2) = total l1 + total l2.
Proof. induction l1 as [|d l1 IH]; simpl; [reflexivity | rewrite IH; lia]. Qed.

Lemma count_app {A : Type} (P : A -> bool) (l1 l2 : list A) :
  count P (l1 ++ l2) = count P l1 + count P l2.
Proof. unfold count. rewrite filter_app, length_app. lia. Qed.

(** A loop whose body only prints leaves no call behind. *)
Lemma forEach_print_trace {A : Type} (msg : A -> Message) (l : list A) :
  trace (forEach l (fun x _ => print (msg x)) tt) = map (fun x => EPrint (msg x)) l.
Proof.
  induction l as [|x l IH]; [reflexivity|].
  simpl forEach. rewrite trace_bind. simpl. f_equal. exact IH.
Qed.

Lemma kills_prints {A : Type} (msg : A -> Message) (l : list A) :
  kills (map (fun x => EPrint (msg x)) l) = [].
Proof. induction l; simpl; auto. Qed.

Lemma ranCleanup_prints {A : Type} (msg : A -> Message) (l : list A) :
  ranCleanup (map (fun x => EPrint (msg x)) l) = false.
Proof. induction l; simpl; auto. Qed.

(** ** Package [strings] at work *)

Example Split_rig :
  strings.Split "gt-gastown-crew-joe" "-" = ["gt"; "gastown"; "crew"; "joe"].
Proof. reflexivity. Qed.

Example Split_empty : strings.Split EmptyString "-" = [EmptyString].
Proof. reflexivity. Qed.

Example Split_trailing : strings.Split "gt-" "-" = ["gt"; EmptyString].
Proof. reflexivity. Qed.

Example TrimSpace_yes :
  strings.TrimSpace
    (strings.ToLower (ReadString (strings.bytes [32; 89; 101; 83; 13; 10; 110]%nat) newline))
  = "yes".
Proof. reflexivity. Qed.

Example TrimSpace_nbsp :
  strings.TrimSpace (strings.bytes [194; 160; 121; 226; 128; 168; 10]%nat) = "y".
Proof. reflexivity. Qed.

Lemma Split_nonempty (s : string) (sep : ascii) : strings.Split s sep <> [].
Proof.
  destruct s as [|c s]; simpl; [discriminate|].
  destruct (Ascii.eqb c sep); [discriminate|].
  destruct (strings.Split s sep); discriminate.
Qed.

(** ** Classification of the sessions *)

Section Classification.

Variables MayorSessionName DeaconSessionName : string.

Local Abbreviation categorize := (categorize MayorSessionName DeaconSessionName).
Local Abbreviation categorizeSessions :=
  (categorizeSessions MayorSessionName DeaconSessionName).
Local Abbreviation isPolecat := (isPolecat MayorSessionName DeaconSessionName).
Local Abbreviation stops := (stops MayorSessionName DeaconSessionName).

(** The loop of [categorizeSessions] is a pair of filters. *)
Lemma categorize_fold (f : Flags) (sessions toStop preserved : list string) :
  fold_left (categorize f) sessions (toStop, preserved)
  = (toStop ++ filter (fun s => strings.HasPrefix s "gt-" && stops f s) sessions,
     preserved ++ filter (fun s => strings.HasPrefix s "gt-" && negb (stops f s)) sessions).
Proof.
  revert toStop preserved.
  induction sessions as [|sess sessions IH]; intros toStop preserved; simpl.
  - now rewrite !app_nil_r.
  - assert (E : stops f sess
                = if shutdownPolecatsOnly f then isPolecat sess
                  else if shutdownAll f then true else negb (isCrew sess))
      by reflexivity.
    rewrite !E. clear E.
    destruct (strings.HasPrefix sess "gt-"); simpl; [|apply IH].
    destruct (shutdownPolecatsOnly f).
    + destruct (isPolecat sess); simpl; rewrite IH, <- app_assoc; reflexivity.
    + destruct (shutdownAll f); simpl; [rewrite IH, <- app_assoc; reflexivity|].
      destruct (isCrew sess); simpl; rewrite IH, <- app_assoc; reflexivity.
Qed.

Lemma categorizeSessions_filter (f : Flags) (sessions : list string) :
  categorizeSessions f sessions
  = (filter (fun s => strings.HasPrefix s "gt-" && stops f s) sessions,
     filter (fun s => strings.HasPrefix s "gt-" && negb (stops f s)) sessions).
Proof. unfold categorizeSessions. now rewrite categorize_fold. Qed.

(** Everything [categorizeSessions] returns is a listed fleet session. *)
Lemma toStop_fleet (f : Flags) (sessions : list string) (sess : string) :
  In sess (fst (categorizeSessions f sessions)) ->
  In sess sessions /\ strings.HasPrefix sess "gt-" = true.
Proof.
  rewrite categorizeSessions_filter; simpl. rewrite filter_In.
  intros [Hin H]. apply andb_prop in H. tauto.
Qed.

Lemma preserved_fleet (f : Flags) (sessions : list string) (sess : string) :
  In sess (snd (categorizeSessions f sessions)) ->
  In sess sessions /\ strings.HasPrefix sess "gt-" = true.
Proof.
  rewrite categorizeSessions_filter; simpl. rewrite filter_In.
  intros [Hin H]. apply andb_prop in H. tauto.
Qed.

(** What [isPolecat] asks of a session name. *)
Lemma isPolecat_spec (sess : string) :
  isPolecat sess = true <->
  isSingleton MayorSessionName DeaconSessionName sess = false
  /\ isCrew sess = false
  /\ exists role, nth_error (strings.Split sess "-") 2 = Some role
                  /\ role <> "witness" /\ role <> "refinery" /\ role <> "crew".
Proof.
  unfold isPolecat, isSingleton.
  destruct (isCrew sess); simpl; [intuition discriminate|].
  destruct (sess =? MayorSessionName)%string; simpl; [intuition discriminate|].
  destruct (sess =? DeaconSessionName)%string; simpl; [intuition discriminate|].
  destruct (strings.Split sess "-") as [|p0 [|p1 [|role rest]]]; simpl;
    try (split; [discriminate | intros (_ & _ & role & H & _); discriminate]).
  split.
  - intros H. repeat split. exists role. split; [reflexivity|].
    apply andb_prop in H as [H Hc]. apply andb_prop in H as [Hw Hr].
    apply negb_true_iff in Hw, Hr, Hc.
    apply String.eqb_neq in Hw, Hr, Hc. auto.
  - intros (_ & _ & role' & E & Hw & Hr & Hc). injection E as <-.
    apply String.eqb_neq in Hw, Hr, Hc. now rewrite Hw, Hr, Hc.
Qed.

End Classification.

(** C2 (as amended): [categorizeSessions] selects, among the sessions whose
    name starts with "gt-": by default all but the crew sessions (those with
    "-crew-" in the name); with [--all] every one; with [--polecats-only]
    exactly those for which [isPolecat] holds, in each case preserving the
    other fleet sessions, in listing order.  [isPolecat] holds of a session
    that is neither singleton nor crew and whose name has a third
    "-"-separated segment that is none of "witness", "refinery", "crew". *)
Theorem C2_selection_by_policy (MayorSessionName DeaconSessionName : string)
    (f : Flags) (sessions : list string) :
  (shutdownPolecatsOnly f = false -> shutdownAll f = false ->
   categorizeSessions MayorSessionName DeaconSessionName f sessions
   = (filter (fun s => strings.HasPrefix s "gt-" && negb (isCrew s)) sessions,
      filter (fun s => strings.HasPrefix s "gt-" && isCrew s) sessions))
  /\ (shutdownPolecatsOnly f = false -> shutdownAll f = true ->
      categorizeSessions MayorSessionName DeaconSessionName f sessions
      = (filter (fun s => strings.HasPrefix s "gt-") sessions, []))
  /\ (shutdownPolecatsOnly f = true ->
      categorizeSessions MayorSessionName DeaconSessionName f sessions
      = (filter (fun s => strings.HasPrefix s "gt-"
                          && isPolecat MayorSessionName DeaconSessionName s) sessions,
         filter (fun s => strings.HasPrefix s "gt-"
                          && negb (isPolecat MayorSessionName DeaconSessionName s)) sessions))
  /\ (forall sess,
        isPolecat MayorSessionName DeaconSessionName sess = true <->
        isSingleton MayorSessionName DeaconSessionName sess = false
        /\ isCrew sess = false
        /\ exists role, nth_error (strings.Split sess "-") 2 = Some role
                        /\ role <> "witness" /\ role <> "refinery" /\ role <> "crew").
Proof.
  rewrite categorizeSessions_filter. unfold stops.
  split; [|split; [|split]].
  - intros -> ->. f_equal; apply filter_ext; intros s; now rewrite ?negb_involutive.
  - intros -> ->. f_equal.
    + apply filter_ext; intros s. apply andb_true_r.
    + induction sessions as [|s l IH]; simpl; [reflexivity|].
      now rewrite andb_false_r.
  - intros ->. reflexivity.
  - apply isPolecat_spec.
Qed.

Lemma C2_witness :
  categorizeSessions "gt-mayor" "gt-deacon" defaultFlags townSessions
  = (["gt-gastown-Toast"; "gt-mayor"; "gt-gastown-witness"; "gt-deacon";
      "gt-gastown-refinery"],
     ["gt-gastown-crew-joe"])
  /\ categorizeSessions "gt-mayor" "gt-deacon" allFlags townSessions
     = (["gt-gastown-Toast"; "gt-mayor"; "gt-gastown-crew-joe"; "gt-gastown-witness";
         "gt-deacon"; "gt-gastown-refinery"],
        [])
  /\ categorizeSessions "gt-mayor" "gt-deacon" polecatsOnlyFlags townSessions
     = (["gt-gastown-Toast"],
        ["gt-mayor"; "gt-gastown-crew-joe"; "gt-gastown-witness"; "gt-deacon";
         "gt-gastown-refinery"]).
Proof.
  pose proof (C2_selection_by_policy "gt-mayor" "gt-deacon" defaultFlags townSessions)
    as (Hd & _).
  pose proof (C2_selection_by_policy "gt-mayor" "gt-deacon" allFlags townSessions)
    as (_ & Ha & _).
  pose proof (C2_selection_by_policy "gt-mayor" "gt-deacon" polecatsOnlyFlags townSessions)
    as (_ & _ & Hp & _).
  rewrite (Hd eq_refl eq_refl), (Ha eq_refl eq_refl), (Hp eq_refl).
  repeat split; reflexivity.
Defined.

(** The session "gt-boot" is no singleton, no crew session and no monitor,
    yet [--polecats-only] preserves it: its name has no third segment. *)
Lemma C2_counterexample :
  ~ polecatsOnlyAsWorded "gt-mayor" "gt-deacon" polecatsOnlyFlags [bootSession].
Proof. unfold polecatsOnlyAsWorded. vm_compute. discriminate. Qed.

Example boot_preserved :
  categorizeSessions "gt-mayor" "gt-deacon" polecatsOnlyFlags [bootSession]
  = ([], [bootSession])
  /\ ephemeralAsWorded "gt-mayor" "gt-deacon" bootSession = true
  /\ categorizeSessions "gt-mayor" "gt-deacon" defaultFlags [bootSession]
     = ([bootSession], []).
Proof. repeat split; reflexivity. Qed.

(** ** The order of termination *)

Lemma inList_In (sessions : list string) (sess : string) :
  inList sessions sess = true <-> In sess sessions.
Proof.
  induction sessions as [|s l IH]; simpl; [intuition discriminate|].
  destruct (String.eqb_spec s sess) as [->|Hne]; [tauto|].
  rewrite IH. intuition congruence.
Qed.

Section Termination.

Variables MayorSessionName DeaconSessionName : string.
Variable w : World.

Local Abbreviation killSessionsInOrder :=
  (killSessionsInOrder MayorSessionName DeaconSessionName w).
Local Abbreviation killOrder := (killOrder MayorSessionName DeaconSessionName).

Let others (sess : string) : bool :=
  negb ((sess =? DeaconSessionName)%string || (sess =? MayorSessionName)%string).

Let body (sess : string) (stopped : Z) : M Z :=
  if (sess =? DeaconSessionName)%string || (sess =? MayorSessionName)%string
  then ret stopped
  else
    err <- tmux.KillSession w sess ;;
    match err with
    | None => print (MsgStopped sess) ;; ret (stopped + 1)
    | Some _ => ret stopped
    end.

Lemma body_singleton (sess : string) (stopped : Z) :
  others sess = false -> body sess stopped = ret stopped.
Proof.
  unfold others, body. intros H. apply negb_false_iff in H. now rewrite H.
Qed.

Lemma body_other (sess : string) (stopped : Z) :
  others sess = true ->
  body sess stopped
  = if killed w sess
    then (stopped + 1, [EKillSession sess; EPrint (MsgStopped sess)])
    else (stopped, [EKillSession sess]).
Proof.
  unfold others, body, killed. intros H. apply negb_true_iff in H. rewrite H.
  unfold tmux.KillSession. destruct (KillSession w sess); reflexivity.
Qed.

(** The middle loop kills the sessions other than the two singletons, in
    listing order, and counts the kills that succeed. *)
Lemma others_loop (sessions : list string) (stopped : Z) :
  kills (trace (forEach sessions body stopped)) = filter others sessions
  /\ actions (trace (forEach sessions body stopped))
     = map EKillSession (filter others sessions)
  /\ result (forEach sessions body stopped)
     = stopped + count (killed w) (filter others sessions).
Proof.
  revert stopped. unfold count.
  induction sessions as [|sess sessions IH]; intros stopped.
  - simpl. repeat split. lia.
  - simpl forEach. rewrite trace_bind, result_bind, kills_app, actions_app.
    simpl filter. destruct (others sess) eqn:O.
    + rewrite body_other by assumption. simpl filter.
      destruct (killed w sess); cbn [result trace fst snd];
        [destruct (IH (stopped + 1)) as (K & A & R)
        |destruct (IH stopped) as (K & A & R)];
        rewrite K, A, R; simpl; repeat split; lia.
    + rewrite body_singleton by assumption. apply IH.
Qed.

(** [killSessionsInOrder] calls [KillSession] along [killOrder], nothing
    else, and returns the number of kills that succeeded. *)
Lemma killSessionsInOrder_spec (sessions : list string) :
  kills (trace (killSessionsInOrder sessions)) = killOrder sessions
  /\ actions (trace (killSessionsInOrder sessions))
     = map EKillSession (killOrder sessions)
  /\ result (killSessionsInOrder sessions) = count (killed w) (killOrder sessions).
Proof.
  unfold killSessionsInOrder, killOrder. rewrite !trace_bind, !result_bind.
  fold body. fold others.
  set (first := if inList sessions DeaconSessionName then _ else ret 0).
  assert (Hfirst :
            kills (trace first)
            = (if inList sessions DeaconSessionName then [DeaconSessionName] else [])
            /\ actions (trace first)
               = map EKillSession
                   (if inList sessions DeaconSessionName then [DeaconSessionName] else [])
            /\ result first
               = count (killed w)
                   (if inList sessions DeaconSessionName then [DeaconSessionName] else [])).
  { subst first. destruct (inList sessions DeaconSessionName); [|now cbn].
    unfold tmux.KillSession, count, killed. cbn.
    destruct (KillSession w DeaconSessionName); now cbn. }
  destruct Hfirst as (K1 & A1 & R1).
  destruct (others_loop sessions (result first)) as (K2 & A2 & R2).
  set (middle := forEach sessions body (result first)) in *.
  set (last := if inList sessions MayorSessionName then _ else _).
  assert (Hlast :
            kills (trace last)
            = (if inList sessions MayorSessionName then [MayorSessionName] else [])
            /\ actions (trace last)
               = map EKillSession
                   (if inList sessions MayorSessionName then [MayorSessionName] else [])
            /\ result last
               = result middle
                 + count (killed w)
                     (if inList sessions MayorSessionName then [MayorSessionName] else [])).
  { subst last. destruct (inList sessions MayorSessionName);
      [|cbn; repeat split; unfold count; simpl; lia].
    unfold tmux.KillSession, count, killed. cbn.
    destruct (KillSession w MayorSessionName); cbn; repeat split; lia. }
  destruct Hlast as (K3 & A3 & R3).
  rewrite !kills_app, !actions_app, !map_app, !count_app.
  rewrite K1, K2, K3, A1, A2, A3, R3, R2, R1.
  repeat split. lia.
Qed.

End Termination.

Section Order.

Variables MayorSessionName DeaconSessionName : string.

Local Abbreviation killOrder := (killOrder MayorSessionName DeaconSessionName).

(** The order puts the Deacon first and the Mayor last, each once, and
    goes through every listed session. *)
Lemma killOrder_complete (sessions : list string) (sess : string) :
  In sess (killOrder sessions) <-> In sess sessions.
Proof.
  unfold killOrder. rewrite !in_app_iff, filter_In.
  split.
  - intros [H|[[H _]|H]]; [|exact H|].
    + destruct (inList sessions DeaconSessionName) eqn:E; [|contradiction].
      destruct H as [<-|[]]. now apply inList_In.
    + destruct (inList sessions MayorSessionName) eqn:E; [|contradiction].
      destruct H as [<-|[]]. now apply inList_In.
  - intros H.
    destruct (String.eqb_spec sess DeaconSessionName) as [->|HD].
    { apply inList_In in H. rewrite H. simpl. tauto. }
    destruct (String.eqb_spec sess MayorSessionName) as [->|HM].
    { apply inList_In in H. rewrite H. simpl. tauto. }
    simpl. tauto.
Qed.

Hypothesis distinct : MayorSessionName <> DeaconSessionName.

Lemma killOrder_Deacon_first (sessions : list string) :
  In DeaconSessionName sessions ->
  exists rest, killOrder sessions = DeaconSessionName :: rest
               /\ ~ In DeaconSessionName rest.
Proof.
  intros H. apply inList_In in H. unfold killOrder. rewrite H.
  eexists. split; [reflexivity|].
  rewrite in_app_iff, filter_In. intros [[_ O]|O].
  - now rewrite String.eqb_refl in O.
  - destruct (inList sessions MayorSessionName); [|contradiction].
    destruct O as [O|[]]. contradiction.
Qed.

Lemma killOrder_Mayor_last (sessions : list string) :
  In MayorSessionName sessions ->
  exists front, killOrder sessions = front ++ [MayorSessionName]
                /\ ~ In MayorSessionName front.
Proof.
  intros H. apply inList_In in H. unfold killOrder. rewrite H.
  rewrite app_assoc. eexists. split; [reflexivity|].
  rewrite in_app_iff, filter_In. intros [O|[_ O]].
  - destruct (inList sessions DeaconSessionName); [|contradiction].
    destruct O as [O|[]]. congruence.
  - now rewrite String.eqb_refl, orb_true_r in O.
Qed.

End Order.

(** ** The reclamation pass *)

(** What a loop does is done by one of its iterations, and conversely. *)
Lemma forEach_trace_In {A S : Type} (body : A -> S -> M S) (l : list A) (s : S) (e : Event) :
  In e (trace (forEach l body s)) ->
  exists x s', In x l /\ In e (trace (body x s')).
Proof.
  revert s. induction l as [|x l IH]; intros s; simpl forEach.
  - intros [].
  - rewrite trace_bind, in_app_iff. intros [H|H].
    + exists x, s. simpl. auto.
    + destruct (IH _ H) as (y & s' & Hy & He). exists y, s'. simpl. auto.
Qed.

Lemma forEach_trace_iteration {A S : Type} (body : A -> S -> M S) (l : list A) (s : S) (x : A) :
  In x l ->
  exists s' before after,
    trace (forEach l body s) = before ++ trace (body x s') ++ after.
Proof.
  revert s. induction l as [|y l IH]; intros s; [intros []|].
  simpl forEach. rewrite trace_bind. intros [->|H].
  - exists s, [], (trace (forEach l body (result (body x s)))). reflexivity.
  - destruct (IH (result (body y s)) H) as (s' & before & after & E).
    exists s', (trace (body y s) ++ before), after.
    rewrite E, <- app_assoc. reflexivity.
Qed.

Section Reclamation.

Variable f : Flags.
Variable w : World.

(** The four ways through the loop body. *)
Lemma cleanupPolecat_check_failed (r : rig.Rig) (p : polecat.Polecat) (st : Totals) :
  shutdownNuclear f = false -> checkFails w p = true ->
  cleanupPolecat f w r p st
  = (skipped st,
     [ECheckUncommittedWork (polecat.ClonePath p);
      EPrint (MsgCouldNotCheck (rig.Name r) (polecat.Name p))]).
Proof.
  unfold cleanupPolecat, checkFails. intros -> H.
  destruct (CheckUncommittedWork w (polecat.ClonePath p)); [discriminate|reflexivity].
Qed.

Lemma cleanupPolecat_uncommitted (r : rig.Rig) (p : polecat.Polecat) (st : Totals) :
  shutdownNuclear f = false -> isUncommitted w p = true ->
  cleanupPolecat f w r p st
  = (uncommitted (entryOf w (r, p)) st,
     [ECheckUncommittedWork (polecat.ClonePath p)]).
Proof.
  unfold cleanupPolecat, isUncommitted, entryOf. intros -> H. simpl fst; simpl snd.
  destruct (CheckUncommittedWork w (polecat.ClonePath p)) as [status|]; [|discriminate].
  apply negb_true_iff in H. run. rewrite H. reflexivity.
Qed.

Lemma cleanupPolecat_clean (r : rig.Rig) (p : polecat.Polecat) (st : Totals) :
  isClean w p = true ->
  cleanupPolecat f w r p st = removal f w [] r p st.
Proof.
  unfold cleanupPolecat, isClean, removal. intros H.
  destruct (CheckUncommittedWork w (polecat.ClonePath p)) as [status|]; [|discriminate].
  run. rewrite H.
  destruct (RemoveWithOptions w r (polecat.Name p) true (shutdownNuclear f)); reflexivity.
Qed.

Lemma cleanupPolecat_nuclear (r : rig.Rig) (p : polecat.Polecat) (st : Totals) :
  shutdownNuclear f = true ->
  cleanupPolecat f w r p st
  = removal f w
      (match CheckUncommittedWork w (polecat.ClonePath p) with
       | Ok status =>
           if git.Clean status then []
           else [EPrint (MsgNuclear (rig.Name r) (polecat.Name p) (git.String status))]
       | Err _ => []
       end) r p st.
Proof.
  unfold cleanupPolecat, removal. intros E. rewrite E.
  destruct (CheckUncommittedWork w (polecat.ClonePath p)) as [status|]; run;
    [destruct (git.Clean status); run|];
    destruct (RemoveWithOptions w r (polecat.Name p) true true); reflexivity.
Qed.

End Reclamation.

Section Pass.

Variable f : Flags.
Variable w : World.

(** One iteration adds one to exactly one of the two counters, and a line
    to the report when it skips a polecat with uncommitted work. *)
Lemma cleanupPolecat_totals (r : rig.Rig) (p : polecat.Polecat) (st : Totals) :
  totalCleaned (result (cleanupPolecat f w r p st))
  = totalCleaned st + count (reclaimed f w) [(r, p)]
  /\ totalSkipped (result (cleanupPolecat f w r p st))
     = totalSkipped st + count (fun rp => negb (reclaimed f w rp)) [(r, p)]
  /\ uncommittedPolecats (result (cleanupPolecat f w r p st))
     = uncommittedPolecats st ++ map (entryOf w) (filter (reported f w) [(r, p)]).
Proof.
  unfold cleanupPolecat, count, reclaimed, reported, proceeds, removalSucceeds,
    isClean, isUncommitted, entryOf.
  cbn [filter fst snd].
  destruct (shutdownNuclear f);
    (destruct (CheckUncommittedWork w (polecat.ClonePath p)) as [status|] eqn:E; run;
     [destruct (git.Clean status); run|]);
    try (destruct (RemoveWithOptions w r (polecat.Name p) true _); run);
    cbn; rewrite ?E, ?app_nil_r; repeat split; lia.
Qed.

Lemma polecats_loop_totals (r : rig.Rig) (ps : list polecat.Polecat) (st : Totals) :
  totalCleaned (result (forEach ps (cleanupPolecat f w r) st))
  = totalCleaned st + count (reclaimed f w) (map (pair r) ps)
  /\ totalSkipped (result (forEach ps (cleanupPolecat f w r) st))
     = totalSkipped st + count (fun rp => negb (reclaimed f w rp)) (map (pair r) ps)
  /\ uncommittedPolecats (result (forEach ps (cleanupPolecat f w r) st))
     = uncommittedPolecats st
       ++ map (entryOf w) (filter (reported f w) (map (pair r) ps)).
Proof.
  revert st. induction ps as [|p ps IH]; intros st.
  - cbn. rewrite app_nil_r. repeat split; lia.
  - simpl forEach. rewrite result_bind.
    destruct (IH (result (cleanupPolecat f w r p st))) as (C & S & U).
    destruct (cleanupPolecat_totals r p st) as (C1 & S1 & U1).
    rewrite C, S, U, C1, S1, U1.
    change (map (pair r) (p :: ps)) with ([(r, p)] ++ map (pair r) ps).
    rewrite !count_app, filter_app, map_app, app_assoc.
    repeat split; lia.
Qed.

Lemma cleanupRig_totals (r : rig.Rig) (st : Totals) :
  totalCleaned (result (cleanupRig f w r st))
  = totalCleaned st + count (reclaimed f w) (polecatsOf w r)
  /\ totalSkipped (result (cleanupRig f w r st))
     = totalSkipped st + count (fun rp => negb (reclaimed f w rp)) (polecatsOf w r)
  /\ uncommittedPolecats (result (cleanupRig f w r st))
     = uncommittedPolecats st ++ map (entryOf w) (filter (reported f w) (polecatsOf w r)).
Proof.
  unfold cleanupRig, polecatsOf. rewrite result_bind. cbn [call result fst].
  destruct (List w r) as [ps|e].
  - apply polecats_loop_totals.
  - cbn. rewrite app_nil_r. repeat split; lia.
Qed.

Lemma rigs_loop_totals (rigs : list rig.Rig) (st : Totals) :
  totalCleaned (result (forEach rigs (cleanupRig f w) st))
  = totalCleaned st + count (reclaimed f w) (visited w rigs)
  /\ totalSkipped (result (forEach rigs (cleanupRig f w) st))
     = totalSkipped st + count (fun rp => negb (reclaimed f w rp)) (visited w rigs)
  /\ uncommittedPolecats (result (forEach rigs (cleanupRig f w) st))
     = uncommittedPolecats st ++ map (entryOf w) (filter (reported f w) (visited w rigs)).
Proof.
  revert st. induction rigs as [|r rigs IH]; intros st.
  - cbn. rewrite app_nil_r. repeat split; lia.
  - simpl forEach. rewrite result_bind.
    destruct (IH (result (cleanupRig f w r st))) as (C & S & U).
    destruct (cleanupRig_totals r st) as (C1 & S1 & U1).
    rewrite C, S, U, C1, S1, U1.
    simpl visited. rewrite !count_app, filter_app, map_app, app_assoc.
    repeat split; lia.
Qed.

(** The totals of the pass count the visited polecats: cleaned are those
    the pass went on to remove and whose removal succeeded, skipped are all
    the others, and the report lists the uncommitted ones that were
    skipped. *)
Lemma passTotals_spec (rigs : list rig.Rig) :
  totalCleaned (passTotals f w rigs) = count (reclaimed f w) (visited w rigs)
  /\ totalSkipped (passTotals f w rigs)
     = count (fun rp => negb (reclaimed f w rp)) (visited w rigs)
  /\ uncommittedPolecats (passTotals f w rigs)
     = map (entryOf w) (filter (reported f w) (visited w rigs)).
Proof.
  unfold passTotals. destruct (rigs_loop_totals rigs noTotals) as (C & S & U).
  fold noTotals. rewrite C, S, U. repeat split.
Qed.

End Pass.

Section PassTrace.

Variable f : Flags.
Variable w : World.

(** [cleanupPolecats] from the outside: the two look-ups, the two loops,
    the summary. *)
Lemma cleanupPolecats_trace (townRoot : string) :
  let path := Join w [townRoot; "mayor"; "rigs.json"] in
  trace (cleanupPolecats f w townRoot)
  = match LoadRigsConfig w path with
    | Err e => [ELoadRigsConfig path; EPrint (MsgCouldNotLoadRigs e)]
    | Ok cfg =>
        match DiscoverRigs w townRoot cfg with
        | Err e => [ELoadRigsConfig path; EDiscoverRigs townRoot;
                    EPrint (MsgCouldNotDiscoverRigs e)]
        | Ok rigs =>
            [ELoadRigsConfig path; EDiscoverRigs townRoot]
            ++ trace (forEach rigs (cleanupRig f w) noTotals)
            ++ report (passTotals f w rigs)
        end
    end.
Proof.
  intros path. unfold cleanupPolecats. fold path. fold noTotals.
  rewrite trace_bind. cbn [call result trace fst snd].
  destruct (LoadRigsConfig w path) as [cfg|e]; [|reflexivity].
  rewrite trace_bind. cbn [call result trace fst snd].
  destruct (DiscoverRigs w townRoot cfg) as [rigs|e]; [|reflexivity].
  rewrite !trace_bind. cbn [app]. do 3 f_equal.
  unfold report, passTotals. fold noTotals.
  set (st := result (forEach rigs (cleanupRig f w) noTotals)).
  f_equal.
  - destruct (0 <? Z.of_nat (length (uncommittedPolecats st))); [|reflexivity].
    rewrite !trace_bind. cbn [print call trace snd app].
    now rewrite forEach_print_trace.
  - destruct ((0 <? totalCleaned st) || (0 <? totalSkipped st)); reflexivity.
Qed.

(** The iteration for a visited polecat is a stretch of the trace of the
    loops. *)
Lemma pass_iteration (rigs : list rig.Rig) (st0 : Totals) (r : rig.Rig)
    (p : polecat.Polecat) :
  In (r, p) (visited w rigs) ->
  exists st before after,
    trace (forEach rigs (cleanupRig f w) st0)
    = before ++ trace (cleanupPolecat f w r p st) ++ after.
Proof.
  unfold visited. rewrite in_flat_map. intros (r' & Hr & Hp).
  unfold polecatsOf in Hp. destruct (List w r') as [ps|e] eqn:E; [|destruct Hp].
  apply in_map_iff in Hp as (p' & [= <- <-] & Hp).
  destruct (forEach_trace_iteration (cleanupRig f w) rigs st0 r' Hr)
    as (st1 & b1 & a1 & E1).
  destruct (forEach_trace_iteration (cleanupPolecat f w r') ps st1 p' Hp)
    as (st2 & b2 & a2 & E2).
  exists st2, (b1 ++ EList r' :: b2), (a2 ++ a1).
  rewrite E1. unfold cleanupRig at 1. rewrite trace_bind. cbn [call result trace fst snd].
  rewrite E. fold (trace (forEach ps (cleanupPolecat f w r') st1)). rewrite E2.
  rewrite <- !app_assoc. reflexivity.
Qed.

(** Conversely, what the loops do, beyond listing the polecats of a rig,
    is done in the iteration for a visited polecat. *)
Lemma pass_event (rigs : list rig.Rig) (st0 : Totals) (e : Event) :
  In e (trace (forEach rigs (cleanupRig f w) st0)) ->
  (exists r, e = EList r)
  \/ exists r p st, In (r, p) (visited w rigs)
                    /\ In e (trace (cleanupPolecat f w r p st)).
Proof.
  intros H. apply forEach_trace_In in H as (r & st & Hr & H).
  unfold cleanupRig in H. rewrite trace_bind in H. cbn [call result trace fst snd] in H.
  destruct H as [<-|H]; [left; now exists r|].
  destruct (List w r) as [ps|err] eqn:E; [|destruct H].
  apply forEach_trace_In in H as (p & st' & Hp & H).
  right. exists r, p, st'. split; [|exact H].
  unfold visited. apply in_flat_map. exists r. split; [exact Hr|].
  unfold polecatsOf. rewrite E. now apply in_map.
Qed.

(** An iteration removes nothing but its own polecat, by force, and only
    when the pass goes on past the check. *)
Lemma iteration_removal (r r' : rig.Rig) (p : polecat.Polecat) (st : Totals)
    (name : string) (force nuclear : bool) :
  In (ERemoveWithOptions r name force nuclear) (trace (cleanupPolecat f w r' p st)) ->
  r = r' /\ name = polecat.Name p /\ force = true /\ nuclear = shutdownNuclear f
  /\ proceeds f w p = true.
Proof.
  unfold cleanupPolecat, proceeds, isClean.
  destruct (shutdownNuclear f);
    (destruct (CheckUncommittedWork w (polecat.ClonePath p)) as [status|]; run;
     [destruct (git.Clean status); run|]);
    try (destruct (RemoveWithOptions w r' (polecat.Name p) true _); run);
    cbn; intros H;
    repeat (destruct H as [H|H]; [try discriminate; injection H as <- <- <- <- |]);
    try contradiction; repeat split.
Qed.

(** Likewise for the branch deletion, which needs a removal that
    succeeded. *)
Lemma iteration_deleteBranch (r : rig.Rig) (p : polecat.Polecat) (st : Totals)
    (path branch : string) (force : bool) :
  In (EDeleteBranch path branch force) (trace (cleanupPolecat f w r p st)) ->
  reclaimed f w (r, p) = true.
Proof.
  unfold cleanupPolecat, reclaimed, removalSucceeds, proceeds, isClean.
  cbn [fst snd].
  destruct (shutdownNuclear f);
    (destruct (CheckUncommittedWork w (polecat.ClonePath p)) as [status|]; run;
     [destruct (git.Clean status); run|]);
    try (destruct (RemoveWithOptions w r (polecat.Name p) true _); run);
    cbn; intros H;
    repeat (destruct H as [H|H]; [try discriminate|]);
    try contradiction; reflexivity.
Qed.

End PassTrace.

Example cleanupPolecats_town :
  trace (cleanupPolecats defaultFlags town "/town")
  = [ELoadRigsConfig "/town/mayor/rigs.json"; EDiscoverRigs "/town"; EList gastown;
     ECheckUncommittedWork "/town/gastown/polecats/Toast";
     ERemoveWithOptions gastown "Toast" true false;
     EDeleteBranch "/town/gastown/mayor/rig" "polecat/Toast" true;
     EPrint (MsgCleanedUp "gastown" "Toast");
     ECheckUncommittedWork "/town/gastown/polecats/nux";
     ECheckUncommittedWork "/town/gastown/polecats/rust";
     EPrint (MsgCouldNotCheck "gastown" "rust");
     ECheckUncommittedWork "/town/gastown/polecats/slit";
     ERemoveWithOptions gastown "slit" true false;
     EPrint (MsgCleanupFailed "gastown" "slit" "worktree is locked");
     EPrint MsgBlankLine; EPrint MsgUncommittedHeader;
     EPrint (MsgUncommittedItem "gastown/nux (2 uncommitted files)");
     EPrint (MsgCleanedSkipped 1 3)].
Proof. reflexivity. Qed.

Example cleanupPolecats_town_nuclear :
  trace (cleanupPolecats nuclearFlags town "/town")
  = [ELoadRigsConfig "/town/mayor/rigs.json"; EDiscoverRigs "/town"; EList gastown;
     ECheckUncommittedWork "/town/gastown/polecats/Toast";
     ERemoveWithOptions gastown "Toast" true true;
     EDeleteBranch "/town/gastown/mayor/rig" "polecat/Toast" true;
     EPrint (MsgCleanedUp "gastown" "Toast");
     ECheckUncommittedWork "/town/gastown/polecats/nux";
     EPrint (MsgNuclear "gastown" "nux" "2 uncommitted files");
     ERemoveWithOptions gastown "nux" true true;
     EDeleteBranch "/town/gastown/mayor/rig" "polecat/nux" true;
     EPrint (MsgCleanedUp "gastown" "nux");
     ECheckUncommittedWork "/town/gastown/polecats/rust";
     ERemoveWithOptions gastown "rust" true true;
     EDeleteBranch "/town/gastown/mayor/rig" "polecat/rust" true;
     EPrint (MsgCleanedUp "gastown" "rust");
     ECheckUncommittedWork "/town/gastown/polecats/slit";
     ERemoveWithOptions gastown "slit" true true;
     EPrint (MsgCleanupFailed "gastown" "slit" "worktree is locked");
     EPrint (MsgCleanedSkipped 3 1)].
Proof. reflexivity. Qed.

Lemma report_prints (st : Totals) (e : Event) : In e (report st) -> isPrint e = true.
Proof.
  unfold report. rewrite in_app_iff. intros [H|[<-|[]]]; [|reflexivity].
  destruct (0 <? Z.of_nat (length (uncommittedPolecats st))); [|destruct H].
  destruct H as [<-|[<-|H]]; try reflexivity.
  apply in_map_iff in H as (pc & <- & _). reflexivity.
Qed.

Section Run.

Variable f : Flags.
Variable w : World.
Variable townRoot : string.

Let t : list Event := trace (cleanupPolecats f w townRoot).
Let rigs : list rig.Rig := discovered w townRoot.

(** The trace of a run that visits a polecat. *)
Lemma visiting_run (r : rig.Rig) (p : polecat.Polecat) :
  In (r, p) (visited w rigs) ->
  t = [ELoadRigsConfig (Join w [townRoot; "mayor"; "rigs.json"]); EDiscoverRigs townRoot]
      ++ trace (forEach rigs (cleanupRig f w) noTotals)
      ++ report (passTotals f w rigs).
Proof.
  subst t rigs. rewrite cleanupPolecats_trace. unfold discovered.
  destruct (LoadRigsConfig w _) as [cfg|e]; [|intros []].
  destruct (DiscoverRigs w townRoot cfg) as [rs|e]; [|intros []].
  reflexivity.
Qed.

Lemma run_iteration (r : rig.Rig) (p : polecat.Polecat) :
  In (r, p) (visited w rigs) ->
  exists st before after, t = before ++ trace (cleanupPolecat f w r p st) ++ after.
Proof.
  intros H. rewrite (visiting_run r p H).
  destruct (pass_iteration f w rigs noTotals r p H) as (st & before & after & E).
  exists st,
    ([ELoadRigsConfig (Join w [townRoot; "mayor"; "rigs.json"]); EDiscoverRigs townRoot]
     ++ before),
    (after ++ report (passTotals f w rigs)).
  rewrite E. cbn [app]. now rewrite <- !app_assoc.
Qed.

(** Every call of the run that is neither a look-up nor a listing is made
    in the iteration for a visited polecat. *)
Lemma run_event (e : Event) :
  In e t ->
  isPrint e = true
  \/ (exists path, e = ELoadRigsConfig path)
  \/ (exists root, e = EDiscoverRigs root)
  \/ (exists r, e = EList r)
  \/ exists r p st, In (r, p) (visited w rigs)
                    /\ In e (trace (cleanupPolecat f w r p st)).
Proof.
  subst t rigs. rewrite cleanupPolecats_trace. unfold discovered.
  destruct (LoadRigsConfig w _) as [cfg|err].
  - destruct (DiscoverRigs w townRoot cfg) as [rs|err].
    + rewrite !in_app_iff. intros [[<-|[<-|[]]]|[H|H]]; eauto 6.
      * apply pass_event in H as [H|H]; auto.
      * left. eapply report_prints, H.
    + intros [<-|[<-|[<-|[]]]]; eauto 6.
  - intros [<-|[<-|[]]]; eauto 6.
Qed.

Lemma run_removal (r : rig.Rig) (name : string) (force nuclear : bool) :
  In (ERemoveWithOptions r name force nuclear) t ->
  exists p, In (r, p) (visited w rigs) /\ name = polecat.Name p
            /\ force = true /\ nuclear = shutdownNuclear f
            /\ proceeds f w p = true.
Proof.
  intros H. apply run_event in H
    as [H|[(x & H)|[(x & H)|[(x & H)|(r' & p & st & Hv & H)]]]]; try discriminate.
  apply iteration_removal in H as (-> & H). exists p. auto.
Qed.

Lemma run_deleteBranch (path branch : string) (force : bool) :
  In (EDeleteBranch path branch force) t ->
  exists r p, In (r, p) (visited w rigs) /\ reclaimed f w (r, p) = true.
Proof.
  intros H. apply run_event in H
    as [H|[(x & H)|[(x & H)|[(x & H)|(r' & p & st & Hv & H)]]]]; try discriminate.
  apply iteration_deleteBranch in H. eauto.
Qed.

(** A polecat skipped for its uncommitted work is in the report. *)
Lemma run_reported (r : rig.Rig) (p : polecat.Polecat) :
  In (r, p) (visited w rigs) -> reported f w (r, p) = true ->
  In (entryOf w (r, p)) (uncommittedPolecats (passTotals f w rigs))
  /\ In (EPrint (MsgUncommittedItem (entryOf w (r, p)))) t.
Proof.
  intros Hv Hr.
  assert (Hin : In (entryOf w (r, p)) (uncommittedPolecats (passTotals f w rigs))).
  { destruct (passTotals_spec f w rigs) as (_ & _ & ->).
    apply in_map, filter_In. auto. }
  split; [exact Hin|].
  rewrite (visiting_run r p Hv), !in_app_iff. right. right. unfold report.
  apply in_app_iff. left.
  destruct (uncommittedPolecats (passTotals f w rigs)) as [|pc pcs] eqn:E;
    [destruct Hin|].
  cbn [length Z.of_nat Z.ltb Z.compare]. right. right.
  apply in_map_iff. eauto.
Qed.

End Run.

(** C3: a polecat the pass visits whose working copy is not known to be
    clean (it has uncommitted changes, or the check failed).  Without
    [--nuclear] its iteration calls no removal, every removal of the run is
    that of a polecat that checked clean, the polecat is one of those
    counted as skipped, and when the check found uncommitted changes the
    entry "rig/name (summary)" is in the list of skipped polecats and is
    printed in the final report.  With [--nuclear] and uncommitted changes
    the pass prints the warning and then removes the polecat. *)
Theorem C3_uncommitted_work_is_kept (f : Flags) (w : World) (townRoot : string)
    (r : rig.Rig) (p : polecat.Polecat) :
  In (r, p) (visited w (discovered w townRoot)) ->
  isClean w p = false ->
  let t := trace (cleanupPolecats f w townRoot) in
  let T := passTotals f w (discovered w townRoot) in
  (shutdownNuclear f = false ->
   (exists st before after,
      t = before ++ trace (cleanupPolecat f w r p st) ++ after
      /\ forall r' name force nuclear,
           ~ In (ERemoveWithOptions r' name force nuclear)
                (trace (cleanupPolecat f w r p st)))
   /\ (forall r' name force nuclear,
         In (ERemoveWithOptions r' name force nuclear) t ->
         exists p', In (r', p') (visited w (discovered w townRoot))
                    /\ name = polecat.Name p' /\ isClean w p' = true)
   /\ reclaimed f w (r, p) = false
   /\ totalSkipped T
      = count (fun rp => negb (reclaimed f w rp)) (visited w (discovered w townRoot))
   /\ forall status,
        CheckUncommittedWork w (polecat.ClonePath p) = Ok status ->
        In (uncommittedEntry (rig.Name r) (polecat.Name p) (git.String status))
           (uncommittedPolecats T)
        /\ In (EPrint (MsgUncommittedItem
                         (uncommittedEntry (rig.Name r) (polecat.Name p)
                            (git.String status)))) t)
  /\ (shutdownNuclear f = true ->
      forall status,
        CheckUncommittedWork w (polecat.ClonePath p) = Ok status ->
        exists before after,
          t = before
              ++ [ECheckUncommittedWork (polecat.ClonePath p);
                  EPrint (MsgNuclear (rig.Name r) (polecat.Name p) (git.String status));
                  ERemoveWithOptions r (polecat.Name p) true true]
              ++ after).
Proof.
  intros Hv Hc t T. split.
  - intros Hn. split; [|split; [|split; [|split]]].
    + destruct (run_iteration f w townRoot r p Hv) as (st & before & after & E).
      exists st, before, after. split; [exact E|].
      intros r' name force nuclear H.
      apply iteration_removal in H as (_ & _ & _ & _ & H).
      unfold proceeds in H. rewrite Hn, Hc in H. discriminate.
    + intros r' name force nuclear H.
      apply run_removal in H as (p' & Hv' & -> & _ & _ & H).
      unfold proceeds in H. rewrite Hn in H. eauto.
    + unfold reclaimed, proceeds. cbn [snd]. now rewrite Hn, Hc.
    + apply passTotals_spec.
    + intros status E.
      assert (Hr : reported f w (r, p) = true).
      { unfold reported, isUncommitted. cbn [snd]. rewrite Hn, E.
        unfold isClean in Hc. rewrite E in Hc. now rewrite Hc. }
      pose proof (run_reported f w townRoot r p Hv Hr) as H.
      unfold entryOf in H. cbn [fst snd] in H. rewrite E in H. exact H.
  - intros Hn status E.
    destruct (run_iteration f w townRoot r p Hv) as (st & before & after & Et).
    rewrite (cleanupPolecat_nuclear f w r p st Hn), E in Et.
    unfold isClean in Hc. rewrite E in Hc. rewrite Hc in Et.
    unfold removal in Et. rewrite Hn in Et.
    destruct (RemoveWithOptions w r (polecat.Name p) true true) as [e|];
      cbn [trace snd app] in Et; subst t; rewrite Et;
      exists before; eexists; cbn [app]; rewrite <- ?app_assoc; cbn [app]; reflexivity.
Qed.

Lemma C3_witness :
  In (gastown, nux) (visited town (discovered town "/town"))
  /\ isClean town nux = false
  /\ In (EPrint (MsgUncommittedItem "gastown/nux (2 uncommitted files)"))
        (trace (cleanupPolecats defaultFlags town "/town"))
  /\ (forall r name force nuclear,
        In (ERemoveWithOptions r name force nuclear)
           (trace (cleanupPolecats defaultFlags town "/town")) ->
        exists p, In (r, p) (visited town (discovered town "/town"))
                  /\ name = polecat.Name p /\ isClean town p = true)
  /\ exists before after,
       trace (cleanupPolecats nuclearFlags town "/town")
       = before
         ++ [ECheckUncommittedWork "/town/gastown/polecats/nux";
             EPrint (MsgNuclear "gastown" "nux" "2 uncommitted files");
             ERemoveWithOptions gastown "nux" true true]
         ++ after.
Proof.
  assert (Hv : In (gastown, nux) (visited town (discovered town "/town")))
    by (cbn; auto).
  assert (Hc : isClean town nux = false) by reflexivity.
  split; [exact Hv|]. split; [exact Hc|].
  destruct (C3_uncommitted_work_is_kept defaultFlags town "/town" gastown nux Hv Hc)
    as (Hsafe & _).
  destruct (Hsafe eq_refl) as (_ & Hremovals & _ & _ & Hentry).
  destruct (C3_uncommitted_work_is_kept nuclearFlags town "/town" gastown nux Hv Hc)
    as (_ & Hnuclear).
  split; [exact (proj2 (Hentry _ eq_refl))|].
  split; [exact Hremovals|].
  exact (Hnuclear eq_refl _ eq_refl).
Defined.

(** ** The calls of the reclamation pass *)

Lemma forEach_filter {A S : Type} (P : Event -> bool) (g : A -> list Event)
    (body : A -> S -> M S) (l : list A) (s : S) :
  (forall x s, filter P (trace (body x s)) = g x) ->
  filter P (trace (forEach l body s)) = flat_map g l.
Proof.
  intros H. revert s. induction l as [|x l IH]; intros s; [reflexivity|].
  simpl forEach. rewrite trace_bind, filter_app, H, IH. reflexivity.
Qed.

Lemma flat_map_if {A B : Type} (c : A -> bool) (h : A -> B) (l : list A) :
  flat_map (fun x => if c x then [h x] else []) l = map h (filter c l).
Proof.
  induction l as [|x l IH]; [reflexivity|].
  simpl. destruct (c x); simpl; now rewrite IH.
Qed.

Lemma flat_map_pair {A B C : Type} (g : A * B -> list C) (a : A) (l : list B) :
  flat_map (fun b => g (a, b)) l = flat_map g (map (pair a) l).
Proof. induction l as [|b l IH]; simpl; [|rewrite IH]; reflexivity. Qed.

Section Calls.

Variable f : Flags.
Variable w : World.

(** The calls of one kind that the pass makes are those of its iterations,
    polecat after polecat in visiting order. *)
Lemma cleanupPolecats_filter (P : Event -> bool)
    (g : rig.Rig * polecat.Polecat -> list Event) (townRoot : string) :
  (forall e, P e = true -> isPrint e = false /\ isListing e = false
                           /\ isLoadRigsConfig e = false
                           /\ (forall root, e <> EDiscoverRigs root)) ->
  (forall r p st, filter P (trace (cleanupPolecat f w r p st)) = g (r, p)) ->
  filter P (trace (cleanupPolecats f w townRoot))
  = flat_map g (visited w (discovered w townRoot)).
Proof.
  intros Hclass Hiter.
  assert (Hnot : forall e, isPrint e = true \/ isListing e = true
                           \/ isLoadRigsConfig e = true
                           \/ (exists root, e = EDiscoverRigs root) -> P e = false).
  { intros e H. destruct (P e) eqn:E; [|reflexivity].
    destruct (Hclass e E) as (H1 & H2 & H3 & H4).
    destruct H as [H|[H|[H|(root & H)]]]; try congruence; now apply H4 in H. }
  assert (Hrig : forall r st, filter P (trace (cleanupRig f w r st))
                              = flat_map g (polecatsOf w r)).
  { intros r st. unfold cleanupRig, polecatsOf. rewrite trace_bind, filter_app.
    cbn [call trace result fst snd filter]. rewrite (Hnot (EList r)) by auto.
    destruct (List w r) as [ps|e]; [|reflexivity].
    rewrite (forEach_filter P (fun p => g (r, p))) by (intros; apply Hiter).
    apply flat_map_pair. }
  assert (Hpass : forall rigs st, filter P (trace (forEach rigs (cleanupRig f w) st))
                                  = flat_map g (visited w rigs)).
  { intros rigs st. rewrite (forEach_filter P (fun r => flat_map g (polecatsOf w r)))
      by (intros; apply Hrig).
    unfold visited. induction rigs as [|r rigs IH]; [reflexivity|].
    simpl. now rewrite flat_map_app, IH. }
  assert (Hreport : forall st, filter P (report st) = []).
  { intros st. assert (H := report_prints st).
    induction (report st) as [|e l IH]; [reflexivity|].
    simpl. rewrite (Hnot e) by (left; apply H; now left).
    apply IH. intros e' He'. apply H. now right. }
  rewrite cleanupPolecats_trace. unfold discovered. cbv zeta.
  destruct (LoadRigsConfig w _) as [cfg|e].
  - destruct (DiscoverRigs w townRoot cfg) as [rigs|e].
    + rewrite !filter_app, Hpass, Hreport, app_nil_r.
      cbn [filter]. rewrite !Hnot by eauto. reflexivity.
    + cbn [filter]. rewrite !Hnot by eauto. reflexivity.
  - cbn [filter]. rewrite !Hnot by eauto. reflexivity.
Qed.

Lemma iteration_calls (r : rig.Rig) (p : polecat.Polecat) (st : Totals) :
  filter isCheck (trace (cleanupPolecat f w r p st)) = [checkOf (r, p)]
  /\ filter isRemoval (trace (cleanupPolecat f w r p st))
     = (if proceeds f w p then [removalOf f (r, p)] else [])
  /\ filter isDeletion (trace (cleanupPolecat f w r p st))
     = (if reclaimed f w (r, p) then [deletionOf w (r, p)] else []).
Proof.
  unfold cleanupPolecat, proceeds, reclaimed, removalSucceeds, proceeds, isClean,
    checkOf, removalOf, deletionOf.
  cbn [fst snd].
  destruct (shutdownNuclear f);
    (destruct (CheckUncommittedWork w (polecat.ClonePath p)) as [status|]; run;
     [destruct (git.Clean status); run|]);
    try (destruct (RemoveWithOptions w r (polecat.Name p) true _); run);
    repeat split.
Qed.

End Calls.

(** ** Clean polecats *)

Lemma forEach_ext {A S : Type} (body body' : A -> S -> M S) (l : list A) (s : S) :
  (forall x s, body x s = body' x s) -> forEach l body s = forEach l body' s.
Proof.
  intros H. revert s. induction l as [|x l IH]; intros s; [reflexivity|].
  simpl. rewrite H. unfold bind. now rewrite !IH.
Qed.

(** The outcome of the branch deletion changes nothing in the pass. *)
Lemma deleteBranch_ignored (f : Flags) (w : World)
    (deleteBranch : string -> string -> bool -> error) (townRoot : string) :
  cleanupPolecats f (withDeleteBranch w deleteBranch) townRoot
  = cleanupPolecats f w townRoot.
Proof.
  assert (Hp : forall r p st,
             cleanupPolecat f (withDeleteBranch w deleteBranch) r p st
             = cleanupPolecat f w r p st).
  { intros r p st. unfold cleanupPolecat. cbn [CheckUncommittedWork RemoveWithOptions
      Join DeleteBranch withDeleteBranch].
    destruct (CheckUncommittedWork w (polecat.ClonePath p)) as [status|]; run;
      [destruct (git.Clean status); run|];
      destruct (shutdownNuclear f); run; try reflexivity;
      destruct (RemoveWithOptions w r (polecat.Name p) true _); reflexivity. }
  assert (Hr : forall r st,
             cleanupRig f (withDeleteBranch w deleteBranch) r st = cleanupRig f w r st).
  { intros r st. unfold cleanupRig. cbn [List withDeleteBranch].
    destruct (List w r) as [ps|e]; run; [|reflexivity].
    now rewrite (forEach_ext _ _ ps st (Hp r)). }
  unfold cleanupPolecats.
  cbn [LoadRigsConfig DiscoverRigs Join withDeleteBranch RigsConfig].
  destruct (LoadRigsConfig w _) as [cfg|e]; run; [|reflexivity].
  destruct (DiscoverRigs w townRoot cfg) as [rigs|e]; run; [|reflexivity].
  now rewrite (forEach_ext _ _ rigs _ Hr).
Qed.

(** C4 (as amended): for a polecat the pass visits whose working copy is
    clean, the pass calls the removal (by force).  When the removal succeeds
    the iteration for the polecat is: check, removal, deletion of the branch
    "polecat/<name>" in the mayor's clone of the rig, "cleaned up", and the
    polecat is counted as cleaned.  When the removal fails the iteration is:
    check, removal, "cleanup failed", nothing more, and the polecat is
    counted as skipped: no branch is deleted for it.  The branch deletions
    of the whole run are those of the polecats counted as cleaned, one each
    and no other; the cleaned total is the number of visited polecats the
    pass went on to remove and whose removal succeeded, and no outcome of a
    branch deletion changes anything in the pass. *)
Theorem C4_clean_polecats_are_reclaimed (f : Flags) (w : World) (townRoot : string)
    (r : rig.Rig) (p : polecat.Polecat) :
  In (r, p) (visited w (discovered w townRoot)) ->
  isClean w p = true ->
  let t := trace (cleanupPolecats f w townRoot) in
  let T := passTotals f w (discovered w townRoot) in
  let check := ECheckUncommittedWork (polecat.ClonePath p) in
  let remove := ERemoveWithOptions r (polecat.Name p) true (shutdownNuclear f) in
  let delete := EDeleteBranch (Join w [rig.Path r; "mayor"; "rig"])
                  (branchName (polecat.Name p)) true in
  In remove t
  /\ (RemoveWithOptions w r (polecat.Name p) true (shutdownNuclear f) = None ->
      reclaimed f w (r, p) = true
      /\ exists st before after,
           t = before ++ trace (cleanupPolecat f w r p st) ++ after
           /\ cleanupPolecat f w r p st
              = (cleaned st,
                 [check; remove; delete;
                  EPrint (MsgCleanedUp (rig.Name r) (polecat.Name p))]))
  /\ (forall e,
        RemoveWithOptions w r (polecat.Name p) true (shutdownNuclear f) = Some e ->
        reclaimed f w (r, p) = false
        /\ exists st before after,
             t = before ++ trace (cleanupPolecat f w r p st) ++ after
             /\ cleanupPolecat f w r p st
                = (skipped st,
                   [check; remove;
                    EPrint (MsgCleanupFailed (rig.Name r) (polecat.Name p) e)]))
  /\ filter isDeletion t
     = map (fun rp => EDeleteBranch (Join w [rig.Path (fst rp); "mayor"; "rig"])
                        (branchName (polecat.Name (snd rp))) true)
         (filter (reclaimed f w) (visited w (discovered w townRoot)))
  /\ totalCleaned T = count (reclaimed f w) (visited w (discovered w townRoot))
  /\ totalSkipped T
     = count (fun rp => negb (reclaimed f w rp)) (visited w (discovered w townRoot))
  /\ forall deleteBranch,
       cleanupPolecats f (withDeleteBranch w deleteBranch) townRoot
       = cleanupPolecats f w townRoot.
Proof.
  intros Hv Hc t T check remove delete.
  destruct (run_iteration f w townRoot r p Hv) as (st & before & after & Et).
  pose proof (cleanupPolecat_clean f w r p st Hc) as Ei. unfold removal in Ei.
  fold check remove delete in Ei. cbn [app] in Ei.
  split; [|split; [|split; [|split; [|split; [|split]]]]].
  - subst t. rewrite Et, Ei.
    destruct (RemoveWithOptions w r (polecat.Name p) true (shutdownNuclear f));
      apply in_or_app; right; apply in_or_app; left;
      cbn [trace snd]; right; left; reflexivity.
  - intros E. rewrite E in Ei. split.
    + unfold reclaimed, proceeds, removalSucceeds. cbn [fst snd].
      now rewrite Hc, E, orb_true_r.
    + exists st, before, after. split; [exact Et | exact Ei].
  - intros e E. rewrite E in Ei. split.
    + unfold reclaimed, removalSucceeds. cbn [fst snd]. now rewrite E, andb_false_r.
    + exists st, before, after. split; [exact Et | exact Ei].
  - subst t.
    rewrite (cleanupPolecats_filter f w isDeletion
               (fun rp => if reclaimed f w rp then [deletionOf w rp] else [])).
    + apply flat_map_if.
    + intros e H. destruct e; try discriminate. repeat split. discriminate.
    + intros r' p' st'. apply iteration_calls.
  - apply passTotals_spec.
  - apply passTotals_spec.
  - intros deleteBranch. apply deleteBranch_ignored.
Qed.

Lemma C4_witness :
  In (gastown, Toast) (visited town (discovered town "/town"))
  /\ isClean town Toast = true
  /\ (exists before after,
        trace (cleanupPolecats defaultFlags town "/town")
        = before
          ++ [ECheckUncommittedWork "/town/gastown/polecats/Toast";
              ERemoveWithOptions gastown "Toast" true false;
              EDeleteBranch "/town/gastown/mayor/rig" "polecat/Toast" true;
              EPrint (MsgCleanedUp "gastown" "Toast")]
          ++ after)
  /\ filter isDeletion (trace (cleanupPolecats defaultFlags town "/town"))
     = [EDeleteBranch "/town/gastown/mayor/rig" "polecat/Toast" true].
Proof.
  assert (Hv : In (gastown, Toast) (visited town (discovered town "/town")))
    by (cbn; auto).
  assert (Hc : isClean town Toast = true) by reflexivity.
  split; [exact Hv|]. split; [exact Hc|].
  destruct (C4_clean_polecats_are_reclaimed defaultFlags town "/town" gastown Toast Hv Hc)
    as (_ & Hok & _ & Hdel & _).
  destruct (Hok eq_refl) as (_ & st & before & after & Et & Ei).
  split.
  - exists before, after. rewrite Et, Ei. reflexivity.
  - rewrite Hdel. reflexivity.
Defined.

(** The polecat slit is clean, but its worktree cannot be removed: the pass
    deletes no branch for it and counts it as skipped, not as cleaned. *)
Lemma C4_counterexample : ~ cleanAsWorded defaultFlags town "/town".
Proof.
  intros (Hcalls & _).
  destruct (Hcalls gastown slit) as (_ & H); [cbn; auto | reflexivity |].
  vm_compute in H.
  repeat (destruct H as [H|H]; [discriminate|]). exact H.
Qed.

Example slit_not_cleaned :
  isClean town slit = true
  /\ count (fun rp => isClean town (snd rp)) (visited town (discovered town "/town")) = 2
  /\ totalCleaned (passTotals defaultFlags town (discovered town "/town")) = 1
  /\ totalSkipped (passTotals defaultFlags town (discovered town "/town")) = 3.
Proof. repeat split; reflexivity. Qed.

(** ** The graceful shutdown *)

Lemma actions_prints {A : Type} (msg : A -> Message) (l : list A) :
  actions (map (fun x => EPrint (msg x)) l) = [].
Proof. induction l; simpl; auto. Qed.

(** A loop without loop-carried variables does, one after the other, what
    its body does for each element. *)
Lemma forEach_unit_trace {A : Type} (body : A -> unit -> M unit) (l : list A) (u : unit) :
  trace (forEach l body u) = flat_map (fun x => trace (body x tt)) l.
Proof.
  revert u. induction l as [|x l IH]; intros []; [reflexivity|].
  simpl forEach. rewrite trace_bind. simpl flat_map. f_equal. apply IH.
Qed.

Lemma actions_flat_map {A : Type} (g : A -> list Event) (l : list A) :
  actions (flat_map g l) = flat_map (fun x => actions (g x)) l.
Proof.
  induction l as [|x l IH]; [reflexivity|].
  simpl. now rewrite actions_app, IH.
Qed.

Lemma flat_map_singleton {A B : Type} (g : A -> B) (l : list A) :
  flat_map (fun x => [g x]) l = map g l.
Proof. induction l as [|x l IH]; simpl; [|rewrite IH]; reflexivity. Qed.

(** The countdown sleeps, in steps of at most five seconds, for as long as
    is left of the wait. *)
Lemma countdown_waits (bound remaining : Z) :
  exists waits : list time.Duration,
    actions (trace (countdown bound remaining)) = map ESleep waits
    /\ total waits = Z.max 0 remaining * time.Second
    /\ Forall (fun d => 0 < d <= 5 * time.Second) waits.
Proof.
  funelim (countdown bound remaining).
  - destruct (H tt tt) as (waits & A & T & F).
    exists ((if remaining <? 5 then remaining else 5) * time.Second :: waits).
    rewrite !trace_bind, !actions_app. rewrite A.
    split; [|split].
    + match goal with |- context [if ?c then print _ else ret tt] => destruct c end;
        reflexivity.
    + cbn [total fold_right]. fold (total waits). rewrite T.
      unfold time.Second. destruct (Z.ltb_spec remaining 5); lia.
    + constructor; [|exact F].
      unfold time.Second. destruct (Z.ltb_spec remaining 5); lia.
  - exists []. repeat split; [|constructor].
    unfold total, time.Second. simpl. lia.
Qed.

Section Graceful.

Variables MayorSessionName DeaconSessionName : string.
Variable f : Flags.
Variable w : World.

Lemma phase1_actions (gtSessions : list string) :
  actions (trace (phase1 w gtSessions))
  = map (fun sess => ESendKeysRaw sess "Escape") gtSessions.
Proof.
  unfold phase1. rewrite trace_bind, actions_app, forEach_unit_trace, actions_flat_map.
  apply flat_map_singleton.
Qed.

Lemma phase2_actions (gtSessions : list string) :
  actions (trace (phase2 w gtSessions))
  = flat_map (fun sess => [ESleep (500 * time.Millisecond); ESendKeys sess shutdownMsg])
      gtSessions.
Proof.
  unfold phase2. now rewrite trace_bind, actions_app, forEach_unit_trace, actions_flat_map.
Qed.

Lemma phase3_actions :
  exists waits : list time.Duration,
    actions (trace (phase3 f)) = map ESleep waits
    /\ total waits = Z.max 0 (shutdownWait f) * time.Second
    /\ Forall (fun d => 0 < d <= 5 * time.Second) waits.
Proof.
  unfold phase3. rewrite trace_bind, actions_app.
  apply countdown_waits.
Qed.

Lemma phase4_actions (gtSessions : list string) :
  actions (trace (phase4 MayorSessionName DeaconSessionName w gtSessions))
  = map EKillSession (killOrder MayorSessionName DeaconSessionName gtSessions)
  /\ result (phase4 MayorSessionName DeaconSessionName w gtSessions)
     = count (killed w) (killOrder MayorSessionName DeaconSessionName gtSessions).
Proof.
  unfold phase4. rewrite trace_bind, result_bind, actions_app.
  destruct (killSessionsInOrder_spec MayorSessionName DeaconSessionName w gtSessions)
    as (_ & A & R).
  split; [exact A | exact R].
Qed.

Lemma phase5_actions (townRoot : string) :
  actions (trace (phase5 f w townRoot))
  = if (townRoot =? EmptyString)%string then []
    else actions (trace (cleanupPolecats f w townRoot)).
Proof.
  unfold phase5. rewrite trace_bind, actions_app.
  destruct (townRoot =? EmptyString)%string; reflexivity.
Qed.

(** The graceful shutdown is its five phases, one after the other. *)
Lemma runGracefulShutdown_phases (gtSessions : list string) (townRoot : string) :
  let run := runGracefulShutdown MayorSessionName DeaconSessionName f w gtSessions townRoot in
  actions (trace run)
  = actions (trace (phase1 w gtSessions))
    ++ actions (trace (phase2 w gtSessions))
    ++ actions (trace (phase3 f))
    ++ actions (trace (phase4 MayorSessionName DeaconSessionName w gtSessions))
    ++ actions (trace (phase5 f w townRoot))
  /\ result run = None
  /\ In (EPrint (MsgGracefulComplete
                   (result (phase4 MayorSessionName DeaconSessionName w gtSessions))))
        (trace run).
Proof.
  intros run. subst run. unfold runGracefulShutdown.
  rewrite !trace_bind, !actions_app, !result_bind.
  cbn [print call ret trace result fst snd actions filter isPrint negb app].
  rewrite !app_nil_r. split; [reflexivity|]. split; [reflexivity|].
  right. rewrite !in_app_iff. do 5 right. right. left. reflexivity.
Qed.

End Graceful.

(** C5 (as amended): for a wait that is not negative, the graceful shutdown
    does, in this order: an interrupt (Escape) to every selected session; for
    every selected session a stagger of 500 ms and then the shutdown notice;
    sleeps of at most five seconds each that add up to exactly the
    configured number of seconds; the kills in termination order, whose
    successes are counted and reported; and the reclamation pass, which runs
    only when a workspace root was found ([townRoot] is not empty). *)
Theorem C5_graceful_shutdown_phases (MayorSessionName DeaconSessionName : string)
    (f : Flags) (w : World) (gtSessions : list string) (townRoot : string) :
  0 <= shutdownWait f ->
  let run := runGracefulShutdown MayorSessionName DeaconSessionName f w gtSessions townRoot in
  fivePhases MayorSessionName DeaconSessionName f w gtSessions townRoot
    (if (townRoot =? EmptyString)%string then []
     else actions (trace (cleanupPolecats f w townRoot)))
  /\ result run = None
  /\ In (EPrint (MsgGracefulComplete
                   (count (killed w)
                      (killOrder MayorSessionName DeaconSessionName gtSessions))))
        (trace run).
Proof.
  intros Hwait run.
  destruct (runGracefulShutdown_phases MayorSessionName DeaconSessionName f w
              gtSessions townRoot) as (A & R & P).
  destruct (phase4_actions MayorSessionName DeaconSessionName w gtSessions) as (A4 & R4).
  destruct (phase3_actions f) as (waits & A3 & T & F).
  split; [|split; [exact R | rewrite <- R4; exact P]].
  exists waits. split; [|split; [|exact F]].
  - rewrite A, phase1_actions, phase2_actions, A3, A4, phase5_actions. reflexivity.
  - rewrite T. f_equal. lia.
Qed.

Lemma C5_witness :
  0 <= shutdownWait defaultFlags
  /\ fivePhases "gt-mayor" "gt-deacon" defaultFlags town townToStop "/town"
       (actions (trace (cleanupPolecats defaultFlags town "/town"))).
Proof.
  assert (H : 0 <= shutdownWait defaultFlags) by (cbn; lia).
  split; [exact H|].
  exact (proj1 (C5_graceful_shutdown_phases "gt-mayor" "gt-deacon" defaultFlags town
                  townToStop "/town" H)).
Defined.

Example graceful_wait_12 :
  sleeps (trace (phase3 {| shutdownGraceful := true; shutdownWait := 12;
                           shutdownAll := false; shutdownYes := true;
                           shutdownPolecatsOnly := false; shutdownNuclear := false |}))
  = [5 * time.Second; 5 * time.Second; 2 * time.Second].
Proof. reflexivity. Qed.

Lemma ranCleanup_sleeps (waits : list time.Duration) : ranCleanup (map ESleep waits) = false.
Proof. induction waits; simpl; auto. Qed.

(** Outside a workspace [FindFromCwd] yields the empty root, and the
    graceful shutdown ends without a reclamation pass. *)
Lemma C5_counterexample :
  ~ gracefulAsWorded "gt-mayor" "gt-deacon" defaultFlags town townToStop EmptyString.
Proof.
  intros (waits & E & _).
  apply (f_equal ranCleanup) in E.
  rewrite !ranCleanup_app, ranCleanup_sleeps in E.
  vm_compute in E. discriminate.
Qed.

(** ** Which sessions a shutdown kills *)

Lemma kills_In (t : list Event) (sess : string) :
  In sess (kills t) <-> In (EKillSession sess) t.
Proof.
  induction t as [|e t IH]; simpl; [tauto|].
  destruct e; simpl; rewrite IH; try (intuition discriminate).
  split; intros [H|H]; auto; left; congruence.
Qed.

Lemma kills_none (t : list Event) :
  (forall sess, ~ In (EKillSession sess) t) -> kills t = [].
Proof.
  intros H. destruct (kills t) as [|sess l] eqn:E; [reflexivity|].
  exfalso. apply (H sess), kills_In. rewrite E. now left.
Qed.

Lemma kills_actions (t : list Event) : kills (actions t) = kills t.
Proof.
  induction t as [|e t IH]; [reflexivity|].
  destruct e; simpl; rewrite ?IH; reflexivity.
Qed.

Lemma kills_map_kill (l : list string) : kills (map EKillSession l) = l.
Proof. induction l as [|s l IH]; simpl; [|rewrite IH]; reflexivity. Qed.

(** The reclamation pass kills no session. *)
Lemma cleanupPolecats_kills (f : Flags) (w : World) (townRoot : string) :
  kills (trace (cleanupPolecats f w townRoot)) = [].
Proof.
  apply kills_none. intros sess H.
  apply run_event in H
    as [H|[(x & H)|[(x & H)|[(x & H)|(r & p & st & _ & H)]]]]; try discriminate.
  revert H. unfold cleanupPolecat.
  destruct (shutdownNuclear f);
    (destruct (CheckUncommittedWork w (polecat.ClonePath p)) as [status|]; run;
     [destruct (git.Clean status); run|]);
    try (destruct (RemoveWithOptions w r (polecat.Name p) true _); run);
    cbn; intros H;
    repeat (destruct H as [H|H]; [discriminate|]); exact H.
Qed.

Section Shutdown.

Variables MayorSessionName DeaconSessionName : string.
Variable f : Flags.
Variable w : World.

Lemma runGracefulShutdown_kills (gtSessions : list string) (townRoot : string) :
  kills (trace (runGracefulShutdown MayorSessionName DeaconSessionName f w
                  gtSessions townRoot))
  = killOrder MayorSessionName DeaconSessionName gtSessions.
Proof.
  rewrite <- kills_actions.
  destruct (runGracefulShutdown_phases MayorSessionName DeaconSessionName f w
              gtSessions townRoot) as (-> & _).
  destruct (phase3_actions f) as (waits & -> & _).
  destruct (phase4_actions MayorSessionName DeaconSessionName w gtSessions) as (-> & _).
  rewrite phase1_actions, phase2_actions, phase5_actions, !kills_app, kills_map_kill.
  assert (K1 : kills (map (fun sess => ESendKeysRaw sess "Escape") gtSessions) = [])
    by (induction gtSessions; simpl; auto).
  assert (K2 : kills (flat_map (fun sess => [ESleep (500 * time.Millisecond);
                                             ESendKeys sess shutdownMsg]) gtSessions) = [])
    by (induction gtSessions; simpl; auto).
  assert (K3 : kills (map ESleep waits) = []) by (induction waits; simpl; auto).
  rewrite K1, K2, K3.
  destruct (townRoot =? EmptyString)%string;
    [|rewrite kills_actions, cleanupPolecats_kills]; cbn [app kills];
    now rewrite app_nil_r.
Qed.

Lemma runImmediateShutdown_kills (gtSessions : list string) (townRoot : string) :
  kills (trace (runImmediateShutdown MayorSessionName DeaconSessionName f w
                  gtSessions townRoot))
  = killOrder MayorSessionName DeaconSessionName gtSessions.
Proof.
  unfold runImmediateShutdown. rewrite !trace_bind, !kills_app.
  destruct (killSessionsInOrder_spec MayorSessionName DeaconSessionName w gtSessions)
    as (-> & _).
  destruct (townRoot =? EmptyString)%string; cbn [negb];
    rewrite ?trace_bind, ?kills_app, ?cleanupPolecats_kills; cbn [print call ret trace
      snd kills app]; now rewrite ?app_nil_r.
Qed.

(** Whether the response to the prompt lets the shutdown go on. *)
Lemma confirm_cases :
  confirm f w
  = if shutdownYes f then (true, [])
    else
      let response :=
        strings.TrimSpace (strings.ToLower (ReadString (Stdin w) newline)) in
      if (response =? "y")%string || (response =? "yes")%string
      then (true, [EPrint MsgProceedPrompt; EReadStdin])
      else (false, [EPrint MsgProceedPrompt; EReadStdin; EPrint MsgShutdownCancelled]).
Proof.
  unfold confirm. destruct (shutdownYes f); [reflexivity|]. cbn [negb]. run.
  destruct (_ =? "y")%string; [reflexivity|].
  destruct (_ =? "yes")%string; reflexivity.
Qed.

Lemma confirm_kills : kills (trace (confirm f w)) = [].
Proof.
  rewrite confirm_cases. destruct (shutdownYes f); [reflexivity|].
  cbv zeta. destruct (_ || _); reflexivity.
Qed.

(** A shutdown kills nothing, or kills the selected sessions in
    termination order. *)
Lemma runShutdown_kills :
  kills (trace (runShutdown MayorSessionName DeaconSessionName f w)) = []
  \/ exists sessions,
       ListSessions w = Ok sessions
       /\ kills (trace (runShutdown MayorSessionName DeaconSessionName f w))
          = killOrder MayorSessionName DeaconSessionName
              (fst (categorizeSessions MayorSessionName DeaconSessionName f sessions)).
Proof.
  unfold runShutdown. rewrite !trace_bind.
  cbn [workspace.FindFromCwd tmux.ListSessions call result trace fst snd].
  destruct (ListSessions w) as [sessions|e]; [|now left].
  destruct (categorizeSessions MayorSessionName DeaconSessionName f sessions)
    as [toStop preserved] eqn:E.
  destruct (length toStop =? 0)%nat; [now left|].
  rewrite !trace_bind, !kills_app, forEach_print_trace, kills_prints, confirm_kills.
  assert (K : kills (trace (if (0 <? length preserved)%nat && negb (shutdownAll f)
                            then print MsgBlankLine ;;
                                 print MsgSessionsPreserved ;;
                                 forEach preserved
                                   (fun sess _ => print (MsgSessionPreserved sess)) tt
                            else ret tt)) = []).
  { destruct (_ && _); [|reflexivity].
    now rewrite !trace_bind, !kills_app, forEach_print_trace, kills_prints. }
  rewrite K. cbn [kills app print call trace snd].
  destruct (result (confirm f w)); [|now left].
  right. exists sessions. split; [reflexivity|]. rewrite E. cbn [fst].
  destruct (shutdownGraceful f);
    [apply runGracefulShutdown_kills | apply runImmediateShutdown_kills].
Qed.

End Shutdown.

(** C1: every shutdown either kills nothing or kills the selected sessions
    in the order of [killSessionsInOrder], immediately or after the graceful
    phases alike.  That order goes through exactly the selected sessions;
    when the Deacon is selected it is killed first and only once, and when
    the Mayor is selected it is killed last and only once, whatever the order
    of the listing. *)
Theorem C1_termination_order (MayorSessionName DeaconSessionName : string)
    (f : Flags) (w : World) (selected : list string) (townRoot : string) :
  MayorSessionName <> DeaconSessionName ->
  let order := kills (trace (killSessionsInOrder MayorSessionName DeaconSessionName
                               w selected)) in
  (kills (trace (runShutdown MayorSessionName DeaconSessionName f w)) = []
   \/ exists sessions,
        ListSessions w = Ok sessions
        /\ kills (trace (runShutdown MayorSessionName DeaconSessionName f w))
           = kills (trace (killSessionsInOrder MayorSessionName DeaconSessionName w
                             (fst (categorizeSessions MayorSessionName DeaconSessionName
                                     f sessions)))))
  /\ kills (trace (runImmediateShutdown MayorSessionName DeaconSessionName f w
                     selected townRoot)) = order
  /\ kills (trace (runGracefulShutdown MayorSessionName DeaconSessionName f w
                     selected townRoot)) = order
  /\ (forall sess, In sess order <-> In sess selected)
  /\ (In DeaconSessionName selected ->
      exists rest, order = DeaconSessionName :: rest /\ ~ In DeaconSessionName rest)
  /\ (In MayorSessionName selected ->
      exists front, order = front ++ [MayorSessionName] /\ ~ In MayorSessionName front).
Proof.
  intros distinct order.
  assert (E : forall l, kills (trace (killSessionsInOrder MayorSessionName DeaconSessionName
                                        w l))
                        = killOrder MayorSessionName DeaconSessionName l)
    by (intros l; apply killSessionsInOrder_spec).
  subst order. rewrite E.
  split; [|split; [|split; [|split; [|split]]]].
  - destruct (runShutdown_kills MayorSessionName DeaconSessionName f w)
      as [H|(sessions & Hl & H)]; [now left|].
    right. exists sessions. now rewrite E.
  - apply runImmediateShutdown_kills.
  - apply runGracefulShutdown_kills.
  - intros sess. apply killOrder_complete.
  - now apply killOrder_Deacon_first.
  - now apply killOrder_Mayor_last.
Qed.

Lemma C1_witness :
  "gt-mayor" <> "gt-deacon"
  /\ kills (trace (runImmediateShutdown "gt-mayor" "gt-deacon" yesFlags town
                     fourSessions "/town"))
     = ["gt-deacon"; "gt-gastown-a"; "gt-gastown-b"; "gt-mayor"]
  /\ kills (trace (runGracefulShutdown "gt-mayor" "gt-deacon" yesFlags town
                     fourSessions "/town"))
     = ["gt-deacon"; "gt-gastown-a"; "gt-gastown-b"; "gt-mayor"].
Proof.
  assert (H : "gt-mayor" <> "gt-deacon") by discriminate.
  split; [exact H|].
  destruct (C1_termination_order "gt-mayor" "gt-deacon" yesFlags town fourSessions
              "/town" H) as (_ & Hi & Hg & _).
  rewrite Hi, Hg. split; reflexivity.
Defined.

(** C8: a session whose name does not start with "gt-" is neither in the
    list to stop nor in the list of preserved sessions, and no shutdown calls
    [KillSession] on it. *)
Theorem C8_foreign_sessions_untouched (MayorSessionName DeaconSessionName : string)
    (f : Flags) (w : World) (sess : string) :
  strings.HasPrefix sess "gt-" = false ->
  (forall sessions,
     ~ In sess (fst (categorizeSessions MayorSessionName DeaconSessionName f sessions))
     /\ ~ In sess (snd (categorizeSessions MayorSessionName DeaconSessionName f sessions)))
  /\ ~ In (EKillSession sess)
          (trace (runShutdown MayorSessionName DeaconSessionName f w)).
Proof.
  intros Hforeign.
  assert (Hstop : forall sessions,
             ~ In sess (fst (categorizeSessions MayorSessionName DeaconSessionName
                               f sessions))).
  { intros sessions H. apply toStop_fleet in H as (_ & H). congruence. }
  split.
  - intros sessions. split; [apply Hstop|].
    intros H. apply preserved_fleet in H as (_ & H). congruence.
  - intros H. apply kills_In in H.
    destruct (runShutdown_kills MayorSessionName DeaconSessionName f w)
      as [E|(sessions & _ & E)]; rewrite E in H; [destruct H|].
    apply killOrder_complete in H. exact (Hstop sessions H).
Qed.

Lemma C8_witness :
  strings.HasPrefix "vim" "gt-" = false
  /\ ~ In (EKillSession "vim")
          (trace (runShutdown "gt-mayor" "gt-deacon" yesFlags
                    (withSessions town townSessions))).
Proof.
  assert (H : strings.HasPrefix "vim" "gt-" = false) by reflexivity.
  split; [exact H|].
  exact (proj2 (C8_foreign_sessions_untouched "gt-mayor" "gt-deacon" yesFlags
                  (withSessions town townSessions) "vim" H)).
Defined.

Example shutdown_of_the_town :
  kills (trace (runShutdown "gt-mayor" "gt-deacon" yesFlags
                  (withSessions town townSessions)))
  = ["gt-deacon"; "gt-gastown-Toast"; "gt-gastown-witness"; "gt-gastown-refinery";
     "gt-mayor"].
Proof. reflexivity. Qed.

(** ** Shutdowns that stop nothing *)

(** C9: when the listing succeeds and no session is selected for stopping,
    the shutdown looks up the workspace, lists the sessions, prints that Gas
    Town was not running and returns success: it kills no session and runs
    no reclamation pass, whatever is preserved and whatever polecats
    exist. *)
Theorem C9_nothing_to_stop (MayorSessionName DeaconSessionName : string)
    (f : Flags) (w : World) (sessions : list string) :
  ListSessions w = Ok sessions ->
  fst (categorizeSessions MayorSessionName DeaconSessionName f sessions) = [] ->
  let run := runShutdown MayorSessionName DeaconSessionName f w in
  result run = None
  /\ trace run = [EFindFromCwd; EListSessions; EPrint MsgWasNotRunning]
  /\ kills (trace run) = []
  /\ ranCleanup (trace run) = false.
Proof.
  intros Hl He run.
  assert (E : run = (None, [EFindFromCwd; EListSessions; EPrint MsgWasNotRunning])).
  { subst run. unfold runShutdown, workspace.FindFromCwd, tmux.ListSessions.
    run. rewrite Hl.
    destruct (categorizeSessions MayorSessionName DeaconSessionName f sessions)
      as [toStop preserved].
    cbn [fst] in He. subst toStop. reflexivity. }
  rewrite E. repeat split.
Qed.

Lemma C9_witness :
  ListSessions (withSessions town crewOnly) = Ok crewOnly
  /\ categorizeSessions "gt-mayor" "gt-deacon" defaultFlags crewOnly
     = ([], ["gt-gastown-crew-joe"])
  /\ isClean town Toast = true
  /\ runShutdown "gt-mayor" "gt-deacon" defaultFlags (withSessions town crewOnly)
     = (None, [EFindFromCwd; EListSessions; EPrint MsgWasNotRunning]).
Proof.
  split; [reflexivity|]. split; [reflexivity|]. split; [reflexivity|].
  destruct (C9_nothing_to_stop "gt-mayor" "gt-deacon" defaultFlags
              (withSessions town crewOnly) crewOnly eq_refl eq_refl) as (R & T & _).
  apply injective_projections; [exact R | exact T].
Defined.

(** C10: without [--yes], when there is something to stop, the shutdown
    prints the prompt and reads a line; unless that line, lowered and
    trimmed, is "y" or "yes", it prints that the shutdown is cancelled and
    returns success, having killed no session and run no reclamation
    pass. *)
Theorem C10_unconfirmed_shutdown_is_cancelled (MayorSessionName DeaconSessionName : string)
    (f : Flags) (w : World) (sessions : list string) :
  shutdownYes f = false ->
  ListSessions w = Ok sessions ->
  fst (categorizeSessions MayorSessionName DeaconSessionName f sessions) <> [] ->
  strings.TrimSpace (strings.ToLower (ReadString (Stdin w) newline)) <> "y" ->
  strings.TrimSpace (strings.ToLower (ReadString (Stdin w) newline)) <> "yes" ->
  let run := runShutdown MayorSessionName DeaconSessionName f w in
  result run = None
  /\ (exists shown,
        trace run
        = EFindFromCwd :: EListSessions :: shown
          ++ [EPrint MsgProceedPrompt; EReadStdin; EPrint MsgShutdownCancelled]
        /\ forallb isPrint shown = true)
  /\ kills (trace run) = []
  /\ ranCleanup (trace run) = false.
Proof.
  intros Hyes Hl Hstop Hy Hyes' run.
  apply String.eqb_neq in Hy, Hyes'.
  assert (Hc : confirm f w
               = (false, [EPrint MsgProceedPrompt; EReadStdin; EPrint MsgShutdownCancelled])).
  { rewrite confirm_cases, Hyes. cbv zeta. now rewrite Hy, Hyes'. }
  subst run. unfold runShutdown, workspace.FindFromCwd, tmux.ListSessions.
  rewrite !trace_bind, !result_bind. cbn [call result trace fst snd]. rewrite Hl.
  destruct (categorizeSessions MayorSessionName DeaconSessionName f sessions)
    as [toStop preserved].
  cbn [fst] in Hstop. destruct toStop as [|sess toStop]; [contradiction|].
  cbn [length Nat.eqb].
  rewrite !trace_bind, !result_bind, Hc. cbn [result trace fst snd ret print call app].
  rewrite forEach_print_trace.
  set (shownPreserved :=
         trace (if (0 <? length preserved)%nat && negb (shutdownAll f)
                then print MsgBlankLine ;;
                     print MsgSessionsPreserved ;;
                     forEach preserved (fun sess _ => print (MsgSessionPreserved sess)) tt
                else ret tt)).
  assert (Hp : exists l, shownPreserved = map EPrint l).
  { subst shownPreserved. destruct (_ && _); [|now exists []].
    exists (MsgBlankLine :: MsgSessionsPreserved :: map MsgSessionPreserved preserved).
    rewrite !trace_bind, forEach_print_trace. cbn [map]. now rewrite map_map. }
  destruct Hp as (l & ->).
  assert (Hprints : forall l', forallb isPrint (map EPrint l') = true)
    by (induction l'; simpl; auto).
  assert (Hk : forall l', kills (map EPrint l') = []) by (induction l'; simpl; auto).
  assert (Hr : forall l', ranCleanup (map EPrint l') = false)
    by (induction l'; simpl; auto).
  split; [reflexivity|]. split; [|split].
  - exists (map EPrint (MsgSessionsToStop :: map MsgSessionToStop (sess :: toStop)
                          ++ l ++ [MsgBlankLine])).
    split; [|apply Hprints].
    cbn [map app]. do 4 f_equal.
    rewrite !map_app, map_map, <- !app_assoc. reflexivity.
  - cbn [kills]. rewrite !kills_app, kills_prints, Hk. reflexivity.
  - unfold ranCleanup at 1. cbn [existsb isLoadRigsConfig orb].
    fold (ranCleanup (map (fun x => EPrint (MsgSessionToStop x)) (sess :: toStop)
                      ++ map EPrint l
                      ++ [EPrint MsgBlankLine; EPrint MsgProceedPrompt; EReadStdin;
                          EPrint MsgShutdownCancelled])).
    now rewrite !ranCleanup_app, ranCleanup_prints, Hr.
Qed.

Lemma C10_witness :
  shutdownYes defaultFlags = false
  /\ strings.TrimSpace (strings.ToLower (ReadString (Stdin (townAnswering "Nope")) newline))
     = "nope"
  /\ result (runShutdown "gt-mayor" "gt-deacon" defaultFlags (townAnswering "Nope")) = None
  /\ kills (trace (runShutdown "gt-mayor" "gt-deacon" defaultFlags (townAnswering "Nope")))
     = []
  /\ ranCleanup (trace (runShutdown "gt-mayor" "gt-deacon" defaultFlags
                          (townAnswering "Nope"))) = false.
Proof.
  split; [reflexivity|]. split; [reflexivity|].
  assert (Hstop : fst (categorizeSessions "gt-mayor" "gt-deacon" defaultFlags
                         ["gt-gastown-Toast"; "gt-mayor"; "gt-gastown-crew-joe"; "gt-deacon"])
                  <> []) by (vm_compute; discriminate).
  assert (Hy : strings.TrimSpace
                 (strings.ToLower (ReadString (Stdin (townAnswering "Nope")) newline))
               <> "y") by (vm_compute; discriminate).
  assert (Hyes : strings.TrimSpace
                   (strings.ToLower (ReadString (Stdin (townAnswering "Nope")) newline))
                 <> "yes") by (vm_compute; discriminate).
  destruct (C10_unconfirmed_shutdown_is_cancelled "gt-mayor" "gt-deacon" defaultFlags
              (townAnswering "Nope") _ eq_refl eq_refl Hstop Hy Hyes)
    as (R & _ & K & C).
  split; [exact R|]. split; [exact K | exact C].
Defined.

Example answer_yes_in_capitals :
  kills (trace (runShutdown "gt-mayor" "gt-deacon" defaultFlags (townAnswering " YES ")))
  = ["gt-deacon"; "gt-gastown-Toast"; "gt-mayor"].
Proof. reflexivity. Qed.

Example answer_y :
  kills (trace (runShutdown "gt-mayor" "gt-deacon" defaultFlags (townAnswering "y")))
  = ["gt-deacon"; "gt-gastown-Toast"; "gt-mayor"].
Proof. reflexivity. Qed.

Example answer_end_of_input :
  runShutdown "gt-mayor" "gt-deacon" defaultFlags town
  = (None,
     [EFindFromCwd; EListSessions; EPrint MsgSessionsToStop;
      EPrint (MsgSessionToStop "gt-gastown-Toast"); EPrint (MsgSessionToStop "gt-mayor");
      EPrint (MsgSessionToStop "gt-deacon"); EPrint MsgBlankLine;
      EPrint MsgSessionsPreserved; EPrint (MsgSessionPreserved "gt-gastown-crew-joe");
      EPrint MsgBlankLine;
      EPrint MsgProceedPrompt; EReadStdin; EPrint MsgShutdownCancelled]).
Proof. reflexivity. Qed.

(** ** Startup *)

Section Startup.

Variables MayorSessionName DeaconSessionName : string.
Variable w : World.

(** The session starts of [runStart], case by case. *)
Lemma runStart_starts :
  starts (trace (runStart MayorSessionName DeaconSessionName w))
  = match FindFromCwdOrError w with
    | Err _ => []
    | Ok _ =>
        if HasSession w MayorSessionName then
          if HasSession w DeaconSessionName then [] else [EStartDeaconSession]
        else
          match startMayorSession w with
          | Some _ => [EStartMayorSession]
          | None =>
              if HasSession w DeaconSessionName then [EStartMayorSession]
              else [EStartMayorSession; EStartDeaconSession]
          end
    end.
Proof.
  unfold runStart, workspace.FindFromCwdOrError, tmux.HasSession. run.
  destruct (FindFromCwdOrError w); [|reflexivity]. run.
  destruct (HasSession w MayorSessionName); run;
    [|destruct (startMayorSession w); run; [reflexivity|]];
    (destruct (HasSession w DeaconSessionName); run;
     [|destruct (startDeaconSession w); run]); reflexivity.
Qed.

Lemma runStart_result :
  result (runStart MayorSessionName DeaconSessionName w)
  = match FindFromCwdOrError w with
    | Err e => Some ("not in a Gas Town workspace: " ++ e)%string
    | Ok _ =>
        match (if HasSession w MayorSessionName then None else startMayorSession w) with
        | Some e => Some ("starting Mayor: " ++ e)%string
        | None =>
            match (if HasSession w DeaconSessionName then None
                   else startDeaconSession w) with
            | Some e => Some ("starting Deacon: " ++ e)%string
            | None => None
            end
        end
    end.
Proof.
  unfold runStart, workspace.FindFromCwdOrError, tmux.HasSession. run.
  destruct (FindFromCwdOrError w); [|reflexivity]. run.
  destruct (HasSession w MayorSessionName); run;
    [|destruct (startMayorSession w); run; [reflexivity|]];
    (destruct (HasSession w DeaconSessionName); run;
     [|destruct (startDeaconSession w); run]); reflexivity.
Qed.

End Startup.

(** C6 (as amended): startup starts the Mayor only if its session is
    absent and the Deacon only if its session is absent, each at most once
    and the Mayor before the Deacon; when both are absent and the Mayor
    starts, both are started in that order.  Run inside a workspace with both
    sessions live, startup starts nothing and succeeds; run outside a
    workspace it starts nothing and fails. *)
Theorem C6_startup_is_idempotent (MayorSessionName DeaconSessionName : string)
    (w : World) :
  let run := runStart MayorSessionName DeaconSessionName w in
  (In EStartMayorSession (trace run) -> HasSession w MayorSessionName = false)
  /\ (In EStartDeaconSession (trace run) -> HasSession w DeaconSessionName = false)
  /\ (exists mayor deacon : bool,
        starts (trace run)
        = (if mayor then [EStartMayorSession] else [])
          ++ (if deacon then [EStartDeaconSession] else []))
  /\ (forall townRoot,
        FindFromCwdOrError w = Ok townRoot ->
        HasSession w MayorSessionName = false ->
        HasSession w DeaconSessionName = false ->
        startMayorSession w = None ->
        starts (trace run) = [EStartMayorSession; EStartDeaconSession])
  /\ (HasSession w MayorSessionName = true ->
      HasSession w DeaconSessionName = true ->
      starts (trace run) = []
      /\ forall townRoot, FindFromCwdOrError w = Ok townRoot -> result run = None)
  /\ (forall e,
        FindFromCwdOrError w = Err e ->
        starts (trace run) = []
        /\ result run = Some ("not in a Gas Town workspace: " ++ e)%string).
Proof.
  intros run.
  pose proof (runStart_starts MayorSessionName DeaconSessionName w) as S.
  pose proof (runStart_result MayorSessionName DeaconSessionName w) as R.
  fold run in S, R.
  assert (Hin : forall e, isStart e = true -> In e (trace run) -> In e (starts (trace run))).
  { intros e He H. apply filter_In. auto. }
  split; [|split; [|split; [|split; [|split]]]].
  - intros H. apply (Hin EStartMayorSession eq_refl) in H. rewrite S in H.
    destruct (FindFromCwdOrError w); [|destruct H].
    destruct (HasSession w MayorSessionName); [|reflexivity].
    destruct (HasSession w DeaconSessionName); cbn in H; intuition discriminate.
  - intros H. apply (Hin EStartDeaconSession eq_refl) in H. rewrite S in H.
    destruct (FindFromCwdOrError w); [|destruct H].
    destruct (HasSession w DeaconSessionName); [|reflexivity].
    destruct (HasSession w MayorSessionName); [destruct H|].
    destruct (startMayorSession w); cbn in H; intuition discriminate.
  - rewrite S. destruct (FindFromCwdOrError w); [|now exists false, false].
    destruct (HasSession w MayorSessionName).
    + destruct (HasSession w DeaconSessionName);
        [now exists false, false | now exists false, true].
    + destruct (startMayorSession w); [now exists true, false|].
      destruct (HasSession w DeaconSessionName);
        [now exists true, false | now exists true, true].
  - intros townRoot Hw Hm Hd Hs. now rewrite S, Hw, Hm, Hd, Hs.
  - intros Hm Hd. rewrite S, R, Hm, Hd.
    split; [now destruct (FindFromCwdOrError w)|].
    intros townRoot E. now rewrite E.
  - intros e Hw. now rewrite S, R, Hw.
Qed.

Lemma C6_witness :
  HasSession town "gt-mayor" = true
  /\ HasSession town "gt-deacon" = true
  /\ starts (trace (runStart "gt-mayor" "gt-deacon" town)) = []
  /\ result (runStart "gt-mayor" "gt-deacon" town) = None
  /\ starts (trace (runStart "gt-mayor" "gt-deacon" (withSessions town [])))
     = [EStartMayorSession; EStartDeaconSession].
Proof.
  split; [reflexivity|]. split; [reflexivity|].
  destruct (C6_startup_is_idempotent "gt-mayor" "gt-deacon" town)
    as (_ & _ & _ & _ & Hlive & _).
  destruct (Hlive eq_refl eq_refl) as (Hs & Hr).
  destruct (C6_startup_is_idempotent "gt-mayor" "gt-deacon" (withSessions town []))
    as (_ & _ & _ & Hboth & _).
  split; [exact Hs|]. split; [exact (Hr _ eq_refl)|].
  exact (Hboth _ eq_refl eq_refl eq_refl eq_refl).
Defined.

(** Outside a workspace startup fails, with both sessions live or not. *)
Lemma C6_counterexample : ~ startupAsWorded "gt-mayor" "gt-deacon" outsideTown.
Proof.
  intros H. destruct (H eq_refl eq_refl) as (_ & R). discriminate R.
Qed.

Example runStart_outside :
  runStart "gt-mayor" "gt-deacon" outsideTown
  = (Some "not in a Gas Town workspace: no workspace found", [EFindFromCwdOrError]).
Proof. reflexivity. Qed.

Example runStart_twice :
  trace (runStart "gt-mayor" "gt-deacon" (withSessions town []))
  = [EFindFromCwdOrError; EPrint (MsgStarting "/town");
     EHasSession "gt-mayor"; EPrint MsgStartingMayor; EStartMayorSession;
     EPrint MsgMayorStarted;
     EHasSession "gt-deacon"; EPrint MsgStartingDeacon; EStartDeaconSession;
     EPrint MsgDeaconStarted;
     EPrint MsgBlankLine; EPrint MsgGasTownIsRunning; EPrint MsgBlankLine;
     EPrint MsgAttachToMayor; EPrint MsgAttachToDeacon; EPrint MsgCheckStatus]
  /\ trace (runStart "gt-mayor" "gt-deacon" (withSessions town ["gt-mayor"; "gt-deacon"]))
     = [EFindFromCwdOrError; EPrint (MsgStarting "/town");
        EHasSession "gt-mayor"; EPrint MsgMayorAlreadyRunning;
        EHasSession "gt-deacon"; EPrint MsgDeaconAlreadyRunning;
        EPrint MsgBlankLine; EPrint MsgGasTownIsRunning; EPrint MsgBlankLine;
        EPrint MsgAttachToMayor; EPrint MsgAttachToDeacon; EPrint MsgCheckStatus].
Proof. split; reflexivity. Qed.

(** ** The dispatch result record *)


(** C7: the JSON object of a result record has an "action" member that is
    "slung", "spawned" or "dry_run"; it always has the members "bead_id",
    "target" and "nudge_sent", with the values of the record; and each of
    "formula", "wisp_id", "convoy_id", "original_bead_id" and "polecat_name"
    is left out when its field is empty and carries the field otherwise. *)
Theorem C7_result_record_json (r : sling.slingResult) :
  let o := sling.Marshal r in
  (exists action,
     sling.get "action" o = Some (sling.VString action)
     /\ (action = "slung" \/ action = "spawned" \/ action = "dry_run"))
  /\ sling.get "bead_id" o = Some (sling.VString (sling.BeadID r))
  /\ sling.get "target" o = Some (sling.VString (sling.Target r))
  /\ sling.get "nudge_sent" o = Some (sling.VBool (sling.NudgeSent r))
  /\ sling.get "formula" o
     = (if (sling.Formula r =? EmptyString)%string then None
        else Some (sling.VString (sling.Formula r)))
  /\ sling.get "wisp_id" o
     = (if (sling.WispID r =? EmptyString)%string then None
        else Some (sling.VString (sling.WispID r)))
  /\ sling.get "convoy_id" o
     = (if (sling.ConvoyID r =? EmptyString)%string then None
        else Some (sling.VString (sling.ConvoyID r)))
  /\ sling.get "original_bead_id" o
     = (if (sling.OriginalBeadID r =? EmptyString)%string then None
        else Some (sling.VString (sling.OriginalBeadID r)))
  /\ sling.get "polecat_name" o
     = (if (sling.PolecatName r =? EmptyString)%string then None
        else Some (sling.VString (sling.PolecatName r))).
Proof.
  destruct r as [action beadID originalBeadID target formula wispID convoyID
                 spawned polecatName nudgeSent].
  unfold sling.Marshal, sling.omitemptyString, sling.omitemptyBool.
  cbn [sling.Action sling.BeadID sling.OriginalBeadID sling.Target sling.Formula
       sling.WispID sling.ConvoyID sling.SpawnedPolecat sling.PolecatName sling.NudgeSent].
  split.
  - exists (sling.actionString action). split; [reflexivity|].
    destruct action; simpl; auto.
  - destruct (originalBeadID =? EmptyString)%string, (formula =? EmptyString)%string,
      (wispID =? EmptyString)%string, (convoyID =? EmptyString)%string, (polecatName =? EmptyString)%string,
      spawned; repeat split.
Qed.

Example TestSlingResult_JSON :
  sling.Marshal basicSlung
  = [("action", sling.VString "slung"); ("bead_id", sling.VString "gt-abc123");
     ("target", sling.VString "gastown/crew/joe"); ("nudge_sent", sling.VBool true)]
  /\ sling.Marshal (emptyResult sling.slingActionDryRun "gt-abc123" "gastown/crew/joe")
     = [("action", sling.VString "dry_run"); ("bead_id", sling.VString "gt-abc123");
        ("target", sling.VString "gastown/crew/joe"); ("nudge_sent", sling.VBool false)]
  /\ sling.Marshal spawnedPolecat
     = [("action", sling.VString "spawned"); ("bead_id", sling.VString "gt-abc123");
        ("target", sling.VString "gastown/polecats/Toast");
        ("spawned_polecat", sling.VBool true); ("polecat_name", sling.VString "Toast");
        ("nudge_sent", sling.VBool true)]
  /\ sling.Marshal formulaOnBead
     = [("action", sling.VString "slung"); ("bead_id", sling.VString "gt-wisp-xyz");
        ("original_bead_id", sling.VString "gt-abc123"); ("target", sling.VString "mayor/");
        ("formula", sling.VString "mol-review"); ("wisp_id", sling.VString "gt-wisp-xyz");
        ("nudge_sent", sling.VBool true)]
  /\ sling.Marshal withConvoy
     = [("action", sling.VString "slung"); ("bead_id", sling.VString "gt-abc123");
        ("target", sling.VString "gastown/polecats/nux");
        ("convoy_id", sling.VString "gt-convoy-456"); ("nudge_sent", sling.VBool true)].
Proof. repeat split; reflexivity. Qed.

Example TestSlingResult_OmitEmpty :
  map fst (sling.Marshal (emptyResult sling.slingActionSlung "gt-test" "gastown/crew/joe"))
  = ["action"; "bead_id"; "target"; "nudge_sent"].
Proof. reflexivity. Qed.

Example TestSlingActionConstants :
  sling.actionString sling.slingActionSlung = "slung"
  /\ sling.actionString sling.slingActionDryRun = "dry_run"
  /\ sling.actionString sling.slingActionSpawned = "spawned".
Proof. repeat split; reflexivity. Qed.

(** * Further properties of [start.go] *)

(** ** Classification *)

Lemma filter_filter_same {A : Type} (P : A -> bool) (l : list A) :
  filter P (filter P l) = filter P l.
Proof.
  induction l as [|x l IH]; [reflexivity|].
  simpl. destruct (P x) eqn:E; simpl; rewrite ?E, IH; reflexivity.
Qed.

Lemma filter_filter_none {A : Type} (P Q : A -> bool) (l : list A) :
  (forall x, P x = true -> Q x = false) -> filter Q (filter P l) = [].
Proof.
  intros H. induction l as [|x l IH]; [reflexivity|].
  simpl. destruct (P x) eqn:E; simpl; [rewrite (H x E)|]; exact IH.
Qed.

(** X1: the two lists of [categorizeSessions] split the listed fleet
    sessions: a session is in one of them exactly when it is listed and its
    name starts with "gt-", no session is in both, and together they are as
    long as the listing has fleet sessions. *)
Theorem X1_classification_partitions (MayorSessionName DeaconSessionName : string)
    (f : Flags) (sessions : list string) :
  let toStop := fst (categorizeSessions MayorSessionName DeaconSessionName f sessions) in
  let preserved := snd (categorizeSessions MayorSessionName DeaconSessionName f sessions) in
  (forall sess,
     In sess toStop \/ In sess preserved
     <-> In sess sessions /\ strings.HasPrefix sess "gt-" = true)
  /\ (forall sess, ~ (In sess toStop /\ In sess preserved))
  /\ (length toStop + length preserved
      = length (filter (fun s => strings.HasPrefix s "gt-") sessions))%nat.
Proof.
  rewrite categorizeSessions_filter. cbn [fst snd].
  split; [|split].
  - intros sess. rewrite !filter_In. split.
    + intros [[H P]|[H P]]; apply andb_prop in P; tauto.
    + intros [H P]. rewrite P.
      destruct (stops MayorSessionName DeaconSessionName f sess); simpl; tauto.
  - intros sess. rewrite !filter_In. intros [[_ P] [_ Q]].
    apply andb_prop in P, Q.
    destruct (stops MayorSessionName DeaconSessionName f sess);
      simpl in *; intuition discriminate.
  - induction sessions as [|s l IH]; [reflexivity|].
    simpl. destruct (strings.HasPrefix s "gt-"); simpl; [|exact IH].
    destruct (stops MayorSessionName DeaconSessionName f s); simpl; lia.
Qed.

(** X2: classification goes session by session: the lists for a listing in
    two parts are the lists for the parts, appended. *)
Theorem X2_classification_of_append (MayorSessionName DeaconSessionName : string)
    (f : Flags) (first second : list string) :
  categorizeSessions MayorSessionName DeaconSessionName f (first ++ second)
  = (fst (categorizeSessions MayorSessionName DeaconSessionName f first)
     ++ fst (categorizeSessions MayorSessionName DeaconSessionName f second),
     snd (categorizeSessions MayorSessionName DeaconSessionName f first)
     ++ snd (categorizeSessions MayorSessionName DeaconSessionName f second)).
Proof. rewrite !categorizeSessions_filter, !filter_app. reflexivity. Qed.

(** X3: classifying again changes nothing: of the sessions to stop all are
    to stop and none is preserved, and of the preserved sessions all are
    preserved and none is to stop. *)
Theorem X3_classification_is_stable (MayorSessionName DeaconSessionName : string)
    (f : Flags) (sessions : list string) :
  let toStop := fst (categorizeSessions MayorSessionName DeaconSessionName f sessions) in
  let preserved := snd (categorizeSessions MayorSessionName DeaconSessionName f sessions) in
  categorizeSessions MayorSessionName DeaconSessionName f toStop = (toStop, [])
  /\ categorizeSessions MayorSessionName DeaconSessionName f preserved = ([], preserved).
Proof.
  intros toStop preserved. subst toStop preserved.
  rewrite (categorizeSessions_filter _ _ f sessions). cbn [fst snd].
  rewrite !categorizeSessions_filter.
  split; f_equal; try apply filter_filter_same; apply filter_filter_none; intros s H;
    apply andb_prop in H as [-> H]; simpl;
    destruct (stops MayorSessionName DeaconSessionName f s); simpl in *; congruence.
Qed.

(** X4: the selection depends on the flags [--polecats-only] and [--all]
    only, and with [--polecats-only] not even on [--all]. *)
Theorem X4_polecats_only_overrides_all (MayorSessionName DeaconSessionName : string)
    (f g : Flags) (sessions : list string) :
  shutdownPolecatsOnly f = shutdownPolecatsOnly g ->
  (shutdownPolecatsOnly f = false -> shutdownAll f = shutdownAll g) ->
  categorizeSessions MayorSessionName DeaconSessionName f sessions
  = categorizeSessions MayorSessionName DeaconSessionName g sessions.
Proof.
  intros Hp Ha. rewrite !categorizeSessions_filter.
  assert (E : forall s, stops MayorSessionName DeaconSessionName f s
                        = stops MayorSessionName DeaconSessionName g s).
  { intros s. unfold stops. rewrite <- Hp.
    destruct (shutdownPolecatsOnly f); [reflexivity|]. now rewrite Ha. }
  f_equal; apply filter_ext; intros s; now rewrite E.
Qed.

Lemma X4_witness :
  shutdownPolecatsOnly allAndPolecatsOnlyFlags = shutdownPolecatsOnly polecatsOnlyFlags
  /\ categorizeSessions "gt-mayor" "gt-deacon" allAndPolecatsOnlyFlags townSessions
     = (["gt-gastown-Toast"],
        ["gt-mayor"; "gt-gastown-crew-joe"; "gt-gastown-witness"; "gt-deacon";
         "gt-gastown-refinery"]).
Proof.
  split; [reflexivity|].
  rewrite (X4_polecats_only_overrides_all "gt-mayor" "gt-deacon" allAndPolecatsOnlyFlags
             polecatsOnlyFlags townSessions eq_refl
             (fun H : true = false => match Bool.diff_true_false H with end)).
  reflexivity.
Defined.

(** ** The two ways to shut down *)

(** The reclamation pass prints and makes its own calls, nothing else. *)
Lemma cleanupPolecats_events (f : Flags) (w : World) (townRoot : string) (e : Event) :
  In e (trace (cleanupPolecats f w townRoot)) -> isPrint e || isCleanupCall e = true.
Proof.
  intros H. apply run_event in H
    as [H|[(x & ->)|[(x & ->)|[(x & ->)|(r & p & st & _ & H)]]]];
    try reflexivity; [now rewrite H|].
  revert H. unfold cleanupPolecat.
  destruct (shutdownNuclear f);
    (destruct (CheckUncommittedWork w (polecat.ClonePath p)) as [status|]; run;
     [destruct (git.Clean status); run|]);
    try (destruct (RemoveWithOptions w r (polecat.Name p) true _); run);
    cbn; intros H;
    repeat (destruct H as [<-|H]; [reflexivity|]); destruct H.
Qed.

Lemma ranCleanup_actions (t : list Event) : ranCleanup (actions t) = ranCleanup t.
Proof.
  induction t as [|e t IH]; [reflexivity|].
  destruct e; simpl; rewrite ?IH; reflexivity.
Qed.

Lemma cleanupPolecats_ran (f : Flags) (w : World) (townRoot : string) :
  ranCleanup (trace (cleanupPolecats f w townRoot)) = true.
Proof.
  rewrite cleanupPolecats_trace. cbv zeta.
  destruct (LoadRigsConfig w _); [destruct (DiscoverRigs w townRoot _)|]; reflexivity.
Qed.

Lemma ranCleanup_kills (l : list string) : ranCleanup (map EKillSession l) = false.
Proof. induction l; simpl; auto. Qed.

Section Immediate.

Variables MayorSessionName DeaconSessionName : string.
Variable f : Flags.
Variable w : World.

Lemma runImmediateShutdown_actions (gtSessions : list string) (townRoot : string) :
  actions (trace (runImmediateShutdown MayorSessionName DeaconSessionName f w
                    gtSessions townRoot))
  = map EKillSession (killOrder MayorSessionName DeaconSessionName gtSessions)
    ++ (if (townRoot =? EmptyString)%string then []
        else actions (trace (cleanupPolecats f w townRoot))).
Proof.
  unfold runImmediateShutdown. rewrite !trace_bind, !actions_app.
  destruct (killSessionsInOrder_spec MayorSessionName DeaconSessionName w gtSessions)
    as (_ & -> & _).
  cbn [print call ret trace snd actions filter isPrint negb app]. f_equal.
  destruct (townRoot =? EmptyString)%string; cbn [negb];
    rewrite ?trace_bind, ?actions_app; cbn [print call ret trace snd actions filter
      isPrint negb app]; now rewrite ?app_nil_r.
Qed.

Lemma runImmediateShutdown_result (gtSessions : list string) (townRoot : string) :
  result (runImmediateShutdown MayorSessionName DeaconSessionName f w gtSessions townRoot)
  = None.
Proof. reflexivity. Qed.

End Immediate.

(** X5: the immediate shutdown kills the selected sessions in termination
    order, whether the kills succeed or not, and only then, if a workspace
    root was found, runs the reclamation pass; it makes no other call and
    reports the number of kills that succeeded. *)
Theorem X5_immediate_shutdown_order (MayorSessionName DeaconSessionName : string)
    (f : Flags) (w : World) (gtSessions : list string) (townRoot : string) :
  let run := runImmediateShutdown MayorSessionName DeaconSessionName f w
               gtSessions townRoot in
  actions (trace run)
  = map EKillSession (killOrder MayorSessionName DeaconSessionName gtSessions)
    ++ (if (townRoot =? EmptyString)%string then []
        else actions (trace (cleanupPolecats f w townRoot)))
  /\ In (EPrint (MsgShutdownComplete
                   (count (killed w)
                      (killOrder MayorSessionName DeaconSessionName gtSessions))))
        (trace run).
Proof.
  intros run. split; [apply runImmediateShutdown_actions|].
  subst run. unfold runImmediateShutdown.
  rewrite !trace_bind, !in_app_iff.
  destruct (killSessionsInOrder_spec MayorSessionName DeaconSessionName w gtSessions)
    as (_ & _ & ->).
  do 4 right. left. cbn. auto.
Qed.

(** ** [runShutdown] as a whole *)

Lemma prints_only (shown : list Event) :
  forallb isPrint shown = true ->
  kills shown = [] /\ ranCleanup shown = false /\ actions shown = [].
Proof.
  induction shown as [|e shown IH]; [repeat split|].
  simpl. intros H. apply andb_prop in H as [He H].
  destruct e; try discriminate. now apply IH.
Qed.

Lemma confirm_result (f : Flags) (w : World) : result (confirm f w) = confirmed f w.
Proof.
  rewrite confirm_cases. unfold confirmed.
  destruct (shutdownYes f); [reflexivity|]. cbv zeta. cbn [orb].
  destruct (_ || _); reflexivity.
Qed.

Section Steps.

Variables MayorSessionName DeaconSessionName : string.
Variable f : Flags.
Variable w : World.

(** With something to stop, [runShutdown] is: the two look-ups, the lists
    shown to the operator, the prompt, and what follows the prompt. *)
Lemma runShutdown_steps (sessions : list string) :
  ListSessions w = Ok sessions ->
  fst (categorizeSessions MayorSessionName DeaconSessionName f sessions) <> [] ->
  let toStop := fst (categorizeSessions MayorSessionName DeaconSessionName f sessions) in
  exists shown,
    forallb isPrint shown = true
    /\ trace (runShutdown MayorSessionName DeaconSessionName f w)
       = EFindFromCwd :: EListSessions :: shown
         ++ trace (confirm f w)
         ++ trace (afterPrompt MayorSessionName DeaconSessionName f w toStop)
    /\ result (runShutdown MayorSessionName DeaconSessionName f w)
       = result (afterPrompt MayorSessionName DeaconSessionName f w toStop).
Proof.
  intros Hl Hstop toStop. subst toStop.
  unfold runShutdown, workspace.FindFromCwd, tmux.ListSessions.
  rewrite !trace_bind, !result_bind. cbn [call result trace fst snd]. rewrite Hl.
  destruct (categorizeSessions MayorSessionName DeaconSessionName f sessions)
    as [toStop preserved].
  cbn [fst] in *. destruct toStop as [|sess toStop]; [contradiction|].
  cbn [length Nat.eqb].
  rewrite !trace_bind, !result_bind. cbn [result trace fst snd ret print call app].
  rewrite forEach_print_trace.
  set (shownPreserved :=
         trace (if (0 <? length preserved)%nat && negb (shutdownAll f)
                then print MsgBlankLine ;;
                     print MsgSessionsPreserved ;;
                     forEach preserved (fun sess _ => print (MsgSessionPreserved sess)) tt
                else ret tt)).
  assert (Hp : exists l, shownPreserved = map EPrint l).
  { subst shownPreserved. destruct (_ && _); [|now exists []].
    exists (MsgBlankLine :: MsgSessionsPreserved :: map MsgSessionPreserved preserved).
    rewrite !trace_bind, forEach_print_trace. cbn [map]. now rewrite map_map. }
  destruct Hp as (l & ->).
  exists (map EPrint (MsgSessionsToStop :: map MsgSessionToStop (sess :: toStop)
                      ++ l ++ [MsgBlankLine])).
  split; [|split].
  - generalize (MsgSessionsToStop :: map MsgSessionToStop (sess :: toStop)
                ++ l ++ [MsgBlankLine]).
    induction l0; simpl; auto.
  - unfold afterPrompt. cbn [map app]. do 4 f_equal.
    rewrite !map_app, map_map, <- !app_assoc. reflexivity.
  - reflexivity.
Qed.

Lemma afterPrompt_result (toStop : list string) :
  result (afterPrompt MayorSessionName DeaconSessionName f w toStop) = None.
Proof.
  unfold afterPrompt. destruct (result (confirm f w)); [|reflexivity].
  destruct (shutdownGraceful f); [|reflexivity].
  apply runGracefulShutdown_phases.
Qed.

Lemma runGracefulShutdown_ranCleanup (gtSessions : list string) (townRoot : string) :
  ranCleanup (trace (runGracefulShutdown MayorSessionName DeaconSessionName f w
                       gtSessions townRoot))
  = negb (townRoot =? EmptyString)%string.
Proof.
  rewrite <- ranCleanup_actions.
  destruct (runGracefulShutdown_phases MayorSessionName DeaconSessionName f w
              gtSessions townRoot) as (-> & _).
  destruct (phase3_actions f) as (waits & -> & _).
  destruct (phase4_actions MayorSessionName DeaconSessionName w gtSessions) as (-> & _).
  rewrite phase1_actions, phase2_actions, phase5_actions, !ranCleanup_app,
    ranCleanup_sleeps, ranCleanup_kills.
  assert (K1 : ranCleanup (map (fun sess => ESendKeysRaw sess "Escape") gtSessions) = false)
    by (induction gtSessions; simpl; auto).
  assert (K2 : ranCleanup (flat_map (fun sess => [ESleep (500 * time.Millisecond);
                                                  ESendKeys sess shutdownMsg])
                             gtSessions) = false)
    by (induction gtSessions; simpl; auto).
  rewrite K1, K2. cbn [orb].
  destruct (townRoot =? EmptyString)%string; [reflexivity|].
  now rewrite ranCleanup_actions, cleanupPolecats_ran.
Qed.

Lemma runImmediateShutdown_ranCleanup (gtSessions : list string) (townRoot : string) :
  ranCleanup (trace (runImmediateShutdown MayorSessionName DeaconSessionName f w
                       gtSessions townRoot))
  = negb (townRoot =? EmptyString)%string.
Proof.
  rewrite <- ranCleanup_actions, runImmediateShutdown_actions, ranCleanup_app,
    ranCleanup_kills.
  destruct (townRoot =? EmptyString)%string; [reflexivity|].
  now rewrite ranCleanup_actions, cleanupPolecats_ran.
Qed.

End Steps.

Lemma runShutdown_nothing (MayorSessionName DeaconSessionName : string)
    (f : Flags) (w : World) (sessions : list string) :
  ListSessions w = Ok sessions ->
  fst (categorizeSessions MayorSessionName DeaconSessionName f sessions) = [] ->
  runShutdown MayorSessionName DeaconSessionName f w
  = (None, [EFindFromCwd; EListSessions; EPrint MsgWasNotRunning]).
Proof.
  intros Hl He. unfold runShutdown, workspace.FindFromCwd, tmux.ListSessions.
  run. rewrite Hl.
  destruct (categorizeSessions MayorSessionName DeaconSessionName f sessions)
    as [toStop preserved].
  cbn [fst] in He. subst toStop. reflexivity.
Qed.

(** X6: a shutdown fails only when the sessions cannot be listed, and then
    it has done nothing but look up the workspace and ask for the listing;
    once the listing succeeds it returns success, whatever fails among the
    kills and in the reclamation pass. *)
Theorem X6_shutdown_fails_only_on_listing (MayorSessionName DeaconSessionName : string)
    (f : Flags) (w : World) :
  let run := runShutdown MayorSessionName DeaconSessionName f w in
  (forall sessions, ListSessions w = Ok sessions -> result run = None)
  /\ (forall e, ListSessions w = Err e ->
        run = (Some ("listing sessions: " ++ e)%string, [EFindFromCwd; EListSessions])).
Proof.
  intros run. split.
  - intros sessions Hl.
    destruct (fst (categorizeSessions MayorSessionName DeaconSessionName f sessions))
      as [|sess toStop] eqn:E.
    + subst run. now rewrite (runShutdown_nothing _ _ f w sessions Hl E).
    + assert (Hne : fst (categorizeSessions MayorSessionName DeaconSessionName f sessions)
                    <> []) by (rewrite E; discriminate).
      destruct (runShutdown_steps MayorSessionName DeaconSessionName f w sessions Hl Hne)
        as (shown & _ & _ & R).
      subst run. rewrite R. apply afterPrompt_result.
  - intros e Hl. subst run.
    unfold runShutdown, workspace.FindFromCwd, tmux.ListSessions. run. now rewrite Hl.
Qed.

Lemma X6_witness :
  ListSessions (withSessions town townSessions) = Ok townSessions
  /\ result (runShutdown "gt-mayor" "gt-deacon" nuclearFlags
               (withSessions town townSessions)) = None.
Proof.
  split; [reflexivity|].
  exact (proj1 (X6_shutdown_fails_only_on_listing "gt-mayor" "gt-deacon" nuclearFlags
                  (withSessions town townSessions)) townSessions eq_refl).
Defined.

(** X7: when the listing succeeds and the shutdown is confirmed, by [--yes]
    or by the answer "y" or "yes" in any case and between any white space,
    the sessions killed are exactly the selected ones, in termination order;
    and when there is at least one, the reclamation pass runs exactly if a
    workspace root was found. *)
Theorem X7_confirmed_shutdown (MayorSessionName DeaconSessionName : string)
    (f : Flags) (w : World) (sessions : list string) :
  ListSessions w = Ok sessions ->
  confirmed f w = true ->
  let run := runShutdown MayorSessionName DeaconSessionName f w in
  let toStop := fst (categorizeSessions MayorSessionName DeaconSessionName f sessions) in
  kills (trace run) = killOrder MayorSessionName DeaconSessionName toStop
  /\ (toStop <> [] ->
      ranCleanup (trace run) = negb (FindFromCwd w =? EmptyString)%string).
Proof.
  intros Hl Hc run toStop.
  destruct toStop as [|sess rest] eqn:E.
  - split; [|congruence]. subst run.
    now rewrite (runShutdown_nothing _ _ f w sessions Hl E).
  - assert (Hne : fst (categorizeSessions MayorSessionName DeaconSessionName f sessions)
                  <> []) by (fold toStop; rewrite E; discriminate).
    destruct (runShutdown_steps MayorSessionName DeaconSessionName f w sessions Hl Hne)
      as (shown & Hs & T & _).
    destruct (prints_only shown Hs) as (K & C & _).
    fold toStop in T. rewrite E in T. subst run. rewrite T.
    unfold afterPrompt. rewrite confirm_result, Hc.
    assert (Cc : ranCleanup (trace (confirm f w)) = false).
    { rewrite confirm_cases. destruct (shutdownYes f); [reflexivity|].
      cbv zeta. destruct (_ || _); reflexivity. }
    split; [|intros _].
    + cbn [kills]. rewrite !kills_app, K, confirm_kills. cbn [app].
      destruct (shutdownGraceful f);
        [apply runGracefulShutdown_kills | apply runImmediateShutdown_kills].
    + change (ranCleanup (EFindFromCwd :: EListSessions :: ?t)) with (ranCleanup t).
      rewrite !ranCleanup_app, C, Cc. cbn [orb].
      destruct (shutdownGraceful f);
        [apply runGracefulShutdown_ranCleanup | apply runImmediateShutdown_ranCleanup].
Qed.

Lemma X7_witness :
  ListSessions (townAnswering " Yes") = Ok ["gt-gastown-Toast"; "gt-mayor";
                                            "gt-gastown-crew-joe"; "gt-deacon"]
  /\ confirmed defaultFlags (townAnswering " Yes") = true
  /\ kills (trace (runShutdown "gt-mayor" "gt-deacon" defaultFlags (townAnswering " Yes")))
     = ["gt-deacon"; "gt-gastown-Toast"; "gt-mayor"]
  /\ ranCleanup (trace (runShutdown "gt-mayor" "gt-deacon" defaultFlags
                          (townAnswering " Yes"))) = true.
Proof.
  split; [reflexivity|]. split; [reflexivity|].
  destruct (X7_confirmed_shutdown "gt-mayor" "gt-deacon" defaultFlags
              (townAnswering " Yes") _ eq_refl eq_refl) as (K & C).
  split; [rewrite K; reflexivity|].
  rewrite C; [reflexivity | vm_compute; discriminate].
Defined.

Lemma In_actions (t : list Event) (e : Event) :
  isPrint e = false -> In e t -> In e (actions t).
Proof. intros H Hin. apply filter_In. now rewrite H. Qed.

Lemma afterPrompt_reads_nothing (MayorSessionName DeaconSessionName : string)
    (f : Flags) (w : World) (toStop : list string) :
  ~ In EReadStdin (trace (afterPrompt MayorSessionName DeaconSessionName f w toStop)).
Proof.
  assert (Hc : forall root, ~ In EReadStdin
                              (if (root =? EmptyString)%string then []
                               else actions (trace (cleanupPolecats f w root)))).
  { intros root H. destruct (root =? EmptyString)%string; [destruct H|].
    apply filter_In in H as [H _]. apply cleanupPolecats_events in H. discriminate. }
  assert (Hk : forall l, ~ In EReadStdin (map EKillSession l)).
  { intros l H. apply in_map_iff in H as (x & H & _). discriminate. }
  unfold afterPrompt. intros H.
  destruct (result (confirm f w)); [|destruct H].
  apply (In_actions _ EReadStdin eq_refl) in H.
  destruct (shutdownGraceful f).
  - destruct (runGracefulShutdown_phases MayorSessionName DeaconSessionName f w
                toStop (FindFromCwd w)) as (E & _).
    rewrite E in H.
    destruct (phase3_actions f) as (waits & E3 & _).
    destruct (phase4_actions MayorSessionName DeaconSessionName w toStop) as (E4 & _).
    rewrite phase1_actions, phase2_actions, E3, E4, phase5_actions, !in_app_iff in H.
    destruct H as [H|[H|[H|[H|H]]]].
    + apply in_map_iff in H as (x & H & _). discriminate.
    + apply in_flat_map in H as (x & _ & [H|[H|[]]]); discriminate.
    + apply in_map_iff in H as (x & H & _). discriminate.
    + exact (Hk _ H).
    + exact (Hc _ H).
  - rewrite runImmediateShutdown_actions, in_app_iff in H.
    destruct H as [H|H]; [exact (Hk _ H) | exact (Hc _ H)].
Qed.

(** When a shutdown reads a line from the terminal. *)
Lemma runShutdown_reads (MayorSessionName DeaconSessionName : string)
    (f : Flags) (w : World) :
  In EReadStdin (trace (runShutdown MayorSessionName DeaconSessionName f w))
  <-> shutdownYes f = false
      /\ exists sessions,
           ListSessions w = Ok sessions
           /\ fst (categorizeSessions MayorSessionName DeaconSessionName f sessions) <> [].
Proof.
  destruct (ListSessions w) as [sessions|e] eqn:Hl.
  - destruct (fst (categorizeSessions MayorSessionName DeaconSessionName f sessions))
      as [|sess toStop] eqn:E.
    + rewrite (runShutdown_nothing _ _ f w sessions Hl E). split.
      * cbn. intuition discriminate.
      * intros (_ & sessions' & [= <-] & H). now rewrite E in H.
    + assert (Hne : fst (categorizeSessions MayorSessionName DeaconSessionName f sessions)
                    <> []) by (rewrite E; discriminate).
      destruct (runShutdown_steps MayorSessionName DeaconSessionName f w sessions Hl Hne)
        as (shown & Hs & -> & _).
      rewrite confirm_cases. split.
      * intros [H|[H|H]]; try discriminate.
        rewrite !in_app_iff in H. destruct H as [H|[H|H]].
        -- exfalso. apply (In_actions _ EReadStdin eq_refl) in H.
           destruct (prints_only shown Hs) as (_ & _ & A). now rewrite A in H.
        -- destruct (shutdownYes f); [destruct H|]. split; [reflexivity|]. eauto.
        -- exfalso. exact (afterPrompt_reads_nothing _ _ _ _ _ H).
      * intros (Hy & _). rewrite Hy. cbv zeta.
        do 2 right. rewrite !in_app_iff. right. left.
        destruct (_ || _); cbn; auto.
  - unfold runShutdown, workspace.FindFromCwd, tmux.ListSessions. run. rewrite Hl.
    split.
    + cbn. intuition discriminate.
    + intros (_ & sessions & H & _). discriminate.
Qed.

(** X8: a shutdown reads a line from the terminal exactly when [--yes] is
    not set, the listing succeeded and there is something to stop; with
    [--yes] it never asks.  When it reads, it reads once, right after
    printing the prompt: no call before the prompt and no call after the
    answer reads the terminal. *)
Theorem X8_prompt_only_when_needed (MayorSessionName DeaconSessionName : string)
    (f : Flags) (w : World) :
  let t := trace (runShutdown MayorSessionName DeaconSessionName f w) in
  (In EReadStdin t
   <-> shutdownYes f = false
       /\ exists sessions,
            ListSessions w = Ok sessions
            /\ fst (categorizeSessions MayorSessionName DeaconSessionName f sessions)
               <> [])
  /\ (In EReadStdin t ->
      exists before after,
        t = before ++ [EPrint MsgProceedPrompt; EReadStdin] ++ after
        /\ ~ In EReadStdin before
        /\ ~ In EReadStdin after).
Proof.
  intros t. split; [apply runShutdown_reads|].
  intros H. apply runShutdown_reads in H as (Hy & sessions & Hl & Hne).
  destruct (runShutdown_steps MayorSessionName DeaconSessionName f w sessions Hl Hne)
    as (shown & Hs & Et & _).
  subst t. rewrite Et, confirm_cases, Hy. cbv zeta.
  assert (Hb : ~ In EReadStdin (EFindFromCwd :: EListSessions :: shown)).
  { intros [H|[H|H]]; try discriminate.
    apply (In_actions _ EReadStdin eq_refl) in H.
    destruct (prints_only shown Hs) as (_ & _ & A). now rewrite A in H. }
  pose proof (afterPrompt_reads_nothing MayorSessionName DeaconSessionName f w
                (fst (categorizeSessions MayorSessionName DeaconSessionName f sessions)))
    as Ha.
  exists (EFindFromCwd :: EListSessions :: shown).
  destruct (_ || _).
  - exists (trace (afterPrompt MayorSessionName DeaconSessionName f w
                     (fst (categorizeSessions MayorSessionName DeaconSessionName f
                             sessions)))).
    split; [reflexivity|]. split; assumption.
  - exists (EPrint MsgShutdownCancelled
            :: trace (afterPrompt MayorSessionName DeaconSessionName f w
                        (fst (categorizeSessions MayorSessionName DeaconSessionName f
                                sessions)))).
    split; [reflexivity|]. split; [assumption|].
    intros [H|H]; [discriminate | exact (Ha H)].
Qed.

Lemma X8_witness :
  In EReadStdin (trace (runShutdown "gt-mayor" "gt-deacon" defaultFlags
                          (townAnswering "n")))
  /\ exists before after,
       trace (runShutdown "gt-mayor" "gt-deacon" defaultFlags (townAnswering "n"))
       = before ++ [EPrint MsgProceedPrompt; EReadStdin] ++ after
       /\ ~ In EReadStdin before
       /\ ~ In EReadStdin after.
Proof.
  destruct (X8_prompt_only_when_needed "gt-mayor" "gt-deacon" defaultFlags
              (townAnswering "n")) as (Hiff & Honce).
  assert (Hin : In EReadStdin
                  (trace (runShutdown "gt-mayor" "gt-deacon" defaultFlags
                            (townAnswering "n")))).
  { apply Hiff. split; [reflexivity|].
    eexists. split; [reflexivity | vm_compute; discriminate]. }
  split; [exact Hin | exact (Honce Hin)].
Defined.

(** X9: a shutdown calls [KillSession] only on sessions of the listing, and
    on a crew session (one with "-crew-" in its name) only when [--all] is
    set and [--polecats-only] is not. *)
Theorem X9_crew_survives_without_all (MayorSessionName DeaconSessionName : string)
    (f : Flags) (w : World) (sess : string) :
  In (EKillSession sess) (trace (runShutdown MayorSessionName DeaconSessionName f w)) ->
  (exists sessions, ListSessions w = Ok sessions /\ In sess sessions)
  /\ (isCrew sess = true ->
      shutdownAll f = true /\ shutdownPolecatsOnly f = false).
Proof.
  intros H. apply kills_In in H.
  destruct (runShutdown_kills MayorSessionName DeaconSessionName f w)
    as [E|(sessions & Hl & E)]; rewrite E in H; [destruct H|].
  apply killOrder_complete in H.
  rewrite categorizeSessions_filter in H. cbn [fst] in H.
  apply filter_In in H as (Hin & H). apply andb_prop in H as (_ & H).
  split; [eauto|].
  intros Hc. unfold stops, isPolecat in H. rewrite Hc in H. cbn [negb andb] in H.
  destruct (shutdownPolecatsOnly f); [discriminate|].
  destruct (shutdownAll f); [auto | discriminate].
Qed.

Lemma X9_witness :
  In (EKillSession "gt-gastown-crew-joe")
     (trace (runShutdown "gt-mayor" "gt-deacon"
               {| shutdownGraceful := false; shutdownWait := 30; shutdownAll := true;
                  shutdownYes := true; shutdownPolecatsOnly := false;
                  shutdownNuclear := false |} town))
  /\ In "gt-gastown-crew-joe" ["gt-gastown-Toast"; "gt-mayor"; "gt-gastown-crew-joe";
                               "gt-deacon"].
Proof.
  assert (H : In (EKillSession "gt-gastown-crew-joe")
                (trace (runShutdown "gt-mayor" "gt-deacon"
                          {| shutdownGraceful := false; shutdownWait := 30;
                             shutdownAll := true; shutdownYes := true;
                             shutdownPolecatsOnly := false; shutdownNuclear := false |}
                          town))).
  { apply kills_In. vm_compute. auto. }
  split; [exact H|].
  destruct (X9_crew_survives_without_all "gt-mayor" "gt-deacon" _ town _ H)
    as ((sessions & Hl & Hin) & _).
  injection Hl as <-. exact Hin.
Defined.

(** X10: with [--polecats-only] a shutdown kills polecat sessions only:
    never the Mayor, never the Deacon, never a crew session, and never a
    session whose third name segment is "witness" or "refinery". *)
Theorem X10_polecats_only_spares_the_rest (MayorSessionName DeaconSessionName : string)
    (f : Flags) (w : World) (sess : string) :
  shutdownPolecatsOnly f = true ->
  In (EKillSession sess) (trace (runShutdown MayorSessionName DeaconSessionName f w)) ->
  sess <> MayorSessionName /\ sess <> DeaconSessionName /\ isCrew sess = false
  /\ exists role, nth_error (strings.Split sess "-") 2 = Some role
                  /\ role <> "witness" /\ role <> "refinery" /\ role <> "crew".
Proof.
  intros Hp H. apply kills_In in H.
  destruct (runShutdown_kills MayorSessionName DeaconSessionName f w)
    as [E|(sessions & Hl & E)]; rewrite E in H; [destruct H|].
  apply killOrder_complete in H.
  rewrite categorizeSessions_filter in H. cbn [fst] in H.
  apply filter_In in H as (_ & H). apply andb_prop in H as (_ & H).
  unfold stops in H. rewrite Hp in H.
  apply isPolecat_spec in H as (Hs & Hc & Hr).
  unfold isSingleton in Hs. apply orb_false_iff in Hs as (Hm & Hd).
  apply String.eqb_neq in Hm, Hd. auto.
Qed.

Lemma X10_witness :
  shutdownPolecatsOnly allAndPolecatsOnlyFlags = true
  /\ In (EKillSession "gt-gastown-Toast")
        (trace (runShutdown "gt-mayor" "gt-deacon" allAndPolecatsOnlyFlags
                  (withSessions town townSessions)))
  /\ "gt-gastown-Toast" <> "gt-mayor".
Proof.
  assert (H : In (EKillSession "gt-gastown-Toast")
                (trace (runShutdown "gt-mayor" "gt-deacon" allAndPolecatsOnlyFlags
                          (withSessions town townSessions)))).
  { apply kills_In. vm_compute. auto. }
  split; [reflexivity|]. split; [exact H|].
  exact (proj1 (X10_polecats_only_spares_the_rest "gt-mayor" "gt-deacon"
                  allAndPolecatsOnlyFlags (withSessions town townSessions) _ eq_refl H)).
Defined.

(** ** The count of stopped sessions *)

Lemma killOrder_length (MayorSessionName DeaconSessionName : string)
    (sessions : list string) :
  MayorSessionName <> DeaconSessionName ->
  (length (killOrder MayorSessionName DeaconSessionName sessions) <= length sessions)%nat
  /\ (NoDup sessions ->
      length (killOrder MayorSessionName DeaconSessionName sessions) = length sessions).
Proof.
  intros distinct. unfold killOrder. rewrite !length_app.
  induction sessions as [|s l [IHle IHeq]]; [split; [apply Nat.le_refl | reflexivity]|].
  cbn [inList filter length].
  destruct (String.eqb_spec s DeaconSessionName) as [->|HD].
  - assert (HM : (DeaconSessionName =? MayorSessionName)%string = false)
      by (apply String.eqb_neq; congruence).
    rewrite HM. cbn [orb negb length].
    split.
    + destruct (inList l DeaconSessionName); cbn [length] in *; lia.
    + intros Hnd. inversion Hnd as [|? ? Hnotin Hnd']; subst.
      specialize (IHeq Hnd').
      destruct (inList l DeaconSessionName) eqn:E;
        [apply inList_In in E; contradiction|].
      cbn [length] in *. lia.
  - destruct (String.eqb_spec s MayorSessionName) as [->|HM].
    + cbn [orb negb length]. split.
      * destruct (inList l MayorSessionName); cbn [length] in *; lia.
      * intros Hnd. inversion Hnd as [|? ? Hnotin Hnd']; subst.
        specialize (IHeq Hnd').
        destruct (inList l MayorSessionName) eqn:E;
          [apply inList_In in E; contradiction|].
        cbn [length] in *. lia.
    + cbn [orb negb length]. split.
      * lia.
      * intros Hnd. inversion Hnd as [|? ? Hnotin Hnd']; subst.
        specialize (IHeq Hnd'). lia.
Qed.

Lemma count_bounds {A : Type} (P : A -> bool) (l : list A) :
  0 <= count P l <= Z.of_nat (length l).
Proof. unfold count. pose proof (filter_length_le P l). lia. Qed.

Lemma count_all {A : Type} (P : A -> bool) (l : list A) :
  (forall x, In x l -> P x = true) -> count P l = Z.of_nat (length l).
Proof.
  intros H. unfold count. f_equal. f_equal.
  induction l as [|x l IH]; [reflexivity|].
  simpl. rewrite (H x (or_introl eq_refl)). f_equal. apply IH. intros y Hy. apply H.
  now right.
Qed.

(** X11: the number of stopped sessions that [killSessionsInOrder] returns
    is never negative and never more than the number of sessions it was
    given; when no session is given twice and every kill succeeds, it is
    exactly that number. *)
Theorem X11_stopped_is_bounded (MayorSessionName DeaconSessionName : string)
    (w : World) (sessions : list string) :
  MayorSessionName <> DeaconSessionName ->
  let stopped := result (killSessionsInOrder MayorSessionName DeaconSessionName
                           w sessions) in
  0 <= stopped <= Z.of_nat (length sessions)
  /\ (NoDup sessions ->
      (forall sess, In sess sessions -> KillSession w sess = None) ->
      stopped = Z.of_nat (length sessions)).
Proof.
  intros distinct stopped.
  destruct (killSessionsInOrder_spec MayorSessionName DeaconSessionName w sessions)
    as (_ & _ & R).
  destruct (killOrder_length MayorSessionName DeaconSessionName sessions distinct)
    as (Hle & Heq).
  subst stopped. rewrite R. split.
  - pose proof (count_bounds (killed w)
                  (killOrder MayorSessionName DeaconSessionName sessions)). lia.
  - intros Hnd Hall. rewrite count_all, (Heq Hnd); [reflexivity|].
    intros sess H. apply killOrder_complete in H.
    unfold killed. now rewrite (Hall sess H).
Qed.

Lemma X11_witness :
  "gt-mayor" <> "gt-deacon"
  /\ result (killSessionsInOrder "gt-mayor" "gt-deacon" town fourSessions) = 4.
Proof.
  assert (H : "gt-mayor" <> "gt-deacon") by discriminate.
  split; [exact H|].
  destruct (X11_stopped_is_bounded "gt-mayor" "gt-deacon" town fourSessions H)
    as (_ & Hall).
  rewrite Hall; [reflexivity | | reflexivity].
  repeat (constructor; [cbn; intuition discriminate|]). constructor.
Defined.

(** ** Startup, step by step *)

(** X12: [runStart] prints that Gas Town is running exactly when it returns
    success. *)
Theorem X12_running_message_iff_success (MayorSessionName DeaconSessionName : string)
    (w : World) :
  In (EPrint MsgGasTownIsRunning) (trace (runStart MayorSessionName DeaconSessionName w))
  <-> result (runStart MayorSessionName DeaconSessionName w) = None.
Proof.
  unfold runStart, workspace.FindFromCwdOrError, tmux.HasSession. run.
  destruct (FindFromCwdOrError w); run; [|cbn; intuition discriminate].
  destruct (HasSession w MayorSessionName); run;
    [|destruct (startMayorSession w); run; [cbn; intuition discriminate|]];
    (destruct (HasSession w DeaconSessionName); run;
     [|destruct (startDeaconSession w); run]);
    cbn; intuition discriminate.
Qed.

(** X13: [runStart] stops at the first failure.  When it returns an error,
    the last thing in its trace is the call that failed (the workspace
    look-up, the start of the Mayor or the start of the Deacon) and the
    error names that step; in particular the Deacon is not started after a
    failed start of the Mayor. *)
Theorem X13_startup_stops_at_first_failure (MayorSessionName DeaconSessionName : string)
    (w : World) (msg : string) :
  result (runStart MayorSessionName DeaconSessionName w) = Some msg ->
  let t := trace (runStart MayorSessionName DeaconSessionName w) in
  (exists e, FindFromCwdOrError w = Err e
             /\ msg = ("not in a Gas Town workspace: " ++ e)%string
             /\ t = [EFindFromCwdOrError])
  \/ (exists e before, startMayorSession w = Some e
                       /\ HasSession w MayorSessionName = false
                       /\ msg = ("starting Mayor: " ++ e)%string
                       /\ t = before ++ [EStartMayorSession]
                       /\ ~ In EStartDeaconSession before)
  \/ (exists e before, startDeaconSession w = Some e
                       /\ HasSession w DeaconSessionName = false
                       /\ msg = ("starting Deacon: " ++ e)%string
                       /\ t = before ++ [EStartDeaconSession]).
Proof.
  unfold runStart, workspace.FindFromCwdOrError, tmux.HasSession. run.
  destruct (FindFromCwdOrError w) as [root|e]; run.
  - destruct (HasSession w MayorSessionName) eqn:Hm; run;
      [|destruct (startMayorSession w) as [e|] eqn:Sm; run].
    + destruct (HasSession w DeaconSessionName) eqn:Hd; run;
        [discriminate|destruct (startDeaconSession w) as [e|] eqn:Sd; run];
        [|discriminate].
      intros [= <-]. right. right. exists e. eexists. repeat split.
      instantiate (1 := [_; _; _; _; _; _]). reflexivity.
    + intros [= <-]. right. left. exists e. eexists. repeat split.
      * instantiate (1 := [_; _; _; _]). reflexivity.
      * cbn. intuition discriminate.
    + destruct (HasSession w DeaconSessionName) eqn:Hd; run;
        [discriminate|destruct (startDeaconSession w) as [e|] eqn:Sd; run];
        [|discriminate].
      intros [= <-]. right. right. exists e. eexists. repeat split.
      instantiate (1 := [_; _; _; _; _; _; _; _]). reflexivity.
  - intros [= <-]. left. exists e. repeat split.
Qed.

Lemma X13_witness :
  result (runStart "gt-mayor" "gt-deacon" stuckTown)
  = Some "starting Mayor: tmux: command not found"
  /\ ~ In EStartDeaconSession (trace (runStart "gt-mayor" "gt-deacon" stuckTown)).
Proof.
  assert (H : result (runStart "gt-mayor" "gt-deacon" stuckTown)
              = Some "starting Mayor: tmux: command not found") by reflexivity.
  split; [exact H|].
  destruct (X13_startup_stops_at_first_failure "gt-mayor" "gt-deacon" stuckTown _ H)
    as [(e & He & _)|[(e & before & _ & _ & _ & -> & Hb)|(e & before & _ & _ & Hm & _)]].
  - vm_compute in He. discriminate He.
  - rewrite in_app_iff. intros [Hin|[Hin|[]]]; [exact (Hb Hin) | discriminate Hin].
  - cbn in Hm. discriminate Hm.
Defined.


Lemma iteration_lists_nothing (f : Flags) (w : World) (r : rig.Rig)
    (p : polecat.Polecat) (st : Totals) :
  filter isListing (trace (cleanupPolecat f w r p st)) = [].
Proof.
  unfold cleanupPolecat.
  destruct (shutdownNuclear f);
    (destruct (CheckUncommittedWork w (polecat.ClonePath p)) as [status|]; run;
     [destruct (git.Clean status); run|]);
    try (destruct (RemoveWithOptions w r (polecat.Name p) true _); run);
    reflexivity.
Qed.

Lemma flat_map_nil {A B : Type} (l : list A) : flat_map (fun _ : A => @nil B) l = [].
Proof. induction l; simpl; auto. Qed.

(** X14: when the rigs configuration cannot be loaded, or the rigs cannot
    be discovered, the reclamation pass says so and ends: it lists, checks
    and removes nothing and prints no summary. *)
Theorem X14_pass_gives_up_without_rigs (f : Flags) (w : World) (townRoot : string) :
  let path := Join w [townRoot; "mayor"; "rigs.json"] in
  (forall e, LoadRigsConfig w path = Err e ->
     cleanupPolecats f w townRoot
     = (tt, [ELoadRigsConfig path; EPrint (MsgCouldNotLoadRigs e)]))
  /\ (forall cfg e, LoadRigsConfig w path = Ok cfg ->
        DiscoverRigs w townRoot cfg = Err e ->
        cleanupPolecats f w townRoot
        = (tt, [ELoadRigsConfig path; EDiscoverRigs townRoot;
                EPrint (MsgCouldNotDiscoverRigs e)])).
Proof.
  intros path. unfold cleanupPolecats. fold path. split.
  - intros e E. run. rewrite E. reflexivity.
  - intros cfg e E1 E2. run. rewrite E1. run. rewrite E2. reflexivity.
Qed.

Lemma reported_are_skipped (f : Flags) (w : World)
    (l : list (rig.Rig * polecat.Polecat)) :
  (length (filter (reported f w) l)
   <= length (filter (fun rp => negb (reclaimed f w rp)) l))%nat.
Proof.
  induction l as [|rp l IH]; [apply Nat.le_refl|].
  simpl. unfold reported at 1, reclaimed at 1, proceeds, isUncommitted, isClean.
  destruct (shutdownNuclear f); simpl.
  - destruct (removalSucceeds f w rp); simpl; lia.
  - destruct (CheckUncommittedWork w (polecat.ClonePath (snd rp))) as [status|];
      [destruct (git.Clean status)|]; simpl; try lia.
    destruct (removalSucceeds f w rp); simpl; lia.
Qed.

Lemma totals_add_up (f : Flags) (w : World) (rigs : list rig.Rig) :
  0 <= totalCleaned (passTotals f w rigs)
  /\ 0 <= totalSkipped (passTotals f w rigs)
  /\ totalCleaned (passTotals f w rigs) + totalSkipped (passTotals f w rigs)
     = Z.of_nat (length (visited w rigs)).
Proof.
  destruct (passTotals_spec f w rigs) as (C & S & _).
  rewrite C, S. unfold count.
  pose proof (filter_length (reclaimed f w) (visited w rigs)). lia.
Qed.

(** X15: every polecat the pass visits is counted once, as cleaned or as
    skipped: the two totals are not negative and add up to the number of
    visited polecats, and the report of uncommitted polecats has at most as
    many lines as polecats were skipped. *)
Theorem X15_every_polecat_is_counted_once (f : Flags) (w : World) (rigs : list rig.Rig) :
  let T := passTotals f w rigs in
  0 <= totalCleaned T
  /\ 0 <= totalSkipped T
  /\ totalCleaned T + totalSkipped T = Z.of_nat (length (visited w rigs))
  /\ Z.of_nat (length (uncommittedPolecats T)) <= totalSkipped T.
Proof.
  intros T. destruct (passTotals_spec f w rigs) as (C & S & U).
  subst T. rewrite C, S, U. unfold count. rewrite length_map.
  pose proof (filter_length (reclaimed f w) (visited w rigs)) as L.
  pose proof (reported_are_skipped f w (visited w rigs)) as Hsub.
  lia.
Qed.

Section Summary.

Variable f : Flags.
Variable w : World.
Variable townRoot : string.

(** X16: when the rigs are discovered, the last line of the pass is the
    summary: "No polecats to clean up" when no polecat was visited, and
    otherwise the cleaned and skipped totals. *)
Theorem X16_summary_line (cfg : RigsConfig w) (rigs : list rig.Rig) :
  LoadRigsConfig w (Join w [townRoot; "mayor"; "rigs.json"]) = Ok cfg ->
  DiscoverRigs w townRoot cfg = Ok rigs ->
  exists before,
    trace (cleanupPolecats f w townRoot)
    = before
      ++ [EPrint (match visited w rigs with
                  | [] => MsgNoPolecats
                  | _ :: _ => MsgCleanedSkipped (totalCleaned (passTotals f w rigs))
                                (totalSkipped (passTotals f w rigs))
                  end)].
Proof.
  intros E1 E2. rewrite cleanupPolecats_trace. cbv zeta. rewrite E1, E2.
  unfold report. eexists. rewrite !app_assoc. f_equal. f_equal. f_equal.
  destruct (totals_add_up f w rigs) as (C & S & Sum).
  destruct (visited w rigs) as [|rp l]; cbn [length] in Sum.
  - replace (totalCleaned (passTotals f w rigs)) with 0 by lia.
    replace (totalSkipped (passTotals f w rigs)) with 0 by lia. reflexivity.
  - destruct (Z.ltb_spec 0 (totalCleaned (passTotals f w rigs)));
      [reflexivity|].
    destruct (Z.ltb_spec 0 (totalSkipped (passTotals f w rigs)));
      [reflexivity|lia].
Qed.

End Summary.

Lemma X14_witness :
  LoadRigsConfig unconfiguredTown (Join unconfiguredTown ["/town"; "mayor"; "rigs.json"])
  = Err "no such file"
  /\ cleanupPolecats defaultFlags unconfiguredTown "/town"
     = (tt, [ELoadRigsConfig "/town/mayor/rigs.json";
             EPrint (MsgCouldNotLoadRigs "no such file")]).
Proof.
  split; [reflexivity|].
  exact (proj1 (X14_pass_gives_up_without_rigs defaultFlags unconfiguredTown "/town")
           _ eq_refl).
Defined.

Lemma X16_witness :
  LoadRigsConfig town (Join town ["/town"; "mayor"; "rigs.json"]) = Ok tt
  /\ DiscoverRigs town "/town" tt = Ok [gastown]
  /\ exists before,
       trace (cleanupPolecats defaultFlags town "/town")
       = before ++ [EPrint (MsgCleanedSkipped 1 3)].
Proof.
  split; [reflexivity|]. split; [reflexivity|].
  exact (X16_summary_line defaultFlags town "/town" tt [gastown] eq_refl eq_refl).
Defined.

(** X17: the pass asks for the polecats of every discovered rig, once and
    in discovery order, also after a rig whose polecats could not be listed,
    and checks every visited polecat for uncommitted work, once and in
    visiting order. *)
Theorem X17_every_rig_listed_every_polecat_checked (f : Flags) (w : World)
    (townRoot : string) :
  filter isListing (trace (cleanupPolecats f w townRoot))
  = map EList (discovered w townRoot)
  /\ filter isCheck (trace (cleanupPolecats f w townRoot))
     = map checkOf (visited w (discovered w townRoot)).
Proof.
  split.
  - assert (Hrig : forall r st, filter isListing (trace (cleanupRig f w r st)) = [EList r]).
    { intros r st. unfold cleanupRig. rewrite trace_bind, filter_app.
      cbn [call trace result fst snd filter isListing].
      destruct (List w r) as [ps|e]; [|reflexivity].
      rewrite (forEach_filter isListing (fun _ => []))
        by (intros; apply iteration_lists_nothing).
      now rewrite flat_map_nil. }
    assert (Hreport : forall st, filter isListing (report st) = []).
    { intros st. assert (H := report_prints st).
      induction (report st) as [|e l IH]; [reflexivity|].
      simpl. assert (He : isPrint e = true) by (apply H; now left).
      destruct e; try discriminate. apply IH. intros e' He'. apply H. now right. }
    rewrite cleanupPolecats_trace. unfold discovered. cbv zeta.
    destruct (LoadRigsConfig w _) as [cfg|e]; [|reflexivity].
    destruct (DiscoverRigs w townRoot cfg) as [rigs|e]; [|reflexivity].
    rewrite !filter_app, Hreport, app_nil_r. cbn [filter isListing app].
    rewrite (forEach_filter isListing (fun r => [EList r])) by (intros; apply Hrig).
    apply flat_map_singleton.
  - rewrite (cleanupPolecats_filter f w isCheck (fun rp => [checkOf rp])).
    + apply flat_map_singleton.
    + intros e H. destruct e; try discriminate. repeat split. discriminate.
    + intros r p st. apply iteration_calls.
Qed.

(** X18: the removals of the pass are those of the visited polecats that
    checked clean, or of all visited polecats with [--nuclear], in visiting
    order and one each; every removal is forced and passes the nuclear flag
    on. *)
Theorem X18_removals_of_the_pass (f : Flags) (w : World) (townRoot : string) :
  filter isRemoval (trace (cleanupPolecats f w townRoot))
  = map (fun rp => ERemoveWithOptions (fst rp) (polecat.Name (snd rp)) true
                     (shutdownNuclear f))
      (filter (fun rp => shutdownNuclear f || isClean w (snd rp))
         (visited w (discovered w townRoot))).
Proof.
  rewrite (cleanupPolecats_filter f w isRemoval
             (fun rp => if proceeds f w (snd rp) then [removalOf f rp] else [])).
  - apply flat_map_if.
  - intros e H. destruct e; try discriminate. repeat split. discriminate.
  - intros r p st. apply iteration_calls.
Qed.

(** X19: the pass deletes one branch for each polecat it counts as cleaned
    and no other: the branch "polecat/<name>", by force, in the mayor's
    clone of the polecat's rig; so there are as many branch deletions as the
    cleaned total says. *)
Theorem X19_branches_of_cleaned_polecats (f : Flags) (w : World) (townRoot : string) :
  filter isDeletion (trace (cleanupPolecats f w townRoot))
  = map (fun rp => EDeleteBranch (Join w [rig.Path (fst rp); "mayor"; "rig"])
                     (branchName (polecat.Name (snd rp))) true)
      (filter (reclaimed f w) (visited w (discovered w townRoot)))
  /\ Z.of_nat (length (filter isDeletion (trace (cleanupPolecats f w townRoot))))
     = totalCleaned (passTotals f w (discovered w townRoot)).
Proof.
  assert (E : filter isDeletion (trace (cleanupPolecats f w townRoot))
              = map (deletionOf w)
                  (filter (reclaimed f w) (visited w (discovered w townRoot)))).
  { rewrite (cleanupPolecats_filter f w isDeletion
               (fun rp => if reclaimed f w rp then [deletionOf w rp] else [])).
    - apply flat_map_if.
    - intros e H. destruct e; try discriminate. repeat split. discriminate.
    - intros r p st. apply iteration_calls. }
  split; [exact E|].
  rewrite E, length_map.
  destruct (passTotals_spec f w (discovered w townRoot)) as (-> & _). reflexivity.
Qed.

Lemma filter_all {A : Type} (P : A -> bool) (l : list A) :
  (forall x, P x = true) -> filter P l = l.
Proof.
  intros H. induction l as [|x l IH]; [reflexivity|].
  simpl. now rewrite H, IH.
Qed.

Lemma filter_none {A : Type} (P : A -> bool) (l : list A) :
  (forall x, P x = false) -> filter P l = [].
Proof.
  intros H. induction l as [|x l IH]; [reflexivity|].
  simpl. now rewrite H.
Qed.

(** X20: with [--nuclear] the pass tries to remove every polecat it visits;
    no polecat is listed as uncommitted, and the skipped total counts the
    removals that failed and nothing else. *)
Theorem X20_nuclear_removes_everything (f : Flags) (w : World) (townRoot : string) :
  shutdownNuclear f = true ->
  let rigs := discovered w townRoot in
  filter isRemoval (trace (cleanupPolecats f w townRoot))
  = map (fun rp => ERemoveWithOptions (fst rp) (polecat.Name (snd rp)) true true)
      (visited w rigs)
  /\ uncommittedPolecats (passTotals f w rigs) = []
  /\ totalSkipped (passTotals f w rigs)
     = count (fun rp => negb (removalSucceeds f w rp)) (visited w rigs)
  /\ totalCleaned (passTotals f w rigs) = count (removalSucceeds f w) (visited w rigs).
Proof.
  intros Hn rigs. subst rigs.
  destruct (passTotals_spec f w (discovered w townRoot)) as (C & S & U).
  rewrite C, S, U. split; [|split; [|split]].
  - rewrite (cleanupPolecats_filter f w isRemoval
               (fun rp => if proceeds f w (snd rp) then [removalOf f rp] else [])).
    + rewrite flat_map_if. unfold removalOf. rewrite Hn.
      f_equal. apply filter_all. intros rp. unfold proceeds. now rewrite Hn.
    + intros e H. destruct e; try discriminate. repeat split. discriminate.
    + intros r p st. apply iteration_calls.
  - rewrite filter_none; [reflexivity|].
    intros rp. unfold reported. now rewrite Hn.
  - unfold count. do 2 f_equal. apply filter_ext. intros rp.
    unfold reclaimed, proceeds. now rewrite Hn.
  - unfold count. do 2 f_equal. apply filter_ext. intros rp.
    unfold reclaimed, proceeds. now rewrite Hn.
Qed.

Lemma X20_witness :
  shutdownNuclear nuclearFlags = true
  /\ filter isRemoval (trace (cleanupPolecats nuclearFlags town "/town"))
     = [ERemoveWithOptions gastown "Toast" true true;
        ERemoveWithOptions gastown "nux" true true;
        ERemoveWithOptions gastown "rust" true true;
        ERemoveWithOptions gastown "slit" true true]
  /\ totalSkipped (passTotals nuclearFlags town (discovered town "/town")) = 1.
Proof.
  split; [reflexivity|].
  destruct (X20_nuclear_removes_everything nuclearFlags town "/town" eq_refl)
    as (R & _ & S & _).
  rewrite R, S. split; reflexivity.
Defined.

Example pass_over_two_rigs :
  filter isListing (trace (cleanupPolecats defaultFlags twoRigs "/town"))
  = [EList beads; EList gastown]
  /\ filter isCheck (trace (cleanupPolecats defaultFlags twoRigs "/town"))
     = [ECheckUncommittedWork "/town/gastown/polecats/Toast";
        ECheckUncommittedWork "/town/gastown/polecats/nux";
        ECheckUncommittedWork "/town/gastown/polecats/rust";
        ECheckUncommittedWork "/town/gastown/polecats/slit"].
Proof. split; reflexivity. Qed.

(** ** The waits of the graceful shutdown *)

Lemma sleeps_actions (t : list Event) : sleeps (actions t) = sleeps t.
Proof.
  induction t as [|e t IH]; [reflexivity|].
  destruct e; simpl; rewrite ?IH; reflexivity.
Qed.

Lemma total_repeat (d : Z) (n : nat) : total (repeat d n) = d * Z.of_nat n.
Proof. induction n as [|n IH]; cbn [repeat total fold_right]; [lia|]. fold (total (repeat d n)). lia. Qed.

(** The countdown sleeps five seconds as often as five goes into what is
    left of the wait, and then for the rest. *)
Lemma countdown_sleeps (bound remaining : Z) :
  sleeps (trace (countdown bound remaining))
  = repeat (5 * time.Second) (Z.to_nat (Z.max 0 remaining / 5))
    ++ (if Z.max 0 remaining mod 5 =? 0 then []
        else [(Z.max 0 remaining mod 5) * time.Second]).
Proof.
  funelim (countdown bound remaining).
  - specialize (H tt tt). rewrite !trace_bind, !sleeps_app, H.
    assert (P : sleeps (trace (if remaining <? shutdownWait0
                               then print (MsgRemaining remaining) else ret tt)) = [])
      by (destruct (remaining <? shutdownWait0); reflexivity).
    rewrite P. cbn [Sleep call trace snd sleeps app].
    destruct (Z.ltb_spec remaining 5) as [Hlt|Hge].
    + replace (Z.max 0 (remaining - 5)) with 0 by lia.
      replace (Z.max 0 remaining) with remaining by lia.
      rewrite (Z.div_small remaining 5), (Z.mod_small remaining 5) by lia.
      destruct (Z.eqb_spec remaining 0); [lia|reflexivity].
    + replace (Z.max 0 (remaining - 5)) with (remaining - 5) by lia.
      replace (Z.max 0 remaining) with remaining by lia.
      assert (Ed : (remaining - 5) / 5 = remaining / 5 - 1).
      { replace (remaining - 5) with (remaining + (-1) * 5) by lia.
        rewrite Z.div_add by lia. lia. }
      assert (Em : (remaining - 5) mod 5 = remaining mod 5).
      { replace (remaining - 5) with (remaining + (-1) * 5) by lia.
        now rewrite Z.mod_add by lia. }
      assert (Hq : 1 <= remaining / 5) by (apply Z.div_le_lower_bound; lia).
      rewrite Ed, Em.
      replace (Z.to_nat (remaining / 5)) with (S (Z.to_nat (remaining / 5 - 1))) by lia.
      reflexivity.
  - replace (Z.max 0 remaining) with 0 by lia. reflexivity.
Qed.

Lemma cleanupPolecats_sleeps (f : Flags) (w : World) (townRoot : string) :
  sleeps (trace (cleanupPolecats f w townRoot)) = [].
Proof.
  assert (H := cleanupPolecats_events f w townRoot).
  induction (trace (cleanupPolecats f w townRoot)) as [|e t IH]; [reflexivity|].
  assert (He : isPrint e || isCleanupCall e = true) by (apply H; now left).
  destruct e; try discriminate; simpl; apply IH; intros e' He'; apply H; now right.
Qed.

Lemma runGracefulShutdown_sleeps (MayorSessionName DeaconSessionName : string)
    (f : Flags) (w : World) (gtSessions : list string) (townRoot : string) :
  sleeps (trace (runGracefulShutdown MayorSessionName DeaconSessionName f w
                   gtSessions townRoot))
  = repeat (500 * time.Millisecond) (length gtSessions)
    ++ sleeps (trace (countdown (shutdownWait f) (shutdownWait f))).
Proof.
  rewrite <- sleeps_actions.
  destruct (runGracefulShutdown_phases MayorSessionName DeaconSessionName f w
              gtSessions townRoot) as (-> & _).
  destruct (phase4_actions MayorSessionName DeaconSessionName w gtSessions) as (-> & _).
  rewrite phase1_actions, phase2_actions, phase5_actions, !sleeps_app, sleeps_actions.
  assert (K1 : sleeps (map (fun sess => ESendKeysRaw sess "Escape") gtSessions) = [])
    by (induction gtSessions; simpl; auto).
  assert (K2 : sleeps (flat_map (fun sess => [ESleep (500 * time.Millisecond);
                                              ESendKeys sess shutdownMsg]) gtSessions)
               = repeat (500 * time.Millisecond) (length gtSessions)).
  { induction gtSessions as [|s l IH]; [reflexivity|].
    cbn [flat_map app sleeps length repeat]. now rewrite IH. }
  assert (K4 : forall l, sleeps (map EKillSession l) = [])
    by (induction l; simpl; auto).
  assert (K5 : sleeps (if (townRoot =? EmptyString)%string then []
                       else actions (trace (cleanupPolecats f w townRoot))) = []).
  { destruct (townRoot =? EmptyString)%string; [reflexivity|].
    now rewrite sleeps_actions, cleanupPolecats_sleeps. }
  rewrite K1, K2, K4, K5, !app_nil_r. cbn [app]. reflexivity.
Qed.


(** X22: in all, the graceful shutdown sleeps the configured wait (nothing
    for a negative one) and half a second for each selected session. *)
Theorem X22_time_asleep (MayorSessionName DeaconSessionName : string)
    (f : Flags) (w : World) (gtSessions : list string) (townRoot : string) :
  total (sleeps (trace (runGracefulShutdown MayorSessionName DeaconSessionName f w
                          gtSessions townRoot)))
  = Z.max 0 (shutdownWait f) * time.Second
    + 500 * time.Millisecond * Z.of_nat (length gtSessions).
Proof.
  rewrite runGracefulShutdown_sleeps, countdown_sleeps, !total_app, !total_repeat.
  set (wait := Z.max 0 (shutdownWait f)).
  assert (Hw : 0 <= wait) by (subst wait; lia).
  assert (R : total (if wait mod 5 =? 0 then [] else [(wait mod 5) * time.Second])
              = (wait mod 5) * time.Second).
  { destruct (Z.eqb_spec (wait mod 5) 0) as [->|_]; cbn [total fold_right]; lia. }
  rewrite R. unfold time.Second, time.Millisecond.
  rewrite Z2Nat.id by (apply Z.div_pos; lia).
  pose proof (Z.div_mod wait 5). lia.
Qed.



Example remaining_of_twelve :
  filter isPrint (trace (countdown 12 12))
  = [EPrint (MsgRemaining 7); EPrint (MsgRemaining 2)].
Proof. reflexivity. Qed.
